(** * SkillBridge: the client-side glue, embedded and verified

    A shallow embedding of the view/controller code of the SkillBridge
    marketplace client:

    - [src/hooks/useAuth.tsx]   the authentication provider (session facade),
    - [src/pages/Auth.tsx]      the sign-in / sign-up form,
    - [src/pages/Checkout.tsx]  the manual USDT checkout,
    - [src/pages/Admin.tsx]     the submission review of the admin console,
    - [src/utils/cloudinary.ts] the file names of the uploads.

    The handlers are [async] functions that read React state captured at
    render time, call the hosted backend and commit new state.  They are
    embedded as programs of a state-and-exception monad over a [World] that
    holds the backend tables, the host clock, the React state of each
    component and a log of everything observable (requests, console lines,
    toasts, state commits).  [await] is sequencing; what the backend answers
    to each call is read from a plan carried by the world, so that every
    theorem quantifies over all the ways the backend can answer.

    A handler is run from its first statement to its last: what another
    handler still in flight commits while this one waits is not part of a
    run.  The one exception is the module-level cache of useAuth.tsx, which
    [signIn] reads after it has waited for the auth service: what a fetch
    in flight has written there by then comes with the answer of the auth
    service.  The state a handler starts from is arbitrary, so a theorem
    about one handler holds after any history of the others.

    The numbers the handlers compute with (payment amounts, earnings,
    counters, prices) are binary64 values, added as IEEE 754 prescribes.
    Time values, and the integer columns that the program only copies or
    sets to a literal, are integers ([Z]). *)

From Stdlib Require Import ZArith String List Bool Ascii Lia SpecFloat.
From stdpp Require Import base option gmap strings list pretty.

Local Open Scope string_scope.
Local Open Scope Z_scope.

(** ** JavaScript values and operators used by the handlers *)

Module Js.

(** An [Error] object, of which the code only reads [message]. *)
Record Error := mkError { message : string }.

(** A number is an IEEE 754 binary64 value: [spec_float] is the Standard
    Library's specification of such values (a sign, a mantissa and an
    exponent; two zeros, two infinities, one NaN), a double being a value
    that is [valid_binary] for a precision of 53 bits and exponents below
    1024. *)
Definition number : Type := spec_float.
Definition prec : Z := 53.
Definition emax : Z := 1024.
Definition is_double (x : number) : bool := valid_binary prec emax x.

(** The number that an integer literal or an integer column denotes: the
    nearest double. *)
Definition of_Z (z : Z) : number := binary_normalize prec emax z 0 false.
Definition zero : number := S754_zero false.
Definition neg_zero : number := S754_zero true.
Definition nan : number := S754_nan.
Definition is_nan (x : number) : bool :=
  match x with S754_nan => true | _ => false end.

(** [x + y]: the sum, rounded to the nearest double, ties to even. *)
Definition add (x y : number) : number := SFadd prec emax x y.

(** [-x]; [undefined] (here [None]) is converted to [NaN] first. *)
Definition neg (x : option number) : number :=
  match x with Some v => SFopp v | None => nan end.

(** [x / y], for the decimal fractions of the examples. *)
Definition div (x y : number) : number := SFdiv prec emax x y.

(** Whether [r] is the sum of [x] and [y] as real numbers, all three
    finite: their values compared as multiples of the smallest power of two
    among their exponents. *)
Definition exponent (x : number) : Z :=
  match x with S754_finite _ _ e => e | _ => 0 end.
Definition scaled (e0 : Z) (x : number) : option Z :=
  match x with
  | S754_zero _ => Some 0
  | S754_finite s m e => Some (cond_Zopp s (Zpos m) * 2 ^ (e - e0))
  | _ => None
  end.
Definition is_sum (x y r : number) : bool :=
  let e0 := Z.min (exponent x) (Z.min (exponent y) (exponent r)) in
  match scaled e0 x, scaled e0 y, scaled e0 r with
  | Some a, Some b, Some c => a + b =? c
  | _, _, _ => false
  end.

(** Truthiness of a number (the zeros and [NaN] are falsy) or of a
    string. *)
Definition truthy_num (x : number) : bool :=
  match x with S754_zero _ | S754_nan => false | _ => true end.
Definition truthy_str (s : string) : bool :=
  match s with EmptyString => false | String _ _ => true end.

(** [x || 0] on a nullable number. *)
Definition or_zero (x : option number) : number :=
  match x with
  | Some v => if truthy_num v then v else zero
  | None => zero
  end.

(** [SameValueZero], the equality of the language that does not tell the
    two zeros apart and takes [NaN] as equal to itself. *)
Definition same_value_zero (x y : number) : bool :=
  match x, y with
  | S754_nan, S754_nan => true
  | _, _ => SFeqb x y
  end.

(** The numbers that [x || 0] leaves as they are: all but [NaN] and the
    negative zero. *)
Definition own_value (x : number) : bool :=
  match x with S754_nan | S754_zero true => false | _ => true end.

Definition is_finite (x : number) : bool :=
  match x with S754_zero _ | S754_finite _ _ _ => true | _ => false end.

(** A value in a template literal: [undefined] is rendered by name. *)
Definition template (s : option string) : string := default "undefined" s.

(** [s || null] and [s || d] on strings. *)
Definition or_null (s : string) : option string :=
  if truthy_str s then Some s else None.
Definition or_str (s d : string) : string :=
  if truthy_str s then s else d.

(** [hay.includes(needle)]. *)
Fixpoint includes (hay needle : string) : bool :=
  String.prefix needle hay ||
  match hay with
  | EmptyString => false
  | String _ rest => includes rest needle
  end.

(** A string typed by the user, as JavaScript sees it: its UTF-16 code
    units.  ([string] is kept for the ASCII literals of the program and
    for messages, on which only [includes] is used.) *)
Definition ustring : Type := list N.

Definition ulength (s : ustring) : Z := Z.of_nat (List.length s).

Definition ustring_eqb (a b : ustring) : bool := bool_decide (a = b).

(** Character classes of the regular expressions in Auth.tsx. *)
Definition lower (c : N) : bool := ((97 <=? c) && (c <=? 122))%N.   (* [a-z] *)
Definition upper (c : N) : bool := ((65 <=? c) && (c <=? 90))%N.    (* [A-Z] *)
Definition digit (c : N) : bool := ((48 <=? c) && (c <=? 57))%N.    (* \d *)

(** [.] matches every code unit but the line terminators. *)
Definition line_terminator (c : N) : bool :=
  ((c =? 10) || (c =? 13) || (c =? 8232) || (c =? 8233))%N.

(** Whether [.*cls] matches at the start of [s]. *)
Fixpoint dot_star (cls : N -> bool) (s : ustring) : bool :=
  match s with
  | [] => false
  | c :: rest => cls c || (negb (line_terminator c) && dot_star cls rest)
  end.

(** Template-literal rendering of an integer number. *)
Definition num_to_string (z : Z) : string := pretty z.

End Js.

(** ** The ECMAScript calendar: what [Date] does with a time value

    Time values are milliseconds since the epoch.  The definitions follow
    the abstract operations of the language specification ([Day],
    [TimeWithinDay], [DayFromYear], [MakeDay], [MakeDate], ...).  Time
    values are taken within the range a [Date] can hold, where [TimeClip]
    changes nothing and [toISOString] does not throw. *)

Module JsDate.

Definition msPerDay : Z := 86400000.

Definition Day (t : Z) : Z := t / msPerDay.
Definition TimeWithinDay (t : Z) : Z := t mod msPerDay.

Definition DayFromYear (y : Z) : Z :=
  365 * (y - 1970) + (y - 1969) / 4 - (y - 1901) / 100 + (y - 1601) / 400.

Definition DaysInYear (y : Z) : Z := DayFromYear (y + 1) - DayFromYear y.

Definition InLeapYear (y : Z) : bool := DaysInYear y =? 366.

(** The year of a day number: the largest [y] with [DayFromYear y <= d],
    found from an estimate that is off by at most one. *)
Definition YearFromDay (d : Z) : Z :=
  let y := 1970 + (d * 400) / 146097 in
  if DayFromYear (y + 1) <=? d then y + 1
  else if DayFromYear y <=? d then y
  else y - 1.

Definition YearFromTime (t : Z) : Z := YearFromDay (Day t).

Definition DayWithinYear (t : Z) : Z := Day t - DayFromYear (YearFromTime t).

(** Day number, within a year, of the first day of month [m] (0..11). *)
Definition monthStart (leap : bool) (m : Z) : Z :=
  let l := if leap then 1 else 0 in
  match m with
  | 0 => 0
  | 1 => 31
  | 2 => 59 + l
  | 3 => 90 + l
  | 4 => 120 + l
  | 5 => 151 + l
  | 6 => 181 + l
  | 7 => 212 + l
  | 8 => 243 + l
  | 9 => 273 + l
  | 10 => 304 + l
  | 11 => 334 + l
  | _ => 365 + l
  end.

Definition DaysInMonth (leap : bool) (m : Z) : Z :=
  monthStart leap (m + 1) - monthStart leap m.

Definition monthOfYearDay (leap : bool) (d : Z) : Z :=
  if d <? monthStart leap 1 then 0
  else if d <? monthStart leap 2 then 1
  else if d <? monthStart leap 3 then 2
  else if d <? monthStart leap 4 then 3
  else if d <? monthStart leap 5 then 4
  else if d <? monthStart leap 6 then 5
  else if d <? monthStart leap 7 then 6
  else if d <? monthStart leap 8 then 7
  else if d <? monthStart leap 9 then 8
  else if d <? monthStart leap 10 then 9
  else if d <? monthStart leap 11 then 10
  else 11.

Definition MonthFromTime (t : Z) : Z :=
  monthOfYearDay (InLeapYear (YearFromTime t)) (DayWithinYear t).

Definition DateFromTime (t : Z) : Z :=
  let leap := InLeapYear (YearFromTime t) in
  DayWithinYear t - monthStart leap (MonthFromTime t) + 1.

(** [MakeDay(year, month, date)]: months outside 0..11 carry into the
    year, and a date past the end of the month runs on into the next. *)
Definition MakeDay (year month date : Z) : Z :=
  let ym := year + month / 12 in
  let mn := month mod 12 in
  DayFromYear ym + monthStart (InLeapYear ym) mn + date - 1.

Definition MakeDate (day time : Z) : Z := day * msPerDay + time.

(** The host's time zone: the offset added to a UTC time value to get
    local time, and the offset subtracted from a local time value to get
    back to UTC. *)
Record Zone := mkZone { LocalTZA_utc : Z -> Z; LocalTZA_local : Z -> Z }.

Definition LocalTime (z : Zone) (t : Z) : Z := t + LocalTZA_utc z t.
Definition UTC (z : Zone) (t : Z) : Z := t - LocalTZA_local z t.

Definition getMonth (z : Zone) (t : Z) : Z := MonthFromTime (LocalTime z t).

(** The local time value [setMonth] builds before converting to UTC. *)
Definition setMonth_local (lt month : Z) : Z :=
  MakeDate (MakeDay (YearFromTime lt) month (DateFromTime lt))
           (TimeWithinDay lt).

(** [d.setMonth(month)] on the time value [t] of [d]. *)
Definition setMonth (z : Zone) (t month : Z) : Z :=
  UTC z (setMonth_local (LocalTime z t) month).

(** Zero-padded decimal of a non-negative number. *)
Fixpoint pad (width : nat) (z : Z) : string :=
  match width with
  | O => ""
  | S w => pad w (z / 10) +:+ Js.num_to_string (z mod 10)
  end.

Definition year_string (y : Z) : string :=
  if (0 <=? y) && (y <=? 9999) then pad 4 y
  else if 0 <=? y then "+" +:+ pad 6 y
  else "-" +:+ pad 6 (- y).

(** [d.toISOString()]: always in UTC. *)
Definition toISOString (t : Z) : string :=
  let ms := TimeWithinDay t in
  year_string (YearFromTime t) +:+ "-" +:+ pad 2 (MonthFromTime t + 1) +:+ "-" +:+
  pad 2 (DateFromTime t) +:+ "T" +:+ pad 2 (ms / 3600000) +:+ ":" +:+
  pad 2 (ms / 60000 mod 60) +:+ ":" +:+ pad 2 (ms / 1000 mod 60) +:+ "." +:+
  pad 3 (ms mod 1000) +:+ "Z".

Definition utc : Zone := mkZone (fun _ => 0) (fun _ => 0).

End JsDate.

(** ** The rows of the backend tables *)

Inductive Status := pending | approved | rejected.

(** The argument type of [handleReviewSubmission]: ['approved' | 'rejected']. *)
Inductive Decision := Approve | Reject.

Definition status_of (d : Decision) : Status :=
  match d with Approve => approved | Reject => rejected end.

Definition status_string (s : Status) : string :=
  match s with pending => "pending" | approved => "approved" | rejected => "rejected" end.

Inductive Tier := tier_none | tier_regular | tier_pro | tier_vip.

#[global] Instance Status_eq_dec : EqDecision Status.
Proof. solve_decision. Defined.
#[global] Instance Decision_eq_dec : EqDecision Decision.
Proof. solve_decision. Defined.
#[global] Instance Tier_eq_dec : EqDecision Tier.
Proof. solve_decision. Defined.

(** A row of [profiles] (the [Profile] interface of useAuth.tsx, with the
    [membership_status] column that the checkout writes).  The counters are
    nullable, as the [|| 0] of the review handler expects. *)
Module Profile.
Record t := mk {
  id : string;
  email : string;
  full_name : option string;
  avatar_url : option string;
  membership_tier : Tier;
  membership_expires_at : option string;
  membership_status : option string;
  daily_tasks_used : Z;
  last_task_reset_date : string;
  total_earnings : option Js.number;
  pending_earnings : option Js.number;
  approved_earnings : option Js.number;
  tasks_completed : option Js.number;
  rating : option Js.number;
  created_at : string;
  updated_at : string
}.
End Profile.

(** A row of [job_submissions]. *)
Module SubmissionRow.
Record t := mk {
  id : string;
  job_id : string;
  user_id : string;
  submission_content : string;
  submission_url : option string;
  file_url : option string;
  worker_file_url : option string;
  file_name : option string;
  worker_file_name : option string;
  status : Status;
  admin_feedback : option string;
  payment_amount : Js.number;
  created_at : string;
  reviewed_at : option string;
  reviewed_by : option string
}.
End SubmissionRow.

(** The [Submission] interface of Admin.tsx: a submission as the console
    holds it, joined with the job title and the worker's identity. *)
Module Submission.
Record t := mk {
  id : string;
  submission_content : string;
  submission_url : option string;
  file_url : option string;
  worker_file_url : option string;
  file_name : option string;
  worker_file_name : option string;
  status : Status;
  admin_feedback : option string;
  payment_amount : Js.number;
  created_at : string;
  reviewed_at : option string;
  job_title : option string;
  user_id : string;
  user_email : option string;
  user_name : option string
}.
End Submission.

(** The [Job] interface of Admin.tsx, as a row of [jobs]. *)
Module Job.
Record t := mk {
  id : string;
  title : string;
  description : string;
  instructions : string;
  payment_amount : Js.number;
  difficulty : string;
  required_tier : string;
  estimated_time : option string;
  is_active : bool;
  current_submissions : Z;
  category_id : option string;
  job_file_url : option string;
  job_file_name : option string;
  job_file_type : option string;
  created_at : string
}.
End Job.

Module Category.
Record t := mk { id : string; name : string }.
End Category.

(** A row of [transactions], as the checkout builds it.  (An [amount]
    that is [NaN], which JSON cannot carry, reaches the backend as
    [null].) *)
Module Transaction.
Record t := mk {
  user_id : string;
  type : string;
  amount : Js.number;
  status : string;
  description : string;
  reference_id : string
}.
End Transaction.

(** The identity the auth service hands out. *)
Record User := mkUser { uid : string; uemail : string }.
Record Session := mkSession { access_token : string; session_user : User }.

(** ** The backend: tables and the requests this program sends *)

Record DB := mkDB {
  profiles : gmap string Profile.t;
  user_roles : list (string * string);
  job_submissions : gmap string SubmissionRow.t;
  jobs : gmap string Job.t;
  job_categories : list Category.t;
  transactions : list Transaction.t
}.

(** The object [handleReviewSubmission] passes to [update] on
    [job_submissions]. *)
Record ReviewUpdate := mkReviewUpdate {
  ru_status : Status;
  ru_admin_feedback : option string;
  ru_reviewed_at : string;
  ru_reviewed_by : option string
}.

(** The object it passes to [update] on [profiles]. *)
Record EarningsUpdate := mkEarningsUpdate {
  eu_approved_earnings : Js.number;
  eu_total_earnings : Js.number;
  eu_tasks_completed : Js.number
}.

(** What [select('approved_earnings, total_earnings, tasks_completed')]
    returns. *)
Record EarningsView := mkEarningsView {
  ev_approved_earnings : option Js.number;
  ev_total_earnings : option Js.number;
  ev_tasks_completed : option Js.number
}.

(** The object the checkout passes to [update] on [profiles].  A property
    whose value is [undefined] (here [None]) is left out of the request. *)
Record MembershipUpdate := mkMembershipUpdate {
  mu_membership_tier : option Tier;
  mu_membership_expires_at : string;
  mu_daily_tasks_used : Z;
  mu_membership_status : string
}.

(** The objects the job forms pass to [insert] and [update] on [jobs]. *)
Record JobUpdate := mkJobUpdate {
  ju_title : string;
  ju_description : string;
  ju_instructions : string;
  ju_payment_amount : Js.number;
  ju_difficulty : string;
  ju_required_tier : string;
  ju_estimated_time : option string;
  ju_category_id : option string;
  ju_file : option (option string * option string * option string)
}.

(** Every request to the row store that occurs in the sources, one
    constructor per call site (up to its arguments). *)
Inductive Request :=
  (* Admin.tsx, fetchData *)
  | SelectJobs
  | SelectCategories
  | SelectSubmissionsView
  | SelectSubmissionsTable
  (* Admin.tsx, handleReviewSubmission *)
  | UpdateSubmission (id : string) (u : ReviewUpdate)
  | SelectEarnings (id : string)
  | UpdateEarnings (id : string) (u : EarningsUpdate)
  (* Admin.tsx, the job forms *)
  | InsertJob (id : string) (created : string) (u : JobUpdate)
  | UpdateJob (id : string) (u : JobUpdate)
  | DeleteJob (id : string)
  | ToggleJob (id : string) (active : bool)
  (* Checkout.tsx, handlePayNow *)
  | InsertTransaction (row : Transaction.t)
  | UpdateMembership (id : string) (u : MembershipUpdate)
  (* useAuth.tsx, fetchUserData *)
  | SelectProfile (id : string)
  | SelectAdminRole (id : string).

Definition apply_review (u : ReviewUpdate) (r : SubmissionRow.t) : SubmissionRow.t :=
  {| SubmissionRow.id := SubmissionRow.id r;
     SubmissionRow.job_id := SubmissionRow.job_id r;
     SubmissionRow.user_id := SubmissionRow.user_id r;
     SubmissionRow.submission_content := SubmissionRow.submission_content r;
     SubmissionRow.submission_url := SubmissionRow.submission_url r;
     SubmissionRow.file_url := SubmissionRow.file_url r;
     SubmissionRow.worker_file_url := SubmissionRow.worker_file_url r;
     SubmissionRow.file_name := SubmissionRow.file_name r;
     SubmissionRow.worker_file_name := SubmissionRow.worker_file_name r;
     SubmissionRow.status := ru_status u;
     SubmissionRow.admin_feedback := ru_admin_feedback u;
     SubmissionRow.payment_amount := SubmissionRow.payment_amount r;
     SubmissionRow.created_at := SubmissionRow.created_at r;
     SubmissionRow.reviewed_at := Some (ru_reviewed_at u);
     SubmissionRow.reviewed_by :=
       match ru_reviewed_by u with
       | Some a => Some a
       | None => SubmissionRow.reviewed_by r   (* [undefined] is not sent *)
       end |}.

Definition apply_earnings (u : EarningsUpdate) (p : Profile.t) : Profile.t :=
  {| Profile.id := Profile.id p;
     Profile.email := Profile.email p;
     Profile.full_name := Profile.full_name p;
     Profile.avatar_url := Profile.avatar_url p;
     Profile.membership_tier := Profile.membership_tier p;
     Profile.membership_expires_at := Profile.membership_expires_at p;
     Profile.membership_status := Profile.membership_status p;
     Profile.daily_tasks_used := Profile.daily_tasks_used p;
     Profile.last_task_reset_date := Profile.last_task_reset_date p;
     Profile.total_earnings := Some (eu_total_earnings u);
     Profile.pending_earnings := Profile.pending_earnings p;
     Profile.approved_earnings := Some (eu_approved_earnings u);
     Profile.tasks_completed := Some (eu_tasks_completed u);
     Profile.rating := Profile.rating p;
     Profile.created_at := Profile.created_at p;
     Profile.updated_at := Profile.updated_at p |}.

Definition apply_membership (u : MembershipUpdate) (p : Profile.t) : Profile.t :=
  {| Profile.id := Profile.id p;
     Profile.email := Profile.email p;
     Profile.full_name := Profile.full_name p;
     Profile.avatar_url := Profile.avatar_url p;
     Profile.membership_tier := default (Profile.membership_tier p) (mu_membership_tier u);
     Profile.membership_expires_at := Some (mu_membership_expires_at u);
     Profile.membership_status := Some (mu_membership_status u);
     Profile.daily_tasks_used := mu_daily_tasks_used u;
     Profile.last_task_reset_date := Profile.last_task_reset_date p;
     Profile.total_earnings := Profile.total_earnings p;
     Profile.pending_earnings := Profile.pending_earnings p;
     Profile.approved_earnings := Profile.approved_earnings p;
     Profile.tasks_completed := Profile.tasks_completed p;
     Profile.rating := Profile.rating p;
     Profile.created_at := Profile.created_at p;
     Profile.updated_at := Profile.updated_at p |}.

Definition apply_job (u : JobUpdate) (j : Job.t) : Job.t :=
  {| Job.id := Job.id j;
     Job.title := ju_title u;
     Job.description := ju_description u;
     Job.instructions := ju_instructions u;
     Job.payment_amount := ju_payment_amount u;
     Job.difficulty := ju_difficulty u;
     Job.required_tier := ju_required_tier u;
     Job.estimated_time := ju_estimated_time u;
     Job.is_active := Job.is_active j;
     Job.current_submissions := Job.current_submissions j;
     Job.category_id := ju_category_id u;
     Job.job_file_url := match ju_file u with Some f => f.1.1 | None => Job.job_file_url j end;
     Job.job_file_name := match ju_file u with Some f => f.1.2 | None => Job.job_file_name j end;
     Job.job_file_type := match ju_file u with Some f => f.2 | None => Job.job_file_type j end;
     Job.created_at := Job.created_at j |}.

Definition new_job (id created : string) (u : JobUpdate) : Job.t :=
  apply_job u
    {| Job.id := id; Job.title := ""; Job.description := ""; Job.instructions := "";
       Job.payment_amount := Js.zero; Job.difficulty := ""; Job.required_tier := "";
       Job.estimated_time := None; Job.is_active := true; Job.current_submissions := 0;
       Job.category_id := None; Job.job_file_url := None; Job.job_file_name := None;
       Job.job_file_type := None; Job.created_at := created |}.

Definition toggle_job (active : bool) (j : Job.t) : Job.t :=
  {| Job.id := Job.id j; Job.title := Job.title j; Job.description := Job.description j;
     Job.instructions := Job.instructions j; Job.payment_amount := Job.payment_amount j;
     Job.difficulty := Job.difficulty j; Job.required_tier := Job.required_tier j;
     Job.estimated_time := Job.estimated_time j; Job.is_active := active;
     Job.current_submissions := Job.current_submissions j;
     Job.category_id := Job.category_id j; Job.job_file_url := Job.job_file_url j;
     Job.job_file_name := Job.job_file_name j; Job.job_file_type := Job.job_file_type j;
     Job.created_at := Job.created_at j |}.

Definition with_profiles (f : gmap string Profile.t -> gmap string Profile.t) (d : DB) : DB :=
  mkDB (f (profiles d)) (user_roles d) (job_submissions d) (jobs d) (job_categories d)
       (transactions d).
Definition with_submissions
    (f : gmap string SubmissionRow.t -> gmap string SubmissionRow.t) (d : DB) : DB :=
  mkDB (profiles d) (user_roles d) (f (job_submissions d)) (jobs d) (job_categories d)
       (transactions d).
Definition with_jobs (f : gmap string Job.t -> gmap string Job.t) (d : DB) : DB :=
  mkDB (profiles d) (user_roles d) (job_submissions d) (f (jobs d)) (job_categories d)
       (transactions d).
Definition with_transactions (f : list Transaction.t -> list Transaction.t) (d : DB) : DB :=
  mkDB (profiles d) (user_roles d) (job_submissions d) (jobs d) (job_categories d)
       (f (transactions d)).

(** What a request that the backend accepts does to the tables.  An
    [update ... eq('id', k)] rewrites the row with that key if there is one
    and is a no-op otherwise; selects write nothing. *)
Definition apply_request (r : Request) (d : DB) : DB :=
  match r with
  | UpdateSubmission k u => with_submissions (alter (apply_review u) k) d
  | UpdateEarnings k u => with_profiles (alter (apply_earnings u) k) d
  | UpdateMembership k u => with_profiles (alter (apply_membership u) k) d
  | InsertTransaction row => with_transactions (fun l => (l ++ [row])%list) d
  | InsertJob k created u => with_jobs (insert k (new_job k created u)) d
  | UpdateJob k u => with_jobs (alter (apply_job u) k) d
  | DeleteJob k => with_jobs (delete k) d
  | ToggleJob k a => with_jobs (alter (toggle_job a) k) d
  | SelectJobs | SelectCategories | SelectSubmissionsView | SelectSubmissionsTable
  | SelectEarnings _ | SelectProfile _ | SelectAdminRole _ => d
  end.

(** ** What the backend can answer *)

(** A call is answered after some delay; the row store either accepts the
    request, answers with an [error] object, or the promise rejects. *)
Inductive Fault := Fine | Fails (e : Js.Error) | Rejects (e : Js.Error).

Record Reply := mkReply { delay : N; fault : Fault }.

(** The calls to the auth service and what it can answer. *)
Inductive AuthRequest :=
  | SignInWithPassword (email password : Js.ustring)
  | SignUpWith (email password fullName : Js.ustring) (emailRedirectTo : string)
  | SignOutCall
  | GetSession.

Inductive AuthAnswer :=
  | Granted (s : option Session)
  | Refused (e : Js.Error)
  | Broken (e : Js.Error).

(** The module-level cache of useAuth.tsx. *)
Record CachedUserData := mkCached { cached_profile : option Profile.t; cached_isAdmin : bool }.

(** An auth call is answered after some delay.  While a handler waits for
    it, a fetch of the user data that was already in flight (started by the
    listener, by [initializeAuth] or by [refreshProfile]) may complete and
    write the module-level cache: [cached_meanwhile] is what it has put
    there by the time the call settles, if anything. *)
Record AuthReply := mkAuthReply {
  auth_delay : N;
  answer : AuthAnswer;
  cached_meanwhile : option CachedUserData
}.

(** The [{ data, error }] object of a row-store call. *)
Record Response (A : Type) := mkResponse { data : option A; error : option Js.Error }.
Arguments mkResponse {A} _ _.
Arguments data {A} _.
Arguments error {A} _.

(** ** Everything observable *)

Inductive Event :=
  | Sent (r : Request)
  | AuthSent (r : AuthRequest)
  | Console (level text : string) (e : option Js.Error)
  | Toast (title description : string) (variant : option string)
  | SetIsLoading (b : bool)
  | TimerSet (ms : Z) (what : string)
  | Navigate (path : string).

(** ** React state of the components *)

(** [AuthProvider]. *)
Record Facade := mkFacade {
  cachedUserData : option CachedUserData;
  user : option User;
  session : option Session;
  profile : option Profile.t;
  isAdmin : bool;
  isLoading : bool
}.

(** [Auth] (the sign-in / sign-up page). *)
Record FormData := mkFormData {
  fullName : Js.ustring;
  email : Js.ustring;
  password : Js.ustring;
  confirmPassword : Js.ustring;
  acceptTerms : bool
}.

Record AuthPage := mkAuthPage {
  isSignUp : bool;
  formData : FormData;
  errors : gmap string string;
  isSubmitting : bool;
  apiError : string;
  verificationSent : bool
}.

(** [Checkout]. *)
Record CheckoutPage := mkCheckoutPage {
  plan_param : option string;        (* searchParams.get('plan') *)
  isProcessing : bool;
  paymentInitiated : bool;
  checkout_error : option string
}.

(** [Admin]. *)
Inductive DataSource := from_view | from_table.

Record AdminPage := mkAdminPage {
  admin_jobs : list (Job.t * option string);   (* a job and its category name *)
  categories : list Category.t;
  allSubmissions : list Submission.t;
  admin_isLoading : bool;
  dataSource : DataSource;
  reviewDialogOpen : bool;
  selectedSubmission : option Submission.t;
  feedback : string;
  isReviewing : bool
}.

(** ** The world *)

Record World := mkWorld {
  clock : Z;                    (* Date.now() *)
  zone : JsDate.Zone;
  origin : string;              (* window.location.origin *)
  db : DB;
  plan : list Reply;            (* answers to the coming row-store calls *)
  auth_plan : list AuthReply;   (* answers to the coming auth calls *)
  log : list Event;             (* newest first *)
  facade : Facade;
  authPage : AuthPage;
  checkoutPage : CheckoutPage;
  adminPage : AdminPage
}.

Definition set_clock (t : Z) (w : World) : World :=
  mkWorld t (zone w) (origin w) (db w) (plan w) (auth_plan w) (log w) (facade w)
          (authPage w) (checkoutPage w) (adminPage w).
Definition set_db (d : DB) (w : World) : World :=
  mkWorld (clock w) (zone w) (origin w) d (plan w) (auth_plan w) (log w) (facade w)
          (authPage w) (checkoutPage w) (adminPage w).
Definition set_plan (p : list Reply) (w : World) : World :=
  mkWorld (clock w) (zone w) (origin w) (db w) p (auth_plan w) (log w) (facade w)
          (authPage w) (checkoutPage w) (adminPage w).
Definition set_auth_plan (p : list AuthReply) (w : World) : World :=
  mkWorld (clock w) (zone w) (origin w) (db w) (plan w) p (log w) (facade w)
          (authPage w) (checkoutPage w) (adminPage w).
Definition emit (e : Event) (w : World) : World :=
  mkWorld (clock w) (zone w) (origin w) (db w) (plan w) (auth_plan w) (e :: log w)
          (facade w) (authPage w) (checkoutPage w) (adminPage w).
Definition with_facade (f : Facade -> Facade) (w : World) : World :=
  mkWorld (clock w) (zone w) (origin w) (db w) (plan w) (auth_plan w) (log w)
          (f (facade w)) (authPage w) (checkoutPage w) (adminPage w).
Definition with_authPage (f : AuthPage -> AuthPage) (w : World) : World :=
  mkWorld (clock w) (zone w) (origin w) (db w) (plan w) (auth_plan w) (log w)
          (facade w) (f (authPage w)) (checkoutPage w) (adminPage w).
Definition with_checkoutPage (f : CheckoutPage -> CheckoutPage) (w : World) : World :=
  mkWorld (clock w) (zone w) (origin w) (db w) (plan w) (auth_plan w) (log w)
          (facade w) (authPage w) (f (checkoutPage w)) (adminPage w).
Definition with_adminPage (f : AdminPage -> AdminPage) (w : World) : World :=
  mkWorld (clock w) (zone w) (origin w) (db w) (plan w) (auth_plan w) (log w)
          (facade w) (authPage w) (checkoutPage w) (f (adminPage w)).

(** ** The monad of handlers: state, and exceptions that keep the state *)

Inductive Res (A : Type) := Ret (a : A) | Throw (e : Js.Error).
Arguments Ret {A} _.
Arguments Throw {A} _.

Definition M (A : Type) : Type := World -> Res A * World.

Definition ret {A} (a : A) : M A := fun w => (Ret a, w).

Definition bind {A B} (m : M A) (k : A -> M B) : M B :=
  fun w =>
    match m w with
    | (Ret a, w1) => k a w1
    | (Throw e, w1) => (Throw e, w1)
    end.

Definition throw {A} (e : Js.Error) : M A := fun w => (Throw e, w).

(** [try { m } catch (e) { h e }]. *)
Definition try_catch {A} (m : M A) (h : Js.Error -> M A) : M A :=
  fun w =>
    match m w with
    | (Ret a, w1) => (Ret a, w1)
    | (Throw e, w1) => h e w1
    end.

(** [try { m } finally { f }]. *)
Definition try_finally {A} (m : M A) (f : M unit) : M A :=
  fun w =>
    match m w with
    | (r, w1) =>
        match f w1 with
        | (Ret _, w2) => (r, w2)
        | (Throw e, w2) => (Throw e, w2)
        end
    end.

Declare Scope js_scope.
Delimit Scope js_scope with js.
Notation "'let*' x ':=' m 'in' k" := (bind m (fun x => k))
  (at level 10, x name, m at level 99, k at level 200) : js_scope.
Notation "m ;; k" := (bind m (fun _ => k))
  (at level 100, k at level 200, right associativity) : js_scope.
Local Open Scope js_scope.

Definition get_world : M World := fun w => (Ret w, w).
Definition modify (f : World -> World) : M unit := fun w => (Ret tt, f w).
Definition when (b : bool) (m : M unit) : M unit := if b then m else ret tt.

Definition Date_now : M Z := fun w => (Ret (clock w), w).
Definition console (level text : string) (e : option Js.Error) : M unit :=
  modify (emit (Console level text e)).
Definition toast (title description : string) (variant : option string) : M unit :=
  modify (emit (Toast title description variant)).
Definition setTimeout (ms : Z) (what : string) : M unit :=
  modify (emit (TimerSet ms what)).

Definition advance (d : N) (w : World) : World := set_clock (clock w + Z.of_N d) w.

(** The next planned answer; when the plan is used up the backend answers
    at once and accepts. *)
Definition reply_at (i : nat) (w : World) : Reply := nth i (plan w) (mkReply 0 Fine).
Definition auth_reply_at (i : nat) (w : World) : AuthReply :=
  nth i (auth_plan w) (mkAuthReply 0 (Granted None) None).

Definition next_reply (w : World) : Reply * World :=
  (reply_at 0 w, set_plan (tail (plan w)) w).

Definition next_auth_reply (w : World) : AuthReply * World :=
  (auth_reply_at 0 w, set_auth_plan (tail (auth_plan w)) w).

(** What the backend answers to request [r] under fault [f], and the tables
    afterwards ([result] reads the answer off the tables once the request
    has been applied). *)
Definition answer_to {A} (r : Request) (result : DB -> Response A) (f : Fault) (d : DB)
  : Response A * DB :=
  match f with
  | Fine => let d' := apply_request r d in (result d', d')
  | Fails e | Rejects e => (mkResponse None (Some e), d)
  end.

(** [await supabase.from(...)...]: one request, awaited. *)
Definition send {A} (r : Request) (result : DB -> Response A) : M (Response A) :=
  fun w =>
    let (rep, w1) := next_reply w in
    let w2 := advance (delay rep) (emit (Sent r) w1) in
    let (resp, d) := answer_to r result (fault rep) (db w2) in
    match fault rep with
    | Rejects e => (Throw e, w2)
    | _ => (Ret resp, set_db d w2)
    end.

(** When [Promise.all] of two calls settles, and whether it rejects: it
    rejects with the first rejection, and otherwise fulfils when both have. *)
Definition all_settles (p1 p2 : Reply) : N * option Js.Error :=
  match fault p1, fault p2 with
  | Rejects e1, Rejects e2 =>
      if (delay p2 <? delay p1)%N then (delay p2, Some e2) else (delay p1, Some e1)
  | Rejects e1, _ => (delay p1, Some e1)
  | _, Rejects e2 => (delay p2, Some e2)
  | _, _ => (N.max (delay p1) (delay p2), None)
  end.

(** [await Promise.race([Promise.all([r1, r2]), timeout])]: both requests
    leave at the same instant; [None] is the timer winning, which it also
    does on a tie, having been set first.  Without a timer this is
    [await Promise.all([r1, r2])]. *)
Definition send_all {A B} (r1 : Request) (res1 : DB -> Response A)
    (r2 : Request) (res2 : DB -> Response B) (timer : option N)
  : M (option (Response A * Response B)) :=
  fun w =>
    let (p1, w1) := next_reply w in
    let (p2, w2) := next_reply w1 in
    let w3 := emit (Sent r2) (emit (Sent r1) w2) in
    let (a1, d1) := answer_to r1 res1 (fault p1) (db w3) in
    let (a2, d2) := answer_to r2 res2 (fault p2) d1 in
    let w4 := set_db d2 w3 in
    let (t, rejection) := all_settles p1 p2 in
    let timed_out := match timer with Some limit => (limit <=? t)%N | None => false end in
    if timed_out then (Ret None, advance (default 0%N timer) w4)
    else match rejection with
         | Some e => (Throw e, advance t w4)
         | None => (Ret (Some (a1, a2)), advance t w4)
         end.

(** A write answers with no data. *)
Definition written : DB -> Response unit := fun _ => mkResponse None None.

(** [.single()]: exactly one row, or an error. *)
Definition no_rows : Js.Error :=
  Js.mkError "JSON object requested, multiple (or no) rows returned".

Definition single {A} (rows : list A) : Response A :=
  match rows with
  | [x] => mkResponse (Some x) None
  | _ => mkResponse None (Some no_rows)
  end.

(** [.maybeSingle()]: no row is fine. *)
Definition maybeSingle {A} (rows : list A) : Response A :=
  match rows with
  | [] => mkResponse None None
  | [x] => mkResponse (Some x) None
  | _ => mkResponse None (Some no_rows)
  end.

Definition rows_at {A} (m : gmap string A) (k : string) : list A :=
  match m !! k with Some x => [x] | None => [] end.

(** ** Admin.tsx *)

Module Admin.

Definition setIsLoading (b : bool) : M unit :=
  modify (with_adminPage (fun a =>
    mkAdminPage (admin_jobs a) (categories a) (allSubmissions a) b (dataSource a)
                (reviewDialogOpen a) (selectedSubmission a) (feedback a) (isReviewing a))).
Definition setJobs (l : list (Job.t * option string)) : M unit :=
  modify (with_adminPage (fun a =>
    mkAdminPage l (categories a) (allSubmissions a) (admin_isLoading a) (dataSource a)
                (reviewDialogOpen a) (selectedSubmission a) (feedback a) (isReviewing a))).
Definition setCategories (l : list Category.t) : M unit :=
  modify (with_adminPage (fun a =>
    mkAdminPage (admin_jobs a) l (allSubmissions a) (admin_isLoading a) (dataSource a)
                (reviewDialogOpen a) (selectedSubmission a) (feedback a) (isReviewing a))).
Definition setAllSubmissions (l : list Submission.t) : M unit :=
  modify (with_adminPage (fun a =>
    mkAdminPage (admin_jobs a) (categories a) l (admin_isLoading a) (dataSource a)
                (reviewDialogOpen a) (selectedSubmission a) (feedback a) (isReviewing a))).
Definition setReviewDialogOpen (b : bool) : M unit :=
  modify (with_adminPage (fun a =>
    mkAdminPage (admin_jobs a) (categories a) (allSubmissions a) (admin_isLoading a)
                (dataSource a) b (selectedSubmission a) (feedback a) (isReviewing a))).
Definition setSelectedSubmission (s : option Submission.t) : M unit :=
  modify (with_adminPage (fun a =>
    mkAdminPage (admin_jobs a) (categories a) (allSubmissions a) (admin_isLoading a)
                (dataSource a) (reviewDialogOpen a) s (feedback a) (isReviewing a))).
Definition setFeedback (s : string) : M unit :=
  modify (with_adminPage (fun a =>
    mkAdminPage (admin_jobs a) (categories a) (allSubmissions a) (admin_isLoading a)
                (dataSource a) (reviewDialogOpen a) (selectedSubmission a) s (isReviewing a))).
Definition setIsReviewing (b : bool) : M unit :=
  modify (with_adminPage (fun a =>
    mkAdminPage (admin_jobs a) (categories a) (allSubmissions a) (admin_isLoading a)
                (dataSource a) (reviewDialogOpen a) (selectedSubmission a) (feedback a) b)).

(** [order(key, { ascending: false })] and [order(key)], by insertion. *)
Fixpoint insert_by {A} (le : A -> A -> bool) (x : A) (l : list A) : list A :=
  match l with
  | [] => [x]
  | y :: rest => if le x y then x :: l else y :: insert_by le x rest
  end.
Definition order_by {A} (le : A -> A -> bool) (l : list A) : list A :=
  foldr (insert_by le) [] l.

Definition all_rows {A} (m : gmap string A) : list A := (map_to_list m).*2.

(** The rows of a submission joined with its job and its worker, as both
    the view and the embedded select of the table deliver them. *)
Definition joined (d : DB) (r : SubmissionRow.t) : Submission.t :=
  let worker := profiles d !! SubmissionRow.user_id r in
  {| Submission.id := SubmissionRow.id r;
     Submission.submission_content := SubmissionRow.submission_content r;
     Submission.submission_url := SubmissionRow.submission_url r;
     Submission.file_url := SubmissionRow.file_url r;
     Submission.worker_file_url := SubmissionRow.worker_file_url r;
     Submission.file_name := SubmissionRow.file_name r;
     Submission.worker_file_name := SubmissionRow.worker_file_name r;
     Submission.status := SubmissionRow.status r;
     Submission.admin_feedback := SubmissionRow.admin_feedback r;
     Submission.payment_amount := SubmissionRow.payment_amount r;
     Submission.created_at := SubmissionRow.created_at r;
     Submission.reviewed_at := SubmissionRow.reviewed_at r;
     Submission.job_title := Job.title <$> jobs d !! SubmissionRow.job_id r;
     Submission.user_id := SubmissionRow.user_id r;
     Submission.user_email := Profile.email <$> worker;
     Submission.user_name := worker ≫= Profile.full_name |}.

Definition query_submissions (d : DB) : Response (list Submission.t) :=
  let newest := order_by (fun a b => String.leb (SubmissionRow.created_at b)
                                                (SubmissionRow.created_at a))
                         (all_rows (job_submissions d)) in
  mkResponse (Some (take 100 (joined d <$> newest))) None.

Definition category_name (d : DB) (j : Job.t) : option string :=
  k ← Job.category_id j;
  Category.name <$> List.find (fun c => String.eqb (Category.id c) k) (job_categories d).

Definition query_jobs (d : DB) : Response (list (Job.t * option string)) :=
  let newest := order_by (fun a b => String.leb (Job.created_at b) (Job.created_at a))
                         (all_rows (jobs d)) in
  mkResponse (Some ((fun j => (j, category_name d j)) <$> newest)) None.

Definition query_categories (d : DB) : Response (list Category.t) :=
  mkResponse
    (Some (order_by (fun a b => String.leb (Category.name a) (Category.name b))
                    (job_categories d)))
    None.

Definition query_earnings (k : string) (d : DB) : Response EarningsView :=
  single ((fun p => mkEarningsView (Profile.approved_earnings p) (Profile.total_earnings p)
                                   (Profile.tasks_completed p))
          <$> rows_at (profiles d) k).

(** [fetchData] (lines 143-232). *)
Definition fetchData : M unit :=
  let* w0 := get_world in
  let source := dataSource (adminPage w0) in
  setIsLoading true;;
  try_finally
    (try_catch
       (let* both := send_all SelectJobs query_jobs SelectCategories query_categories None in
        match both with
        | None => ret tt
        | Some (jobsResult, categoriesResult) =>
            match data jobsResult with Some l => setJobs l | None => ret tt end;;
            match data categoriesResult with Some l => setCategories l | None => ret tt end;;
            let* submissionsResult :=
              match source with
              | from_view => send SelectSubmissionsView query_submissions
              | from_table => send SelectSubmissionsTable query_submissions
              end in
            match data submissionsResult with
            | Some formattedSubmissions => setAllSubmissions formattedSubmissions
            | None => ret tt
            end
        end)
       (fun e =>
          console "error" "Error fetching data:" (Some e);;
          toast "Error" "Failed to load data" (Some "destructive")))
    (setIsLoading false).

(** [openReviewDialog] (lines 363-367). *)
Definition openReviewDialog (submission : Submission.t) : M unit :=
  setSelectedSubmission (Some submission);;
  setFeedback (Js.or_str (default "" (Submission.admin_feedback submission)) "");;
  setReviewDialogOpen true.

(** [handleReviewSubmission] (lines 286-360), past its first line, for
    the [selectedSubmission], [feedback] and [user] of the render the
    handler belongs to. *)
Definition review (status : Decision) (selectedSubmission : Submission.t)
    (feedback : string) (user : option User) : M unit :=
  setIsReviewing true;;
  try_finally
    (try_catch
       (let* now := Date_now in
        let updateData :=
          {| ru_status := status_of status;
             ru_admin_feedback := Js.or_null feedback;
             ru_reviewed_at := JsDate.toISOString now;
             ru_reviewed_by := uid <$> user |} in
        let* r := send (UpdateSubmission (Submission.id selectedSubmission) updateData)
                       written in
        match error r with Some submissionError => throw submissionError | None => ret tt end;;
        match status with
        | Approve =>
            let* got := send (SelectEarnings (Submission.user_id selectedSubmission))
                             (query_earnings (Submission.user_id selectedSubmission)) in
            match data got with
            | Some profile =>
                let currentApprovedEarnings := Js.or_zero (ev_approved_earnings profile) in
                let currentTotalEarnings := Js.or_zero (ev_total_earnings profile) in
                let currentTasksCompleted := Js.or_zero (ev_tasks_completed profile) in
                let* r2 :=
                  send (UpdateEarnings (Submission.user_id selectedSubmission)
                          {| eu_approved_earnings :=
                               Js.add currentApprovedEarnings
                                      (Submission.payment_amount selectedSubmission);
                             eu_total_earnings :=
                               Js.add currentTotalEarnings
                                      (Submission.payment_amount selectedSubmission);
                             eu_tasks_completed :=
                               Js.add currentTasksCompleted (Js.of_Z 1) |})
                       written in
                match error r2 with
                | Some profileError =>
                    console "warn" "Failed to update user earnings:" (Some profileError)
                | None => ret tt
                end
            | None => ret tt
            end
        | Reject => ret tt
        end;;
        toast "Success" ("Submission " +:+ status_string (status_of status)) None;;
        fetchData;;
        setReviewDialogOpen false;;
        setSelectedSubmission None;;
        setFeedback "")
       (fun e =>
          console "error" "Review error:" (Some e);;
          toast "Error" (Js.or_str (Js.message e) "Failed to review submission")
                (Some "destructive")))
    (setIsReviewing false).

Definition handleReviewSubmission (status : Decision) : M unit :=
  let* w0 := get_world in
  match selectedSubmission (adminPage w0) with
  | None => ret tt
  | Some selected => review status selected (feedback (adminPage w0)) (user (facade w0))
  end.

End Admin.

(** ** useAuth.tsx: the authentication provider *)

Module AuthProvider.

Definition setCachedUserData (c : option CachedUserData) : M unit :=
  modify (with_facade (fun f =>
    mkFacade c (user f) (session f) (profile f) (isAdmin f) (isLoading f))).
Definition setUser (u : option User) : M unit :=
  modify (with_facade (fun f =>
    mkFacade (cachedUserData f) u (session f) (profile f) (isAdmin f) (isLoading f))).
Definition setSession (s : option Session) : M unit :=
  modify (with_facade (fun f =>
    mkFacade (cachedUserData f) (user f) s (profile f) (isAdmin f) (isLoading f))).
Definition setProfile (p : option Profile.t) : M unit :=
  modify (with_facade (fun f =>
    mkFacade (cachedUserData f) (user f) (session f) p (isAdmin f) (isLoading f))).
Definition setIsAdmin (b : bool) : M unit :=
  modify (with_facade (fun f =>
    mkFacade (cachedUserData f) (user f) (session f) (profile f) b (isLoading f))).
(** Commits of [isLoading] are also logged, to count its transitions. *)
Definition setIsLoading (b : bool) : M unit :=
  modify (fun w => emit (SetIsLoading b) (with_facade (fun f =>
    mkFacade (cachedUserData f) (user f) (session f) (profile f) (isAdmin f) b) w)).

(** One call to the auth service: [{ data: { session }, error }], or a
    rejected promise. *)
Definition auth_call (r : AuthRequest) : M (option Session * option Js.Error) :=
  fun w =>
    let (rep, w1) := next_auth_reply w in
    let w2 := advance (auth_delay rep) (emit (AuthSent r) w1) in
    match answer rep with
    | Granted s => (Ret (s, None), w2)
    | Refused e => (Ret (None, Some e), w2)
    | Broken e => (Throw e, w2)
    end.

Definition query_profile (k : string) (d : DB) : Response Profile.t :=
  single (rows_at (profiles d) k).

Definition query_admin_role (k : string) (d : DB) : Response string :=
  maybeSingle
    (List.filter (fun ur => String.eqb ur.1 k && String.eqb ur.2 "admin") (user_roles d)).*2.

(** [cachedUserData && user?.id === userId] *)
Definition cache_hit (cache : option CachedUserData) (user : option User) (userId : string)
  : option CachedUserData :=
  match cache, user with
  | Some c, Some u => if String.eqb (uid u) userId then Some c else None
  | _, _ => None
  end.

Definition is_some {A} (o : option A) : bool :=
  match o with Some _ => true | None => false end.

(** [fetchUserData] (lines 51-101).  [user] is the state captured by the
    closure; the cache is the module-level variable, read when called. *)
Definition fetchUserData (user : option User) (userId : string) : M unit :=
  let* w0 := get_world in
  match cache_hit (cachedUserData (facade w0)) user userId with
  | Some c =>
      setProfile (cached_profile c);;
      setIsAdmin (cached_isAdmin c)
  | None =>
      try_catch
        (setTimeout 5000 "fetch timeout";;
         let* result :=
           send_all (SelectProfile userId) (query_profile userId)
                    (SelectAdminRole userId) (query_admin_role userId)
                    (Some 5000%N) in
         match result with
         | None => console "warn" "User data fetch timed out" None
         | Some (profileResult, roleResult) =>
             match data profileResult with
             | Some p =>
                 setProfile (Some p);;
                 setCachedUserData (Some (mkCached (Some p) (is_some (data roleResult))))
             | None => ret tt
             end;;
             setIsAdmin (is_some (data roleResult))
         end)
        (fun e => console "warn" "Error fetching user data:" (Some e))
  end.

(** [refreshProfile] (lines 103-108). *)
Definition refreshProfile : M unit :=
  let* w0 := get_world in
  match user (facade w0) with
  | Some u =>
      setCachedUserData None;;
      fetchUserData (Some u) (uid u)
  | None => ret tt
  end.

(** The debounced body of the auth-state listener (lines 177-195).  The
    effect that installs it runs once, so its closure sees the [user] of
    the first render, which is [null]. *)
Definition onAuthStateChange (event : string) (newSession : option Session) : M unit :=
  let user : option User := None in
  console "log" ("Auth state change: " +:+ event) None;;
  when (negb (bool_decide ((uid ∘ session_user) <$> newSession = uid <$> user)))
       (setCachedUserData None);;
  setSession newSession;;
  setUser (session_user <$> newSession);;
  match newSession with
  | Some s => fetchUserData user (uid (session_user s))
  | None => setProfile None;; setIsAdmin false
  end;;
  setIsLoading false.

(** The provider once the fetches in flight have written the cache. *)
Definition sharing (meanwhile : option CachedUserData) (f : Facade) : Facade :=
  mkFacade (match meanwhile with Some c => Some c | None => cachedUserData f end)
           (user f) (session f) (profile f) (isAdmin f) (isLoading f).

(** An auth call during which the cache is shared with the fetches in
    flight: when it settles the cache holds what they have written. *)
Definition auth_call_sharing (r : AuthRequest) : M (option Session * option Js.Error) :=
  fun w =>
    let meanwhile := cached_meanwhile (auth_reply_at 0 w) in
    let (result, w1) := auth_call r w in
    (result, with_facade (sharing meanwhile) w1).

(** [signIn] (lines 213-247): the [error] of the object it returns.  It
    clears the cache, waits for the auth service and only then calls
    [fetchUserData], which reads the cache: of all the handlers it is the
    one whose course depends on what was written to the cache while it
    waited. *)
Definition signIn (email password : Js.ustring) : M (option Js.Error) :=
  let* w0 := get_world in
  let user := user (facade w0) in
  try_catch
    (setIsLoading true;;
     setCachedUserData None;;
     let* r := auth_call_sharing (SignInWithPassword email password) in
     let (data_session, error) := r in
     match error with
     | Some error =>
         setIsLoading false;;
         if Js.includes (Js.message error) "Email not confirmed"
         then ret (Some (Js.mkError "Please verify your email first. Check your inbox."))
         else ret (Some error)
     | None =>
         match data_session with
         | Some s =>
             setSession (Some s);;
             setUser (Some (session_user s));;
             fetchUserData user (uid (session_user s))
         | None => ret tt
         end;;
         setIsLoading false;;
         ret None
     end)
    (fun error =>
       setIsLoading false;;
       console "error" "Sign in exception:" (Some error);;
       ret (Some error)).

(** [signUp] (lines 249-278). *)
Definition signUp (email password fullName : Js.ustring) : M (option Js.Error) :=
  try_catch
    (setIsLoading true;;
     let* w := get_world in
     let redirectUrl := origin w +:+ "/auth/callback" in
     let* r := auth_call (SignUpWith email password fullName redirectUrl) in
     match r.2 with
     | Some error => setIsLoading false;; ret (Some error)
     | None => setIsLoading false;; ret None
     end)
    (fun error =>
       setIsLoading false;;
       console "error" "Sign up exception:" (Some error);;
       ret (Some error)).

(** [signOut] (lines 280-294). *)
Definition signOut : M unit :=
  try_catch
    (setIsLoading true;;
     setCachedUserData None;;
     auth_call SignOutCall;;
     setUser None;;
     setSession None;;
     setProfile None;;
     setIsAdmin false;;
     setIsLoading false)
    (fun error =>
       console "error" "Sign out error:" (Some error);;
       setIsLoading false).

End AuthProvider.

(** ** Auth.tsx: the sign-in / sign-up form *)

Module Auth.

Definition setFormData (d : FormData) : M unit :=
  modify (with_authPage (fun a =>
    mkAuthPage (isSignUp a) d (errors a) (isSubmitting a) (apiError a) (verificationSent a))).
Definition setErrors (e : gmap string string) : M unit :=
  modify (with_authPage (fun a =>
    mkAuthPage (isSignUp a) (formData a) e (isSubmitting a) (apiError a) (verificationSent a))).
Definition setIsSubmitting (b : bool) : M unit :=
  modify (with_authPage (fun a =>
    mkAuthPage (isSignUp a) (formData a) (errors a) b (apiError a) (verificationSent a))).
Definition setApiError (s : string) : M unit :=
  modify (with_authPage (fun a =>
    mkAuthPage (isSignUp a) (formData a) (errors a) (isSubmitting a) s (verificationSent a))).
Definition setVerificationSent (b : bool) : M unit :=
  modify (with_authPage (fun a =>
    mkAuthPage (isSignUp a) (formData a) (errors a) (isSubmitting a) (apiError a) b)).

(** An issue of a failed [safeParse]: [path[0]] and [message]. *)
Definition Issue : Type := string * string.

Definition check (ok : bool) (path message : string) : list Issue :=
  if ok then [] else [(path, message)].

(** The regular expression of the password rule,
    [/^(?=.*[a-z])(?=.*[A-Z])(?=.*\d)/]: three lookaheads at the start. *)
Definition password_regex (s : Js.ustring) : bool :=
  Js.dot_star Js.lower s && Js.dot_star Js.upper s && Js.dot_star Js.digit s.

Section Schemas.

(** The address check of the validation library ([z.string().email]),
    which is not part of the sources. *)
Variable zod_email : Js.ustring -> bool.

(** [signInSchema] (lines 30-33): the issues [safeParse] reports. *)
Definition signInSchema (email password : Js.ustring) : list Issue :=
  (check (zod_email email) "email" "Invalid email address" ++
   check (1 <=? Js.ulength password) "password" "Password is required")%list.

(** [signUpSchema] (lines 35-47): every check of every field is
    reported, in the order of the declaration, and then the
    refinement of the whole object. *)
Definition signUpSchema (f : FormData) : list Issue :=
  (check (2 <=? Js.ulength (fullName f)) "fullName" "Name must be at least 2 characters" ++
   check (zod_email (email f)) "email" "Invalid email address" ++
   check (6 <=? Js.ulength (password f)) "password"
         "Password must be at least 6 characters" ++
   check (password_regex (password f)) "password"
         "Password must contain at least one uppercase letter, one lowercase letter, and one number" ++
   check (acceptTerms f) "acceptTerms" "You must accept the terms and conditions" ++
   check (Js.ustring_eqb (password f) (confirmPassword f)) "confirmPassword"
         "Passwords don't match")%list.

(** [result.error.errors.forEach(err => ...)]: later issues of a
    field overwrite earlier ones. *)
Definition fieldErrors (issues : list Issue) : gmap string string :=
  foldl (fun m (i : Issue) => if Js.truthy_str i.1 then <[i.1 := i.2]> m else m) ∅ issues.

Definition emptyForm : FormData := mkFormData [] [] [] [] false.

(** [handleSubmit] (lines 95-173).  The body of the [try] answers
    whether control reaches the statement after it (it does not after
    the [return] of a failed validation). *)
Definition handleSubmit : M unit :=
  let* w0 := get_world in
  let isSignUp := isSignUp (authPage w0) in
  let formData := formData (authPage w0) in
  setIsSubmitting true;;
  setApiError "";;
  setVerificationSent false;;
  let* falls_through :=
    try_catch
      (if isSignUp then
         match signUpSchema formData with
         | (_ :: _) as issues =>
             setErrors (fieldErrors issues);;
             setIsSubmitting false;;
             ret false
         | [] =>
             let* error := AuthProvider.signUp (email formData) (password formData)
                                                (fullName formData) in
             match error with
             | Some error =>
                 if Js.includes (Js.message error) "already registered" then
                   setApiError "This email is already registered. Please sign in instead."
                 else if Js.includes (Js.message error) "User already registered" then
                   setApiError "This email is already registered. Please sign in."
                 else
                   setApiError (Js.or_str (Js.message error)
                                          "Failed to create account. Please try again.")
             | None =>
                 setVerificationSent true;;
                 setFormData emptyForm
             end;;
             ret true
         end
       else
         match signInSchema (email formData) (password formData) with
         | (_ :: _) as issues =>
             setErrors (fieldErrors issues);;
             setIsSubmitting false;;
             ret false
         | [] =>
             let* error := AuthProvider.signIn (email formData) (password formData) in
             match error with
             | Some error =>
                 if Js.includes (Js.message error) "Invalid login" then
                   setApiError "Invalid email or password. Please try again."
                 else if Js.includes (Js.message error) "Email not confirmed" then
                   setApiError "Please verify your email address before logging in.";;
                   setVerificationSent true
                 else
                   setApiError (Js.or_str (Js.message error)
                                          "Failed to sign in. Please try again.")
             | None => ret tt
             end;;
             ret true
         end)
      (fun err =>
         setApiError "An unexpected error occurred. Please try again.";;
         console "error" "Auth error:" (Some err);;
         ret true) in
  when falls_through (setIsSubmitting false).

End Schemas.

(** The password rule in the words of the specification: an uppercase
    letter, a lowercase letter, a digit, and at least six characters. *)
Definition meets_complexity (s : Js.ustring) : bool :=
  existsb Js.upper s && existsb Js.lower s && existsb Js.digit s && (6 <=? Js.ulength s).

End Auth.

(** ** Checkout.tsx *)

Module Checkout.

Definition setIsProcessing (b : bool) : M unit :=
  modify (with_checkoutPage (fun c =>
    mkCheckoutPage (plan_param c) b (paymentInitiated c) (checkout_error c))).
Definition setPaymentInitiated (b : bool) : M unit :=
  modify (with_checkoutPage (fun c =>
    mkCheckoutPage (plan_param c) (isProcessing c) b (checkout_error c))).
Definition setError (e : option string) : M unit :=
  modify (with_checkoutPage (fun c =>
    mkCheckoutPage (plan_param c) (isProcessing c) (paymentInitiated c) e)).

Record PlanDetails := mkPlan { name : string; price : Z; tier : Tier }.

(** [planDetails] (lines 21-25), as the lookup of one of its keys. *)
Definition planDetails (plan : string) : option PlanDetails :=
  if String.eqb plan "regular" then Some (mkPlan "Regular" 15 tier_regular)
  else if String.eqb plan "pro" then Some (mkPlan "Pro" 25 tier_pro)
  else if String.eqb plan "vip" then Some (mkPlan "VIP" 49 tier_vip)
  else None.

(** The properties that [planDetails], an object literal, inherits from
    [Object.prototype] in a browser: eleven functions, and the accessor
    [__proto__], which answers the prototype itself. *)
Definition inherited_keys : list string :=
  ["constructor"; "hasOwnProperty"; "isPrototypeOf"; "propertyIsEnumerable";
   "toLocaleString"; "toString"; "valueOf"; "__proto__";
   "__defineGetter__"; "__defineSetter__"; "__lookupGetter__"; "__lookupSetter__"].

(** What [planDetails[plan]] is when [plan in planDetails]: one of the
    three plans, or an inherited member, which is truthy as well. *)
Inductive PlanValue :=
  | Declared (p : PlanDetails)
  | Inherited (key : string).

(** [plan in planDetails ? planDetails[plan] : null]. *)
Definition lookup_plan (plan : string) : option PlanValue :=
  match planDetails plan with
  | Some p => Some (Declared p)
  | None => if existsb (String.eqb plan) inherited_keys then Some (Inherited plan) else None
  end.

(** [currentPlan] (line 27): [plan && plan in planDetails ? ... : null]. *)
Definition currentPlan (w : World) : option PlanValue :=
  match plan_param (checkoutPage w) with
  | Some plan => if Js.truthy_str plan then lookup_plan plan else None
  | None => None
  end.

(** [currentPlan.name], [currentPlan.price] and [currentPlan.tier].  A
    function has a [name] and neither a [price] nor a [tier]; the
    prototype object has none of the three. *)
Definition name_of (v : PlanValue) : option string :=
  match v with
  | Declared p => Some (name p)
  | Inherited key =>
      if String.eqb key "__proto__" then None
      else if String.eqb key "constructor" then Some "Object"
      else Some key
  end.
Definition price_of (v : PlanValue) : option Js.number :=
  match v with Declared p => Some (Js.of_Z (price p)) | Inherited _ => None end.
Definition tier_of (v : PlanValue) : option Tier :=
  match v with Declared p => Some (tier p) | Inherited _ => None end.

Definition tronAddress : string := "TMo91D2bi4EQUGBQDQyFF7rvvNGHmETAU".

(** [handlePayNow] (lines 66-151). *)
Definition handlePayNow : M unit :=
  let* w0 := get_world in
  let user := user (facade w0) in
  let currentPlan := currentPlan w0 in
  console "log" "Pay Now clicked" None;;
  console "log" "User:" None;;
  console "log" "Current Plan:" None;;
  match user, currentPlan with
  | Some user, Some currentPlan =>
      setIsProcessing true;;
      setError None;;
      try_finally
        (try_catch
           (console "log" "Setting payment initiated to true" None;;
            setPaymentInitiated true;;
            (* Create transaction record *)
            try_catch
              (console "log" "Creating transaction record..." None;;
               let* now := Date_now in
               let* r :=
                 send (InsertTransaction
                         {| Transaction.user_id := uid user;
                            Transaction.type := "subscription";
                            Transaction.amount := Js.neg (price_of currentPlan);
                            Transaction.status := "pending";
                            Transaction.description :=
                              Js.template (name_of currentPlan)
                              +:+ " Membership - USDT Payment Pending";
                            Transaction.reference_id :=
                              "usdt_" +:+ Js.num_to_string now +:+ "_" +:+ uid user |})
                      written in
               match error r with
               | Some transactionError =>
                   console "warn" "Transaction record not created:" (Some transactionError)
               | None => console "log" "Transaction record created" None
               end)
              (fun dbError => console "warn" "Database operation failed:" (Some dbError));;
            (* Update profile *)
            try_catch
              (console "log" "Updating profile..." None;;
               let* w1 := get_world in
               let expiresAt := clock w1 in
               let expiresAt :=
                 JsDate.setMonth (zone w1) expiresAt (JsDate.getMonth (zone w1) expiresAt + 1) in
               let* r :=
                 send (UpdateMembership (uid user)
                         {| mu_membership_tier := tier_of currentPlan;
                            mu_membership_expires_at := JsDate.toISOString expiresAt;
                            mu_daily_tasks_used := 0;
                            mu_membership_status := "pending_payment" |})
                      written in
               match error r with
               | Some updateError => console "warn" "Profile update failed:" (Some updateError)
               | None => console "log" "Profile updated" None
               end;;
               AuthProvider.refreshProfile)
              (fun profileError => console "warn" "Profile update failed:" (Some profileError));;
            toast "Payment Instructions"
                  "Please send USDT to the address shown. Your membership will be activated after verification."
                  None;;
            console "log" "Setting timeout for dashboard redirect" None;;
            setTimeout 10000 "navigate /dashboard")
           (fun error =>
              console "error" "Payment initiation error:" (Some error);;
              setError (Some "There was an issue setting up your payment. Please try again or contact support.")))
        (setIsProcessing false)
  | _, _ => console "error" "Missing user or current plan" None
  end.

End Checkout.

(** ** Sample data, used to run the handlers *)

Module Sample.

Definition worker : Profile.t :=
  {| Profile.id := "u-worker"; Profile.email := "worker@example.com";
     Profile.full_name := Some "Wanjiru"; Profile.avatar_url := None;
     Profile.membership_tier := tier_regular; Profile.membership_expires_at := None;
     Profile.membership_status := None; Profile.daily_tasks_used := 2;
     Profile.last_task_reset_date := "2026-01-30";
     Profile.total_earnings := Some (Js.of_Z 100);
     Profile.pending_earnings := Some (Js.of_Z 10);
     Profile.approved_earnings := Some (Js.of_Z 50);
     Profile.tasks_completed := Some (Js.of_Z 3);
     Profile.rating := None; Profile.created_at := "2025-11-02T08:00:00.000Z";
     Profile.updated_at := "2026-01-30T08:00:00.000Z" |}.

(** A profile whose counters were never written. *)
Definition newcomer : Profile.t :=
  {| Profile.id := "u-new"; Profile.email := "new@example.com";
     Profile.full_name := None; Profile.avatar_url := None;
     Profile.membership_tier := tier_none; Profile.membership_expires_at := None;
     Profile.membership_status := None; Profile.daily_tasks_used := 0;
     Profile.last_task_reset_date := "2026-01-30";
     Profile.total_earnings := None; Profile.pending_earnings := None;
     Profile.approved_earnings := None; Profile.tasks_completed := None;
     Profile.rating := None; Profile.created_at := "2026-01-30T08:00:00.000Z";
     Profile.updated_at := "2026-01-30T08:00:00.000Z" |}.

Definition row (k who : string) (st : Status) (amount : Z) : SubmissionRow.t :=
  {| SubmissionRow.id := k; SubmissionRow.job_id := "j-1"; SubmissionRow.user_id := who;
     SubmissionRow.submission_content := "done";
     SubmissionRow.submission_url := None; SubmissionRow.file_url := None;
     SubmissionRow.worker_file_url := None; SubmissionRow.file_name := None;
     SubmissionRow.worker_file_name := None; SubmissionRow.status := st;
     SubmissionRow.admin_feedback := None;
     SubmissionRow.payment_amount := Js.of_Z amount;
     SubmissionRow.created_at := "2026-01-29T10:00:00.000Z";
     SubmissionRow.reviewed_at := None; SubmissionRow.reviewed_by := None |}.

Definition tables : DB :=
  {| profiles := <["u-worker" := worker]> (<["u-new" := newcomer]> ∅);
     user_roles := [("u-admin", "admin")];
     job_submissions :=
       <["s-1" := row "s-1" "u-worker" pending 10]>
         (<["s-2" := row "s-2" "u-new" pending 7]>
            (<["s-3" := row "s-3" "u-worker" approved 10]> ∅));
     jobs := ∅;
     job_categories := [];
     transactions := [] |}.

Definition admin : User := mkUser "u-admin" "admin@example.com".
Definition customer : User := mkUser "u-worker" "worker@example.com".

Definition signed_in (u : User) : Facade :=
  mkFacade None (Some u) (Some (mkSession "token" u)) None false false.
Definition signed_out : Facade := mkFacade None None None None false false.

Definition blank_form : AuthPage :=
  mkAuthPage false (mkFormData [] [] [] [] false) ∅ false "" false.

(** 2026-01-31T12:00:00.000Z *)
Definition jan31 : Z := 1769860800000.
(** 2026-01-15T12:00:00.000Z *)
Definition jan15 : Z := 1768478400000.

Definition world (now : Z) (replies : list Reply) (f : Facade) : World :=
  {| clock := now; zone := JsDate.utc; origin := "https://skillbridge.example";
     db := tables; plan := replies; auth_plan := []; log := [];
     facade := f; authPage := blank_form;
     checkoutPage := mkCheckoutPage None false false None;
     adminPage := mkAdminPage [] [] [] false from_view false None "" false |}.

(** The admin console with the review dialog open on submission [k]. *)
Definition reviewing (k : string) (replies : list Reply) : World :=
  let w := world jan31 replies (signed_in admin) in
  match job_submissions tables !! k with
  | Some r => (Admin.openReviewDialog (Admin.joined tables r) w).2
  | None => w
  end.

(** Signed in, with the user's own profile already in the cache. *)
Definition cached (u : User) : World :=
  world jan31 []
    (mkFacade (Some (mkCached (Some worker) false)) (Some u) (Some (mkSession "token" u))
              None false false).

(** Signed out, with an auth service that refuses the next call. *)
Definition refusing (message : string) : World :=
  set_auth_plan [mkAuthReply 150 (Refused (Js.mkError message)) None]
                (world jan31 [] signed_out).

(** Signed out, with an auth service that grants the next call. *)
Definition granting (replies : list Reply) : World :=
  set_auth_plan [mkAuthReply 150 (Granted (Some (mkSession "token" customer))) None]
                (world jan31 replies signed_out).

(** The sign-up form filled in, with [pw] as password and confirmation. *)
Definition signing_up (pw : Js.ustring) : World :=
  with_authPage
    (fun _ => mkAuthPage true
                (mkFormData [65; 109; 105; 110; 97]%N (* Amina *)
                            [97; 64; 98; 46; 99; 111]%N (* a@b.co *)
                            pw pw true)
                ∅ false "" false)
    (world jan31 [] signed_out).

Definition checking_out (now : Z) (plan : string) (replies : list Reply) : World :=
  with_checkoutPage (fun _ => mkCheckoutPage (Some plan) false false None)
                    (world now replies (signed_in customer)).

End Sample.

(** * The vocabulary of the properties *)

(** ** Runs *)

(** The result of a handler run from [w], and the world it leaves. *)
Definition result_of {A} (m : M A) (w : World) : Res A := (m w).1.
Definition world_after {A} (m : M A) (w : World) : World := (m w).2.

(** A handler returns (rather than throws) from [w]; it never throws. *)
Definition returns {A} (m : M A) (w : World) : Prop := exists a, result_of m w = Ret a.
Definition never_throws {A} (m : M A) : Prop := forall w, returns m w.

(** Every run of [m] takes a world to one that is [R]-related to it. *)
Definition keeps (R : World -> World -> Prop) {A} (m : M A) : Prop :=
  forall w, R w (world_after m w).

(** ** What the backend answers *)

(** The backend accepts the next [n] row-store calls. *)
Definition is_fine (f : Fault) : bool :=
  match f with Fine => true | _ => false end.

Definition accepts (n : nat) (w : World) : Prop :=
  forallb (fun r => is_fine (fault r)) (firstn n (plan w)) = true.

(** The world right after a row-store call, accepted or not. *)
Definition after_send (r : Request) (accepted : bool) (w : World) : World :=
  let w2 := advance (delay (reply_at 0 w)) (emit (Sent r) (set_plan (tail (plan w)) w)) in
  if accepted then set_db (apply_request r (db w)) w2 else w2.

(** The world right after the two calls of a [Promise.all], [d] later. *)
Definition after_send_all (r1 r2 : Request) (d : N) (w : World) : World :=
  let w2 := set_plan (tail (tail (plan w))) w in
  let w3 := emit (Sent r2) (emit (Sent r1) w2) in
  let d1 := if fault (reply_at 0 w) is Fine then apply_request r1 (db w) else db w in
  let d2 := if fault (reply_at 1 w) is Fine then apply_request r2 d1 else d1 in
  advance d (set_db d2 w3).

(** The world right after a call to the auth service. *)
Definition after_auth (r : AuthRequest) (w : World) : World :=
  advance (auth_delay (auth_reply_at 0 w))
          (emit (AuthSent r) (set_auth_plan (tail (auth_plan w)) w)).

(** The world right after an auth call during which the cache is shared. *)
Definition after_auth_sharing (r : AuthRequest) (w : World) : World :=
  with_facade (AuthProvider.sharing (cached_meanwhile (auth_reply_at 0 w))) (after_auth r w).

(** What a fetch for [k] sends, for the cache it finds and the [user] of
    its closure: nothing when the cache serves it. *)
Definition fetch_requests (cache : option CachedUserData) (user : option User) (k : string)
  : list Request :=
  match AuthProvider.cache_hit cache user k with
  | Some _ => []
  | None => [SelectProfile k; SelectAdminRole k]
  end.

(** ** The log *)

(** The events added between [w] and [w'], oldest first. *)
Definition new_events (w w' : World) : list Event :=
  rev (firstn (length (log w') - length (log w)) (log w')).

(** The requests among some events, and the commits of [isLoading]. *)
Definition sent (es : list Event) : list Request :=
  omap (fun e => match e with Sent r => Some r | _ => None end) es.

Definition loading_commits (es : list Event) : list bool :=
  omap (fun e => match e with SetIsLoading b => Some b | _ => None end) es.

(** All the events a run adds satisfy [P]. *)
Definition emits_only (P : Event -> bool) (w w' : World) : Prop :=
  exists es, log w' = (es ++ log w)%list /\ forallb P es = true.

Definition is_select (r : Request) : bool :=
  match r with
  | SelectJobs | SelectCategories | SelectSubmissionsView | SelectSubmissionsTable
  | SelectEarnings _ | SelectProfile _ | SelectAdminRole _ => true
  | _ => false
  end.

Definition is_insert (r : Request) : bool :=
  match r with InsertTransaction _ => true | _ => false end.

Definition is_membership_update (r : Request) : bool :=
  match r with UpdateMembership _ _ => true | _ => false end.

(** The requests that update [profiles]. *)
Definition writes_profiles (r : Request) : bool :=
  match r with UpdateEarnings _ _ | UpdateMembership _ _ => true | _ => false end.

Definition is_toast (e : Event) : bool :=
  match e with Toast _ _ _ => true | _ => false end.

Definition is_loading_commit (e : Event) : bool :=
  match e with SetIsLoading _ => true | _ => false end.

Definition is_write (e : Event) : bool :=
  match e with
  | Sent r => negb (is_select r)
  | AuthSent _ => true
  | _ => false
  end.

(** A background step: it writes nothing to the backend, raises no toast
    and does not commit [isLoading]. *)
Definition background (e : Event) : bool :=
  negb (is_toast e) && negb (is_loading_commit e) && negb (is_write e).

(** How often a sequence of values of a flag goes from [true] to [false]. *)
Fixpoint falling_edges (values : list bool) : nat :=
  match values with
  | true :: ((false :: _) as rest) => S (falling_edges rest)
  | _ :: rest => falling_edges rest
  | [] => O
  end.

(** ** Frames *)

(** The tables are as before. *)
Definition same_db (w w' : World) : Prop := db w' = db w.

(** The columns of a submission row that a review does not write. *)
Definition outside_review (r : SubmissionRow.t) :=
  (SubmissionRow.id r, SubmissionRow.job_id r, SubmissionRow.user_id r,
   SubmissionRow.submission_content r, SubmissionRow.submission_url r,
   SubmissionRow.file_url r, SubmissionRow.worker_file_url r, SubmissionRow.file_name r,
   SubmissionRow.worker_file_name r, SubmissionRow.payment_amount r,
   SubmissionRow.created_at r).

(** Between [d] and [d'] nothing changed but the review columns ([status],
    [admin_feedback], [reviewed_at], [reviewed_by]) of submission [k]. *)
Definition review_frame (k : option string) (d d' : DB) : Prop :=
  profiles d' = profiles d /\
  user_roles d' = user_roles d /\
  jobs d' = jobs d /\
  job_categories d' = job_categories d /\
  transactions d' = transactions d /\
  forall j : string,
    outside_review <$> job_submissions d' !! j = outside_review <$> job_submissions d !! j /\
    (Some j <> k -> job_submissions d' !! j = job_submissions d !! j).

Definition only_reviews (k : option string) (w w' : World) : Prop :=
  review_frame k (db w) (db w').

(** Between [d] and [d'] every submission is still there, with the status
    it had, except that submission [k] may have been given status [st]. *)
Definition status_moves (k : option string) (st : Status) (d d' : DB) : Prop :=
  forall (j : string) (r : SubmissionRow.t),
    job_submissions d !! j = Some r ->
    exists r', job_submissions d' !! j = Some r' /\
      (SubmissionRow.status r' = SubmissionRow.status r \/
       (Some j = k /\ SubmissionRow.status r' = st)).

Definition only_moves (k : option string) (st : Status) (w w' : World) : Prop :=
  status_moves k st (db w) (db w').

(** The rest of the world, as far as a profile fetch is concerned: the
    identity, the loading flag, the pages and the tables. *)
Definition fetch_frame (w w' : World) : Prop :=
  session (facade w') = session (facade w) /\
  user (facade w') = user (facade w) /\
  isLoading (facade w') = isLoading (facade w) /\
  authPage w' = authPage w /\
  checkoutPage w' = checkoutPage w /\
  adminPage w' = adminPage w /\
  db w' = db w.

(** ** What the handlers send and show *)

(** The error [signIn] puts in the place of "Email not confirmed". *)
Definition verify_first : Js.Error :=
  Js.mkError "Please verify your email first. Check your inbox.".

(** What an approval makes of a counter [x] to which it adds [p]:
    [(x || 0) + p]. *)
Definition credited (x : option Js.number) (p : Js.number) : Js.number :=
  Js.add (Js.or_zero x) p.

(** The row and the update that [handlePayNow] sends for user [u] and plan
    [p], as functions of the instants at which it reads the clock. *)
Definition pending_transaction (u : User) (p : Checkout.PlanValue) (now : Z)
  : Transaction.t :=
  {| Transaction.user_id := uid u;
     Transaction.type := "subscription";
     Transaction.amount := Js.neg (Checkout.price_of p);
     Transaction.status := "pending";
     Transaction.description :=
       Js.template (Checkout.name_of p) +:+ " Membership - USDT Payment Pending";
     Transaction.reference_id := "usdt_" +:+ Js.num_to_string now +:+ "_" +:+ uid u |}.

Definition pending_membership (z : JsDate.Zone) (p : Checkout.PlanValue) (now : Z)
  : MembershipUpdate :=
  {| mu_membership_tier := Checkout.tier_of p;
     mu_membership_expires_at :=
       JsDate.toISOString (JsDate.setMonth z now (JsDate.getMonth z now + 1));
     mu_daily_tasks_used := 0;
     mu_membership_status := "pending_payment" |}.

(** The toast that tells the user how to pay. *)
Definition payment_instructions : Event :=
  Toast "Payment Instructions"
        "Please send USDT to the address shown. Your membership will be activated after verification."
        None.

(** ** The statements that do not hold as the specification words them *)

(** "No transition ever reverses", for one operation: a submission that is
    already approved or rejected keeps its status. *)
Definition never_reverses (op : M unit) : Prop :=
  forall (w : World) (k : string) (r r' : SubmissionRow.t),
    job_submissions (db w) !! k = Some r ->
    SubmissionRow.status r <> pending ->
    job_submissions (db (world_after op w)) !! k = Some r' ->
    SubmissionRow.status r' = SubmissionRow.status r.

(** "Approving leaves the profile with [a + p], [t + p] and [c + 1]", the
    sums being those of the real numbers that the (finite) doubles are. *)
Definition approve_adds_exactly : Prop :=
  forall (w : World) (sel : Submission.t) (prof : Profile.t) (a t c : Js.number),
    selectedSubmission (adminPage w) = Some sel ->
    profiles (db w) !! Submission.user_id sel = Some prof ->
    Profile.approved_earnings prof = Some a ->
    Profile.total_earnings prof = Some t ->
    Profile.tasks_completed prof = Some c ->
    Js.is_double a && Js.is_finite a && Js.own_value a = true ->
    Js.is_double t && Js.is_finite t && Js.own_value t = true ->
    Js.is_double c && Js.is_finite c && Js.own_value c = true ->
    Js.is_double (Submission.payment_amount sel)
    && Js.is_finite (Submission.payment_amount sel) = true ->
    accepts 3 w ->
    exists (prof' : Profile.t) (a' t' c' : Js.number),
      profiles (db (world_after (Admin.handleReviewSubmission Approve) w))
        !! Submission.user_id sel = Some prof' /\
      Profile.approved_earnings prof' = Some a' /\
      Js.is_sum a (Submission.payment_amount sel) a' = true /\
      Profile.total_earnings prof' = Some t' /\
      Js.is_sum t (Submission.payment_amount sel) t' = true /\
      Profile.tasks_completed prof' = Some c' /\
      Js.is_sum c (Js.of_Z 1) c' = true.

(** "For every user id, [fetchUserData] issues the two requests". *)
Definition always_fetches : Prop :=
  forall (u : option User) (k : string) (w : World),
    sent (new_events w (world_after (AuthProvider.fetchUserData u k) w))
    = [SelectProfile k; SelectAdminRole k].

(** "[signIn] maps the errors whose message contains [needle]": it answers
    all of them with one message of its own. *)
Definition signIn_maps (needle : string) : Prop :=
  exists text : string,
    forall (email pw : Js.ustring) (w : World) (e : Js.Error),
      answer (auth_reply_at 0 w) = Refused e ->
      Js.includes (Js.message e) needle = true ->
      result_of (AuthProvider.signIn email pw) w = Ret (Some (Js.mkError text)).

(** [t'] is one calendar month ahead of [t] in the zone [z]: the same day
    of the month and the same time of day, in the month after. *)
Definition month_ahead (z : JsDate.Zone) (t t' : Z) : Prop :=
  let lt := JsDate.LocalTime z t in
  let lt' := JsDate.LocalTime z t' in
  JsDate.YearFromTime lt' = JsDate.YearFromTime lt + (JsDate.MonthFromTime lt + 1) / 12 /\
  JsDate.MonthFromTime lt' = (JsDate.MonthFromTime lt + 1) mod 12 /\
  JsDate.DateFromTime lt' = JsDate.DateFromTime lt /\
  JsDate.TimeWithinDay lt' = JsDate.TimeWithinDay lt.

(** "The update sets [membership_expires_at] one calendar month ahead" of
    the instant at which [handlePayNow] builds it. *)
Definition expires_a_month_ahead : Prop :=
  forall (w : World) (u : User) (p : Checkout.PlanDetails),
    user (facade w) = Some u ->
    Checkout.currentPlan w = Some (Checkout.Declared p) ->
    exists (t' : Z) (row : Transaction.t) (rest : list Request),
      sent (new_events w (world_after Checkout.handlePayNow w))
      = InsertTransaction row
        :: UpdateMembership (uid u)
             {| mu_membership_tier := Some (Checkout.tier p);
                mu_membership_expires_at := JsDate.toISOString t';
                mu_daily_tasks_used := 0;
                mu_membership_status := "pending_payment" |}
        :: rest /\
      month_ahead (zone w) (clock w + Z.of_N (delay (reply_at 0 w))) t'.

(** * The rest of the handlers *)

(** ** useAuth.tsx: the provider when it mounts *)

Module AuthMount.

(** A promise that is started and not awaited: the caller goes on, and a
    rejection does not reach it. *)
Definition detached (m : M unit) : M unit := try_catch m (fun _ => ret tt).

(** [initializeAuth] (lines 114-164), in a mounted provider.  The effect
    that runs it belongs to the first render, whose [user] is [null]. *)
Definition initializeAuth : M unit :=
  let user : option User := None in
  try_catch
    (AuthProvider.setIsLoading true;;
     let* r := AuthProvider.auth_call GetSession in
     let (session, error) := r in
     match error with
     | Some error =>
         console "warn" "Session check error:" (Some error);;
         AuthProvider.setSession None;;
         AuthProvider.setUser None;;
         AuthProvider.setProfile None;;
         AuthProvider.setIsAdmin false
     | None =>
         match session with
         | Some session =>
             AuthProvider.setSession (Some session);;
             AuthProvider.setUser (Some (session_user session));;
             detached
               (try_finally
                  (AuthProvider.fetchUserData user (uid (session_user session)))
                  (AuthProvider.setIsLoading false))
         | None =>
             AuthProvider.setSession None;;
             AuthProvider.setUser None;;
             AuthProvider.setProfile None;;
             AuthProvider.setIsAdmin false;;
             AuthProvider.setIsLoading false
         end
     end)
    (fun error =>
       console "warn" "Auth init error:" (Some error);;
       AuthProvider.setSession None;;
       AuthProvider.setUser None;;
       AuthProvider.setProfile None;;
       AuthProvider.setIsAdmin false;;
       AuthProvider.setIsLoading false).

End AuthMount.

(** What a refresh of the lists leaves alone: the tables, the provider, the
    other pages, and of the console the data source and the review dialog. *)
Definition listing_frame (w w' : World) : Prop :=
  db w' = db w /\
  facade w' = facade w /\
  authPage w' = authPage w /\
  checkoutPage w' = checkoutPage w /\
  dataSource (adminPage w') = dataSource (adminPage w) /\
  reviewDialogOpen (adminPage w') = reviewDialogOpen (adminPage w) /\
  selectedSubmission (adminPage w') = selectedSubmission (adminPage w) /\
  feedback (adminPage w') = feedback (adminPage w) /\
  isReviewing (adminPage w') = isReviewing (adminPage w).

Definition reads (e : Event) : bool := negb (is_write e).

Definition review_update (st : Decision) (w : World) : ReviewUpdate :=
  {| ru_status := status_of st;
     ru_admin_feedback := Js.or_null (feedback (adminPage w));
     ru_reviewed_at := JsDate.toISOString (clock w);
     ru_reviewed_by := uid <$> user (facade w) |}.

(** The lists as the row store delivers them. *)
Definition listed_jobs (d : DB) : list (Job.t * option string) :=
  default [] (data (Admin.query_jobs d)).

Definition listed_categories (d : DB) : list Category.t :=
  default [] (data (Admin.query_categories d)).

Definition listed_submissions (d : DB) : list Submission.t :=
  default [] (data (Admin.query_submissions d)).

Definition rejects (r : Reply) : bool :=
  match fault r with Rejects _ => true | _ => false end.

Definition submissions_request (s : DataSource) : Request :=
  match s with
  | from_view => SelectSubmissionsView
  | from_table => SelectSubmissionsTable
  end.

(** The user has the admin role. *)
Definition has_admin_role (k : string) (d : DB) : bool :=
  AuthProvider.is_some (data (AuthProvider.query_admin_role k d)).

Definition user_data_requests (k : string) : list Request :=
  [SelectProfile k; SelectAdminRole k].

Module CheckoutPay.

(** [handleManualVerify] (Checkout.tsx, lines 153-160). *)
Definition handleManualVerify : M unit :=
  console "log" "Manual verify clicked" None;;
  Checkout.setPaymentInitiated false;;
  toast "Returning to payment" "Please complete the USDT transfer as shown." None.

End CheckoutPay.

(** The backend accepts every call it is sent. *)
Definition accepting (w : World) : Prop := forall i, fault (reply_at i w) = Fine.

(** The signed-in user and the plan of the checkout page are as before, and
    the answers still to come are those that were, less the ones taken. *)
Definition same_customer (w w' : World) : Prop :=
  user (facade w') = user (facade w) /\
  plan_param (checkoutPage w') = plan_param (checkoutPage w) /\
  exists k, plan w' = drop k (plan w).

Module AuthForm.

Record PasswordStrength := mkStrength { strength : Z; color : string; text : string }.

(** [colors[strength - 1] || 'bg-gray-200'] and [texts[strength - 1] || '']:
    index [-1] is [undefined]. *)
Definition label (labels : list string) (strength : Z) (fallback : string) : string :=
  if strength <=? 0 then fallback
  else Js.or_str (nth (Z.to_nat (strength - 1)) labels "") fallback.

(** [getPasswordStrength] (Auth.tsx, lines 176-193). *)
Definition getPasswordStrength (password : Js.ustring) : PasswordStrength :=
  match password with
  | [] => mkStrength 0 "bg-gray-200" ""
  | _ =>
      let strength := 0 in
      let strength := if 6 <=? Js.ulength password then strength + 1 else strength in
      let strength := if existsb Js.lower password then strength + 1 else strength in
      let strength := if existsb Js.upper password then strength + 1 else strength in
      let strength := if existsb Js.digit password then strength + 1 else strength in
      let colors := ["bg-red-500"; "bg-orange-500"; "bg-yellow-500"; "bg-green-500"] in
      let texts := ["Very Weak"; "Weak"; "Fair"; "Strong"] in
      mkStrength strength (label colors strength "bg-gray-200") (label texts strength "")
  end.

End AuthForm.

(** The issues the form in use is validated against. *)
Definition form_issues (zod_email : Js.ustring -> bool) (a : AuthPage) : list Auth.Issue :=
  if isSignUp a then Auth.signUpSchema zod_email (formData a)
  else Auth.signInSchema zod_email (email (formData a)) (password (formData a)).

(** The issues reported on one field. *)
Definition issues_on (field : string) (issues : list Auth.Issue) : list Auth.Issue :=
  List.filter (fun i => String.eqb i.1 field) issues.

Module AdminJobs.

(** [handleDeleteJob] (Admin.tsx, lines 523-540); [confirmed] is what the
    user answers to [confirm('Are you sure ...')]. *)
Definition handleDeleteJob (confirmed : bool) (jobId : string) : M unit :=
  if negb confirmed then ret tt
  else
    try_catch
      (let* r := send (DeleteJob jobId) written in
       match error r with Some error => throw error | None => ret tt end;;
       toast "Success" "Job deleted successfully" None;;
       Admin.fetchData)
      (fun error => toast "Error" (Js.message error) (Some "destructive")).

(** [handleToggleJobStatus] (lines 542-559), for the job as the page
    lists it. *)
Definition handleToggleJobStatus (job : Job.t) : M unit :=
  try_catch
    (let* r := send (ToggleJob (Job.id job) (negb (Job.is_active job))) written in
     match error r with Some error => throw error | None => ret tt end;;
     Admin.fetchData)
    (fun error => toast "Error" (Js.message error) (Some "destructive")).

(** [pendingSubmissions] (line 618). *)
Definition pendingSubmissions (allSubmissions : list Submission.t) : list Submission.t :=
  List.filter (fun sub => bool_decide (Submission.status sub = pending)) allSubmissions.

(** The values of [stats] (lines 620-645), in the order of the cards. *)
Definition stats (a : AdminPage) : list (string * Z) :=
  [("Total Jobs", Z.of_nat (length (admin_jobs a)));
   ("Active Jobs", Z.of_nat (length (List.filter (fun j => Job.is_active j.1) (admin_jobs a))));
   ("Pending Reviews", Z.of_nat (length (pendingSubmissions (allSubmissions a))));
   ("Total Submissions", Z.of_nat (length (allSubmissions a)))].

End AdminJobs.

(** The rows of [job_submissions] that wait for a review. *)
Definition waiting (d : DB) : list SubmissionRow.t :=
  List.filter (fun r => bool_decide (SubmissionRow.status r = pending))
              (Admin.all_rows (job_submissions d)).

(** Every row of [job_submissions] is stored under its own [id]. *)
Definition keyed_by_id (d : DB) : Prop :=
  forall k r, job_submissions d !! k = Some r -> SubmissionRow.id r = k.

(** The answers still to come are those that were, less the ones taken. *)
Definition later_plan (w w' : World) : Prop := exists k, plan w' = drop k (plan w).

(** ** utils/cloudinary.ts *)

Module Cloudinary.

(** The code units of the first pattern's class: less-than, greater-than,
    colon, double quote, slash, backslash, bar, question mark and star. *)
Definition invalid (c : N) : bool :=
  ((c =? 60) || (c =? 62) || (c =? 58) || (c =? 34) || (c =? 47) || (c =? 92)
   || (c =? 124) || (c =? 63) || (c =? 42))%N.

(** The class [\s]: white space and line terminators. *)
Definition whitespace (c : N) : bool :=
  (((9 <=? c) && (c <=? 13)) || (c =? 32) || (c =? 160) || (c =? 5760)
   || ((8192 <=? c) && (c <=? 8202)) || (c =? 8232) || (c =? 8233) || (c =? 8239)
   || (c =? 8287) || (c =? 12288) || (c =? 65279))%N.

Definition underscore : N := 95.

(** [replace(/\s+/g, '_')]: every maximal run of white space becomes one
    underscore; [in_run] says that the previous code unit was white
    space. *)
Fixpoint squeeze (in_run : bool) (s : Js.ustring) : Js.ustring :=
  match s with
  | [] => []
  | c :: rest =>
      if whitespace c then
        if in_run then squeeze true rest else underscore :: squeeze true rest
      else c :: squeeze false rest
  end.

(** [sanitizeFilename] (lines 277-282). *)
Definition sanitizeFilename (filename : Js.ustring) : Js.ustring :=
  take 255 (squeeze false ((fun c => if invalid c then underscore else c) <$> filename)).

(** A code unit that [sanitizeFilename] leaves as it is. *)
Definition plain (c : N) : bool := negb (invalid c) && negb (whitespace c).

End Cloudinary.

(** ** More sample worlds *)

Module Scenario.

Definition job : Job.t :=
  {| Job.id := "j-1"; Job.title := "Transcribe a recording";
     Job.description := "Ten minutes of audio"; Job.instructions := "Type what you hear";
     Job.payment_amount := Js.of_Z 10; Job.difficulty := "easy";
     Job.required_tier := "regular";
     Job.estimated_time := Some "30 min"; Job.is_active := true;
     Job.current_submissions := 3; Job.category_id := None;
     Job.job_file_url := None; Job.job_file_name := None; Job.job_file_type := None;
     Job.created_at := "2026-01-20T09:00:00.000Z" |}.

(** The admin console over the sample tables with one job on offer. *)
Definition offering (replies : list Reply) : World :=
  set_db (with_jobs (fun _ => <["j-1" := job]> ∅) Sample.tables)
         (Sample.world Sample.jan31 replies (Sample.signed_in Sample.admin)).

(** Abcdef1 *)
Definition good_password : Js.ustring := [65; 98; 99; 100; 101; 102; 49]%N.

(** The form of the auth page filled in (for a sign-up when [signUp]),
    with [pw] as password and [confirm] as confirmation, and an auth
    service that answers the next call with [answers]. *)
Definition form (signUp : bool) (pw confirm : Js.ustring) (answers : list AuthReply) : World :=
  set_auth_plan answers
    (with_authPage
       (fun _ => mkAuthPage signUp
                   (mkFormData [65; 109; 105; 110; 97]%N (* Amina *)
                               [97; 64; 98; 46; 99; 111]%N (* a@b.co *)
                               pw confirm true)
                   ∅ false "" false)
       (Sample.world Sample.jan31 [] Sample.signed_out)).

Definition s1 : Submission.t :=
  Admin.joined Sample.tables (Sample.row "s-1" "u-worker" pending 10).

(** A worker whose earnings have reached 2^53, where the doubles are two
    apart, and a submission of theirs that pays 1. *)
Definition wealthy : Profile.t :=
  {| Profile.id := "u-rich"; Profile.email := "rich@example.com";
     Profile.full_name := Some "Njeri"; Profile.avatar_url := None;
     Profile.membership_tier := tier_vip; Profile.membership_expires_at := None;
     Profile.membership_status := None; Profile.daily_tasks_used := 0;
     Profile.last_task_reset_date := "2026-01-30";
     Profile.total_earnings := Some (Js.of_Z (2 ^ 53));
     Profile.pending_earnings := None;
     Profile.approved_earnings := Some (Js.of_Z (2 ^ 53));
     Profile.tasks_completed := Some (Js.of_Z 3);
     Profile.rating := None; Profile.created_at := "2025-11-02T08:00:00.000Z";
     Profile.updated_at := "2026-01-30T08:00:00.000Z" |}.

Definition ledger : DB :=
  with_submissions (insert "s-9" (Sample.row "s-9" "u-rich" pending 1))
                   (with_profiles (insert "u-rich" wealthy) Sample.tables).

Definition s9 : Submission.t := Admin.joined ledger (Sample.row "s-9" "u-rich" pending 1).

(** The admin console over [ledger], with the review dialog open on
    submission [k]. *)
Definition auditing (k : string) (replies : list Reply) : World :=
  let w := set_db ledger (Sample.world Sample.jan31 replies (Sample.signed_in Sample.admin)) in
  match job_submissions ledger !! k with
  | Some r => (Admin.openReviewDialog (Admin.joined ledger r) w).2
  | None => w
  end.

Definition pro : Checkout.PlanValue := Checkout.Declared (Checkout.mkPlan "Pro" 25 tier_pro).

End Scenario.

(** ** The handlers of the embedded program, listed *)

Inductive Handler :=
  (* Admin.tsx *)
  | FetchData
  | OpenReviewDialog (submission : Submission.t)
  | HandleReviewSubmission (status : Decision)
  | HandleDeleteJob (confirmed : bool) (jobId : string)
  | HandleToggleJobStatus (job : Job.t)
  (* useAuth.tsx *)
  | FetchUserData (user : option User) (userId : string)
  | RefreshProfile
  | InitializeAuth
  | OnAuthStateChange (event : string) (newSession : option Session)
  | SignIn (email password : Js.ustring)
  | SignUp (email password fullName : Js.ustring)
  | SignOut
  (* Auth.tsx *)
  | HandleSubmit (zod_email : Js.ustring -> bool)
  (* Checkout.tsx *)
  | HandlePayNow
  | HandleManualVerify.

Definition run_handler (h : Handler) : M unit :=
  match h with
  | FetchData => Admin.fetchData
  | OpenReviewDialog submission => Admin.openReviewDialog submission
  | HandleReviewSubmission status => Admin.handleReviewSubmission status
  | HandleDeleteJob confirmed jobId => AdminJobs.handleDeleteJob confirmed jobId
  | HandleToggleJobStatus job => AdminJobs.handleToggleJobStatus job
  | FetchUserData user userId => AuthProvider.fetchUserData user userId
  | RefreshProfile => AuthProvider.refreshProfile
  | InitializeAuth => AuthMount.initializeAuth
  | OnAuthStateChange event newSession => AuthProvider.onAuthStateChange event newSession
  | SignIn email password => AuthProvider.signIn email password;; ret tt
  | SignUp email password fullName => AuthProvider.signUp email password fullName;; ret tt
  | SignOut => AuthProvider.signOut
  | HandleSubmit zod_email => Auth.handleSubmit zod_email
  | HandlePayNow => Checkout.handlePayNow
  | HandleManualVerify => CheckoutPay.handleManualVerify
  end.

Definition is_review (h : Handler) : bool :=
  match h with HandleReviewSubmission _ => true | _ => false end.

(** The table of submissions is as before. *)
Definition same_submissions (w w' : World) : Prop :=
  job_submissions (db w') = job_submissions (db w).

(** * Properties *)

(** ** Reasoning about handlers *)

Lemma accepts_reply (n i : nat) (w : World) :
  accepts n w -> (i < n)%nat -> fault (reply_at i w) = Fine.
Proof.
  unfold accepts, reply_at. generalize (plan w). intros l. revert n i.
  induction l as [|r l IH]; intros n i H Hi.
  - destruct i; reflexivity.
  - destruct n as [|n]; [lia|]. cbn in H. apply andb_prop in H as [Hr Hl].
    destruct i as [|i]; cbn.
    + destruct (fault r); cbn in Hr; congruence.
    + apply (IH n); [assumption | lia].
Qed.

Lemma run_bind {A B} (m : M A) (k : A -> M B) (w : World) :
  bind m k w = match m w with
               | (Ret a, w1) => k a w1
               | (Throw e, w1) => (Throw e, w1)
               end.
Proof. reflexivity. Qed.

Lemma run_try_catch {A} (m : M A) (h : Js.Error -> M A) (w : World) :
  try_catch m h w = match m w with
                    | (Ret a, w1) => (Ret a, w1)
                    | (Throw e, w1) => h e w1
                    end.
Proof. reflexivity. Qed.

Lemma run_try_finally {A} (m : M A) (f : M unit) (w : World) :
  try_finally m f w = match f (m w).2 with
                      | (Ret _, w2) => ((m w).1, w2)
                      | (Throw e, w2) => (Throw e, w2)
                      end.
Proof. unfold try_finally. destruct (m w). reflexivity. Qed.

Lemma run_send {A} (r : Request) (res : DB -> Response A) (w : World) :
  send r res w =
  match fault (reply_at 0 w) with
  | Fine => (Ret (res (apply_request r (db w))), after_send r true w)
  | Fails e => (Ret (mkResponse None (Some e)), after_send r false w)
  | Rejects e => (Throw e, after_send r false w)
  end.
Proof.
  unfold send, after_send, next_reply. cbn.
  destruct (fault (reply_at 0 w)); reflexivity.
Qed.

Lemma or_zero_Some (x : Js.number) : Js.own_value x = true -> Js.or_zero (Some x) = x.
Proof. destruct x as [[|]| | |]; cbn; intros H; solve [reflexivity | discriminate H]. Qed.

Lemma add_zero_l (x : Js.number) : x <> Js.neg_zero -> Js.add Js.zero x = x.
Proof.
  destruct x as [[|]|[|]| |]; cbn; intros H; try reflexivity. contradiction H. reflexivity.
Qed.

Lemma add_zero_same (x : Js.number) : Js.same_value_zero (Js.add Js.zero x) x = true.
Proof.
  destruct x as [[|]|[|]| |[|] m e]; cbn; try reflexivity.
  all: unfold SFeqb, SFcompare; rewrite Z.compare_refl, Pos.compare_cont_refl; reflexivity.
Qed.

(** *** Relations that every step of a handler respects *)

Section Keeps.

Variable R : World -> World -> Prop.
Hypothesis R_refl : forall w, R w w.
Hypothesis R_trans : forall a b c, R a b -> R b c -> R a c.

Lemma keeps_ret {A} (a : A) : keeps R (ret a).
Proof. intros w. apply R_refl. Qed.

Lemma keeps_throw {A} (e : Js.Error) : keeps R (@throw A e).
Proof. intros w. apply R_refl. Qed.

Lemma keeps_get_world : keeps R get_world.
Proof. intros w. apply R_refl. Qed.

Lemma keeps_bind {A B} (m : M A) (k : A -> M B) :
  keeps R m -> (forall a, keeps R (k a)) -> keeps R (bind m k).
Proof.
  intros Hm Hk w. unfold world_after. rewrite run_bind.
  specialize (Hm w). unfold world_after in Hm.
  destruct (m w) as [[a|e] w1]; cbn in *; [|assumption].
  eapply R_trans; [eassumption|]. apply Hk.
Qed.

Lemma keeps_try_catch {A} (m : M A) (h : Js.Error -> M A) :
  keeps R m -> (forall e, keeps R (h e)) -> keeps R (try_catch m h).
Proof.
  intros Hm Hh w. unfold world_after. rewrite run_try_catch.
  specialize (Hm w). unfold world_after in Hm.
  destruct (m w) as [[a|e] w1]; cbn in *; [assumption|].
  eapply R_trans; [eassumption|]. apply Hh.
Qed.

Lemma keeps_try_finally {A} (m : M A) (f : M unit) :
  keeps R m -> keeps R f -> keeps R (try_finally m f).
Proof.
  intros Hm Hf w. unfold world_after. rewrite run_try_finally.
  specialize (Hm w). specialize (Hf (m w).2). unfold world_after in *.
  destruct (f (m w).2) as [[a|e] w2]; cbn in *; eapply R_trans; eassumption.
Qed.

Lemma keeps_when (b : bool) (m : M unit) : keeps R m -> keeps R (when b m).
Proof. destruct b; cbn; [trivial|intros _; apply keeps_ret]. Qed.

Lemma keeps_modify (f : World -> World) : (forall w, R w (f w)) -> keeps R (modify f).
Proof. intros H w. apply H. Qed.

Lemma keeps_send {A} (r : Request) (res : DB -> Response A) :
  (forall w b, R w (after_send r b w)) -> keeps R (send r res).
Proof.
  intros H w. unfold world_after. rewrite run_send.
  destruct (fault (reply_at 0 w)); apply H.
Qed.

Lemma keeps_send_all {A B} r1 (res1 : DB -> Response A) r2 (res2 : DB -> Response B) timer :
  (forall w d, R w (after_send_all r1 r2 d w)) -> keeps R (send_all r1 res1 r2 res2 timer).
Proof.
  intros H w. unfold world_after, send_all, next_reply.
  change (reply_at 0 (set_plan (tail (plan w)) w)) with
    (nth 0 (tail (plan w)) (mkReply 0 Fine)).
  replace (nth 0 (tail (plan w)) (mkReply 0 Fine)) with (reply_at 1 w)
    by (unfold reply_at; destruct (plan w); reflexivity).
  specialize (H w). unfold after_send_all in H.
  set (p1 := reply_at 0 w) in *. set (p2 := reply_at 1 w) in *.
  destruct (all_settles p1 p2) as [t rej].
  destruct (fault p1), (fault p2); cbn in *;
    repeat match goal with
           | |- context [if ?b then _ else _] => destruct b
           | |- context [match ?o with Some _ => _ | None => _ end] => destruct o
           end; cbn; apply H.
Qed.

End Keeps.

(** *** Handlers that never throw *)

Lemma never_throws_ret {A} (a : A) : never_throws (ret a).
Proof. intros w. exists a. reflexivity. Qed.

Lemma never_throws_modify (f : World -> World) : never_throws (modify f).
Proof. intros w. exists tt. reflexivity. Qed.

Lemma never_throws_get_world : never_throws get_world.
Proof. intros w. exists w. reflexivity. Qed.

Lemma never_throws_bind {A B} (m : M A) (k : A -> M B) :
  never_throws m -> (forall a, never_throws (k a)) -> never_throws (bind m k).
Proof.
  intros Hm Hk w. destruct (Hm w) as [a Ha]. unfold returns, result_of in *.
  rewrite run_bind. destruct (m w) as [r w1]. cbn in Ha. subst r. apply Hk.
Qed.

Lemma never_throws_try_catch {A} (m : M A) (h : Js.Error -> M A) :
  (forall e, never_throws (h e)) -> never_throws (try_catch m h).
Proof.
  intros Hh w. unfold returns, result_of. rewrite run_try_catch.
  destruct (m w) as [[a|e] w1]; [exists a; reflexivity | apply Hh].
Qed.

Lemma never_throws_try_finally {A} (m : M A) (f : M unit) :
  never_throws m -> never_throws f -> never_throws (try_finally m f).
Proof.
  intros Hm Hf w. destruct (Hf (m w).2) as [u Hu]. destruct (Hm w) as [a Ha].
  unfold returns, result_of in *. rewrite run_try_finally.
  destruct (f (m w).2) as [r w2]. cbn in Hu. subst r. exists a. exact Ha.
Qed.

Lemma never_throws_when (b : bool) (m : M unit) : never_throws m -> never_throws (when b m).
Proof. destruct b; [trivial | intros _; apply never_throws_ret]. Qed.

Lemma returns_run {A} (m : M A) (w : World) :
  returns m w -> exists a, m w = (Ret a, world_after m w).
Proof.
  intros [a Ha]. exists a. unfold result_of, world_after in *.
  destruct (m w); cbn in *; congruence.
Qed.

(** *** Tactics: running a handler step by step, and splitting it up *)

Lemma nth_tail {A} (l : list A) (i : nat) (d : A) : nth i (tail l) d = nth (S i) l d.
Proof. destruct l; [destruct i|]; reflexivity. Qed.

(** Unfold the control structure and the state commits, up to the next
    call to the backend. *)
Ltac exec :=
  lazy beta iota zeta delta
    [bind try_catch try_finally get_world modify ret throw Date_now console toast
     setTimeout when world_after result_of fst snd written data error
     Admin.setIsLoading Admin.setJobs Admin.setCategories Admin.setAllSubmissions
     Admin.setReviewDialogOpen Admin.setSelectedSubmission Admin.setFeedback
     Admin.setIsReviewing
     AuthProvider.setCachedUserData AuthProvider.setUser AuthProvider.setSession
     AuthProvider.setProfile AuthProvider.setIsAdmin AuthProvider.setIsLoading
     Auth.setFormData Auth.setErrors Auth.setIsSubmitting Auth.setApiError
     Auth.setVerificationSent
     Checkout.setIsProcessing Checkout.setPaymentInitiated Checkout.setError].

(** Read the components of a world through the updates made to it. *)
Ltac norm :=
  unfold reply_at, auth_reply_at, after_send, after_send_all in *;
  cbn [clock zone origin db plan auth_plan log facade authPage checkoutPage adminPage
       set_clock set_db set_plan set_auth_plan emit advance
       with_facade with_authPage with_checkoutPage with_adminPage
       profiles user_roles job_submissions jobs job_categories transactions
       with_profiles with_submissions with_jobs with_transactions apply_request
       cachedUserData user session profile isAdmin isLoading
       isSignUp formData errors isSubmitting apiError verificationSent
       plan_param isProcessing paymentInitiated checkout_error
       admin_jobs categories allSubmissions admin_isLoading dataSource reviewDialogOpen
       selectedSubmission feedback isReviewing
       data error delay fault] in *;
  rewrite ?nth_tail in *.

(** Split a goal [keeps R m] along the structure of [m]. *)
Ltac keeps_tac refl trans leaf :=
  repeat first
    [ leaf
    | apply keeps_bind; [exact trans | | intros ?]
    | apply keeps_try_catch; [exact trans | | intros ?]
    | apply keeps_try_finally; [exact trans | |]
    | apply keeps_when; [exact refl |]
    | apply keeps_ret; exact refl
    | apply keeps_throw; exact refl
    | apply keeps_get_world; exact refl
    | match goal with
      | |- keeps _ (match ?x with _ => _ end) => destruct x
      end ].

Ltac never_throws_leaf :=
  first [ apply never_throws_ret | apply never_throws_get_world | apply never_throws_modify ].

Ltac never_throws_tac :=
  repeat first
    [ apply never_throws_bind; [| intros ?]
    | apply never_throws_try_catch; intros ?
    | apply never_throws_try_finally
    | apply never_throws_when
    | match goal with
      | |- never_throws (match ?x with _ => _ end) => destruct x
      end
    | never_throws_leaf ].

(** *** The tables are left alone *)

Lemma same_db_refl w : same_db w w.
Proof. reflexivity. Qed.

Lemma same_db_trans a b c : same_db a b -> same_db b c -> same_db a c.
Proof. unfold same_db. congruence. Qed.

Lemma select_reads (r : Request) (d : DB) : is_select r = true -> apply_request r d = d.
Proof. destruct r; cbn; congruence. Qed.

Lemma same_db_after_send (r : Request) (b : bool) (w : World) :
  is_select r = true -> same_db w (after_send r b w).
Proof.
  intros Hr. unfold same_db, after_send. destruct b; cbn; [apply select_reads, Hr | reflexivity].
Qed.

Lemma same_db_after_send_all (r1 r2 : Request) (d : N) (w : World) :
  is_select r1 = true -> is_select r2 = true -> same_db w (after_send_all r1 r2 d w).
Proof.
  intros H1 H2. unfold same_db, after_send_all. cbn.
  destruct (fault (reply_at 0 w)), (fault (reply_at 1 w));
    rewrite ?(select_reads r2), ?(select_reads r1) by assumption; reflexivity.
Qed.

Ltac same_db_leaf :=
  first [ apply keeps_modify; intros ?; reflexivity
        | apply keeps_send; intros ? ?; apply same_db_after_send; reflexivity
        | apply keeps_send_all; intros ? ?; apply same_db_after_send_all; reflexivity ].

Ltac same_db_tac := keeps_tac same_db_refl same_db_trans same_db_leaf.

Lemma fetchData_same_db : keeps same_db Admin.fetchData.
Proof. unfold Admin.fetchData. same_db_tac. Qed.

Lemma fetchData_never_throws : never_throws Admin.fetchData.
Proof. unfold Admin.fetchData. never_throws_tac. Qed.

Lemma fetchData_run (w : World) :
  exists w', Admin.fetchData w = (Ret tt, w') /\ db w' = db w.
Proof.
  destruct (returns_run _ _ (fetchData_never_throws w)) as [[] H].
  eexists. split; [exact H | apply fetchData_same_db].
Qed.

(** *** Approving a submission *)

(** What an accepted approval leaves in the worker's row. *)
Lemma approve_credits (w : World) (sel : Submission.t) (prof : Profile.t) :
  selectedSubmission (adminPage w) = Some sel ->
  profiles (db w) !! Submission.user_id sel = Some prof ->
  accepts 3 w ->
  profiles (db (world_after (Admin.handleReviewSubmission Approve) w))
    !! Submission.user_id sel
  = Some (apply_earnings
            {| eu_approved_earnings :=
                 Js.add (Js.or_zero (Profile.approved_earnings prof))
                        (Submission.payment_amount sel);
               eu_total_earnings :=
                 Js.add (Js.or_zero (Profile.total_earnings prof))
                        (Submission.payment_amount sel);
               eu_tasks_completed :=
                 Js.add (Js.or_zero (Profile.tasks_completed prof)) (Js.of_Z 1) |}
            prof).
Proof.
  intros Hsel Hprof Hacc.
  pose proof (accepts_reply 3 0 w Hacc ltac:(lia)) as H0.
  pose proof (accepts_reply 3 1 w Hacc ltac:(lia)) as H1.
  pose proof (accepts_reply 3 2 w Hacc ltac:(lia)) as H2. clear Hacc.
  unfold Admin.handleReviewSubmission. exec. rewrite Hsel. unfold Admin.review. exec.
  rewrite run_send. norm. rewrite H0. exec. norm.
  rewrite run_send. norm. rewrite H1. exec. norm.
  unfold Admin.query_earnings, rows_at. norm. rewrite Hprof.
  cbn [fmap list_fmap single]. exec. norm.
  rewrite run_send. norm. rewrite H2. exec. norm.
  match goal with
  | |- context [Admin.fetchData ?x] => destruct (fetchData_run x) as (w' & -> & Hdb)
  end.
  exec. norm. rewrite Hdb. norm.
  rewrite lookup_alter_eq, Hprof. reflexivity.
Qed.

(** Sums of doubles: exact on the integers of the specification's
    instance, rounded where the sum is not a double, at the integers from
    2^53 on and at amounts with cents. *)
Lemma sums_of_doubles :
  Js.add (Js.of_Z 50) (Js.of_Z 10) = Js.of_Z 60 /\
  Js.is_sum (Js.of_Z 50) (Js.of_Z 10) (Js.of_Z 60) = true /\
  Js.add (Js.of_Z (2 ^ 53)) (Js.of_Z 1) = Js.of_Z (2 ^ 53) /\
  Js.is_sum (Js.of_Z (2 ^ 53)) (Js.of_Z 1) (Js.of_Z (2 ^ 53)) = false /\
  (let tenth := Js.div (Js.of_Z 1) (Js.of_Z 10) in
   let fifth := Js.div (Js.of_Z 2) (Js.of_Z 10) in
   Js.add tenth fifth = S754_finite false 5404319552844596 (-54) /\
   Js.div (Js.of_Z 3) (Js.of_Z 10) = S754_finite false 5404319552844595 (-54) /\
   Js.is_sum tenth fifth (Js.add tenth fifth) = false) /\
  forallb Js.is_double
          [Js.of_Z 50; Js.of_Z 10; Js.of_Z 60; Js.of_Z (2 ^ 53); Js.of_Z (-25);
           Js.div (Js.of_Z 1) (Js.of_Z 10)] = true.
Proof. cbn zeta. repeat split; vm_compute; reflexivity. Qed.

(** C1 as stated fails: the sums are those of binary64 numbers.  For a
    worker with approved earnings 2^53 and a submission that pays 1, the
    profile is left with 2^53, which is not 2^53 + 1. *)
Lemma approval_rounds_the_sum : ~ approve_adds_exactly.
Proof.
  intros H.
  destruct (H (Scenario.auditing "s-9" []) Scenario.s9 Scenario.wealthy
              (Js.of_Z (2 ^ 53)) (Js.of_Z (2 ^ 53)) (Js.of_Z 3)
              eq_refl eq_refl eq_refl eq_refl eq_refl eq_refl eq_refl eq_refl eq_refl eq_refl)
    as (prof' & a' & t' & c' & Hprof & Ha & Hsum & _).
  pose proof (approve_credits (Scenario.auditing "s-9" []) Scenario.s9 Scenario.wealthy
                eq_refl eq_refl eq_refl) as Hrow.
  rewrite Hrow in Hprof. injection Hprof as <-.
  cbn [apply_earnings Profile.approved_earnings eu_approved_earnings] in Ha.
  injection Ha as <-. vm_compute in Hsum. discriminate Hsum.
Qed.

(** C1, amended: approving a submission with payment amount [p], for a
    worker whose profile holds approved earnings [a], total earnings [t]
    and [c] completed tasks (none of them [NaN] or the negative zero, which
    [|| 0] replaces), leaves that profile with the binary64 sums [a + p],
    [t + p] and [c + 1], each rounded to the nearest double (the backend
    accepting the three calls the approval makes); the other columns of
    the profile are as before. *)
Theorem approve_adds_payment
    (w : World) (sel : Submission.t) (prof : Profile.t) (a t c : Js.number) :
  selectedSubmission (adminPage w) = Some sel ->
  profiles (db w) !! Submission.user_id sel = Some prof ->
  Profile.approved_earnings prof = Some a ->
  Profile.total_earnings prof = Some t ->
  Profile.tasks_completed prof = Some c ->
  Js.own_value a = true ->
  Js.own_value t = true ->
  Js.own_value c = true ->
  accepts 3 w ->
  exists prof',
    profiles (db (world_after (Admin.handleReviewSubmission Approve) w))
      !! Submission.user_id sel = Some prof' /\
    Profile.approved_earnings prof' = Some (Js.add a (Submission.payment_amount sel)) /\
    Profile.total_earnings prof' = Some (Js.add t (Submission.payment_amount sel)) /\
    Profile.tasks_completed prof' = Some (Js.add c (Js.of_Z 1)) /\
    Profile.pending_earnings prof' = Profile.pending_earnings prof /\
    Profile.rating prof' = Profile.rating prof /\
    Profile.membership_tier prof' = Profile.membership_tier prof /\
    Profile.daily_tasks_used prof' = Profile.daily_tasks_used prof.
Proof.
  intros Hsel Hprof Ha Ht Hc Va Vt Vc Hacc.
  eexists. split; [apply approve_credits; eassumption|].
  cbn. rewrite Ha, Ht, Hc, !or_zero_Some by assumption. auto 10.
Qed.

(** The instance of the specification: 10 paid on 50 / 100 / 3 gives
    60 / 110 / 4, the sums of these integers being exact. *)
Lemma approve_adds_payment_example :
  exists prof',
    profiles (db (world_after (Admin.handleReviewSubmission Approve)
                              (Sample.reviewing "s-1" [mkReply 120 Fine; mkReply 80 Fine])))
      !! "u-worker" = Some prof' /\
    Profile.approved_earnings prof' = Some (Js.of_Z 60) /\
    Profile.total_earnings prof' = Some (Js.of_Z 110) /\
    Profile.tasks_completed prof' = Some (Js.of_Z 4) /\
    Profile.pending_earnings prof' = Some (Js.of_Z 10) /\
    Profile.rating prof' = None /\
    Profile.membership_tier prof' = tier_regular /\
    Profile.daily_tasks_used prof' = 2.
Proof.
  apply (approve_adds_payment
           (Sample.reviewing "s-1" [mkReply 120 Fine; mkReply 80 Fine])
           (Admin.joined Sample.tables (Sample.row "s-1" "u-worker" pending 10))
           Sample.worker (Js.of_Z 50) (Js.of_Z 100) (Js.of_Z 3)); reflexivity.
Defined.

(** C10: a counter of the worker's profile that is null counts as 0 when a
    submission is approved; a profile with no counters at all ends with the
    payment amount as approved and total earnings and with one completed
    task.  (The sum of 0 and the payment amount is the payment amount: the
    same value, but that the sum of 0 and the negative zero is the positive
    zero.) *)
Theorem approve_defaults_missing_to_zero (w : World) (sel : Submission.t) (prof : Profile.t) :
  selectedSubmission (adminPage w) = Some sel ->
  profiles (db w) !! Submission.user_id sel = Some prof ->
  accepts 3 w ->
  let p := Submission.payment_amount sel in
  exists prof',
    profiles (db (world_after (Admin.handleReviewSubmission Approve) w))
      !! Submission.user_id sel = Some prof' /\
    Profile.approved_earnings prof'
      = Some (Js.add (Js.or_zero (Profile.approved_earnings prof)) p) /\
    Profile.total_earnings prof'
      = Some (Js.add (Js.or_zero (Profile.total_earnings prof)) p) /\
    Profile.tasks_completed prof'
      = Some (Js.add (Js.or_zero (Profile.tasks_completed prof)) (Js.of_Z 1)) /\
    Js.or_zero None = Js.of_Z 0 /\
    (Profile.approved_earnings prof = None ->
     exists x, Profile.approved_earnings prof' = Some x /\
               Js.same_value_zero x p = true /\ (p <> Js.neg_zero -> x = p)) /\
    (Profile.total_earnings prof = None ->
     exists x, Profile.total_earnings prof' = Some x /\
               Js.same_value_zero x p = true /\ (p <> Js.neg_zero -> x = p)) /\
    (Profile.tasks_completed prof = None ->
     Profile.tasks_completed prof' = Some (Js.of_Z 1)).
Proof.
  intros Hsel Hprof Hacc. cbn zeta.
  eexists. split; [apply approve_credits; eassumption|].
  cbn [apply_earnings Profile.approved_earnings Profile.total_earnings Profile.tasks_completed
       eu_approved_earnings eu_total_earnings eu_tasks_completed].
  do 4 (split; [reflexivity|]).
  split; [|split].
  - intros ->. cbn [Js.or_zero]. eexists. split; [reflexivity|].
    split; [apply add_zero_same | apply add_zero_l].
  - intros ->. cbn [Js.or_zero]. eexists. split; [reflexivity|].
    split; [apply add_zero_same | apply add_zero_l].
  - intros ->. reflexivity.
Qed.

(** On the sample tables: 7 paid to a profile without counters gives 7 / 7
    / 1. *)
Lemma approve_defaults_missing_to_zero_example :
  exists prof',
    profiles (db (world_after (Admin.handleReviewSubmission Approve)
                              (Sample.reviewing "s-2" [])))
      !! "u-new" = Some prof' /\
    Profile.approved_earnings prof' = Some (Js.of_Z 7) /\
    Profile.total_earnings prof' = Some (Js.of_Z 7) /\
    Profile.tasks_completed prof' = Some (Js.of_Z 1).
Proof.
  destruct (approve_defaults_missing_to_zero
              (Sample.reviewing "s-2" [])
              (Admin.joined Sample.tables (Sample.row "s-2" "u-new" pending 7))
              Sample.newcomer eq_refl eq_refl eq_refl)
    as (prof' & H1 & H2 & H3 & H4 & _).
  exists prof'. repeat split; assumption.
Defined.

(** *** What a review may touch *)

Lemma review_frame_refl k d : review_frame k d d.
Proof. unfold review_frame. auto 10. Qed.

Lemma review_frame_trans k a b c :
  review_frame k a b -> review_frame k b c -> review_frame k a c.
Proof.
  intros (P1 & U1 & J1 & C1 & T1 & S1) (P2 & U2 & J2 & C2 & T2 & S2).
  repeat split; try congruence.
  - destruct (S1 j) as [E1 _], (S2 j) as [E2 _]. congruence.
  - intros Hj. destruct (S1 j) as [_ E1], (S2 j) as [_ E2].
    rewrite E2, E1 by assumption. reflexivity.
Qed.

Lemma only_reviews_refl k w : only_reviews k w w.
Proof. apply review_frame_refl. Qed.

Lemma only_reviews_trans k a b c :
  only_reviews k a b -> only_reviews k b c -> only_reviews k a c.
Proof. apply review_frame_trans. Qed.

Lemma same_db_only_reviews k w w' : same_db w w' -> only_reviews k w w'.
Proof. unfold same_db, only_reviews. intros ->. apply review_frame_refl. Qed.

Lemma review_frame_update (k : string) (u : ReviewUpdate) (d : DB) :
  review_frame (Some k) d (apply_request (UpdateSubmission k u) d).
Proof.
  unfold review_frame. cbn. repeat split; try reflexivity.
  - destruct (decide (k = j)) as [->|Hne].
    + rewrite lookup_alter_eq. destruct (job_submissions d !! j); reflexivity.
    + rewrite lookup_alter_ne by assumption. reflexivity.
  - intros Hj. rewrite lookup_alter_ne; [reflexivity | congruence].
Qed.

Lemma keeps_weaken (R1 R2 : World -> World -> Prop) {A} (m : M A) :
  (forall w w', R1 w w' -> R2 w w') -> keeps R1 m -> keeps R2 m.
Proof. intros H Hm w. apply H, Hm. Qed.

Lemma review_only_reviews (sel : Submission.t) (fb : string) (usr : option User) :
  keeps (only_reviews (Some (Submission.id sel))) (Admin.review Reject sel fb usr).
Proof.
  unfold Admin.review.
  keeps_tac (only_reviews_refl (Some (Submission.id sel)))
            (only_reviews_trans (Some (Submission.id sel)))
            ltac:(first
              [ apply keeps_modify; intros ?; apply same_db_only_reviews; reflexivity
              | apply (keeps_weaken same_db); [apply same_db_only_reviews |];
                apply fetchData_same_db
              | apply keeps_send; intros ? []; unfold only_reviews, after_send; cbn;
                [apply review_frame_update | apply review_frame_refl] ]).
Qed.

(** C2: rejecting a submission leaves every profile as it was, so the
    worker's earnings (approved, total, pending) and completed tasks are
    unchanged; of all the tables only the review columns ([status],
    [admin_feedback], [reviewed_at], [reviewed_by]) of the submission
    under review can differ afterwards. *)
Theorem reject_leaves_profiles (w : World) :
  let w' := world_after (Admin.handleReviewSubmission Reject) w in
  profiles (db w') = profiles (db w) /\
  user_roles (db w') = user_roles (db w) /\
  jobs (db w') = jobs (db w) /\
  job_categories (db w') = job_categories (db w) /\
  transactions (db w') = transactions (db w) /\
  forall j : string,
    outside_review <$> job_submissions (db w') !! j
      = outside_review <$> job_submissions (db w) !! j /\
    (Some j <> Submission.id <$> selectedSubmission (adminPage w) ->
     job_submissions (db w') !! j = job_submissions (db w) !! j).
Proof.
  cbn zeta. unfold Admin.handleReviewSubmission. exec.
  destruct (selectedSubmission (adminPage w)) as [sel|] eqn:Hsel.
  - apply (review_only_reviews sel (feedback (adminPage w)) (user (facade w)) w).
  - apply review_frame_refl.
Qed.

(** *** Status transitions *)

Lemma status_moves_refl k st d : status_moves k st d d.
Proof. intros j r H. exists r. auto. Qed.

Lemma status_moves_trans k st a b c :
  status_moves k st a b -> status_moves k st b c -> status_moves k st a c.
Proof.
  intros H1 H2 j r Hr.
  destruct (H1 j r Hr) as (r1 & Hr1 & S1).
  destruct (H2 j r1 Hr1) as (r2 & Hr2 & S2).
  exists r2. split; [assumption|].
  destruct S2 as [S2|S2]; [|tauto].
  destruct S1 as [S1|S1]; [left; congruence | right; split; [tauto | rewrite S2; tauto]].
Qed.

Lemma status_moves_same_submissions k st d d' :
  job_submissions d' = job_submissions d -> status_moves k st d d'.
Proof. intros E j r H. exists r. rewrite E. auto. Qed.

Lemma status_moves_update (k : string) (u : ReviewUpdate) (d : DB) :
  status_moves (Some k) (ru_status u) d (apply_request (UpdateSubmission k u) d).
Proof.
  intros j r Hr. cbn. destruct (decide (k = j)) as [->|Hne].
  - rewrite lookup_alter_eq, Hr. cbn. eexists. split; [reflexivity|]. right. auto.
  - rewrite lookup_alter_ne by assumption. exists r. auto.
Qed.

(** Only the review's own update writes [job_submissions]. *)
Lemma writes_no_submission (q : Request) (d : DB) :
  (forall k u, q <> UpdateSubmission k u) ->
  job_submissions (apply_request q d) = job_submissions d.
Proof. destruct q; cbn; try reflexivity. intros H. destruct (H id u). reflexivity. Qed.

Lemma review_only_moves (st : Decision) (sel : Submission.t) (fb : string) (usr : option User) :
  keeps (only_moves (Some (Submission.id sel)) (status_of st)) (Admin.review st sel fb usr).
Proof.
  unfold Admin.review.
  pose proof (fun w => status_moves_refl (Some (Submission.id sel)) (status_of st) (db w))
    as Hrefl.
  pose proof (fun a b c => status_moves_trans (Some (Submission.id sel)) (status_of st)
                                              (db a) (db b) (db c)) as Htrans.
  destruct st.
  all: keeps_tac Hrefl Htrans
            ltac:(first
              [ apply keeps_modify; intros ?; apply status_moves_refl
              | apply (keeps_weaken same_db);
                [intros ? ? E; unfold only_moves; rewrite E; apply status_moves_refl |];
                apply fetchData_same_db
              | apply keeps_send; intros ? []; unfold only_moves, after_send;
                cbn [db set_db advance emit set_clock set_plan];
                first [ apply status_moves_refl
                      | apply (status_moves_update (Submission.id sel))
                      | apply status_moves_same_submissions; reflexivity ] ]).
Qed.

(** One step of a run whose backend answers are not known. *)
Ltac run_step :=
  first
    [ match goal with
      | |- context [Admin.fetchData ?x] =>
          let w' := fresh "w" in
          let H := fresh "Hdb" in
          destruct (fetchData_run x) as (w' & -> & H)
      end
    | rewrite run_send; norm;
      match goal with
      | |- context [match fault ?r with _ => _ end] => destruct (fault r) eqn:?
      end ];
  exec; norm.

Lemma review_sets (st : Decision) (w : World) (sel : Submission.t) (r : SubmissionRow.t) :
  selectedSubmission (adminPage w) = Some sel ->
  job_submissions (db w) !! Submission.id sel = Some r ->
  accepts 1 w ->
  SubmissionRow.status
    <$> job_submissions (db (world_after (Admin.handleReviewSubmission st) w))
          !! Submission.id sel
  = Some (status_of st).
Proof.
  intros Hsel Hr Hacc.
  pose proof (accepts_reply 1 0 w Hacc ltac:(lia)) as H0. clear Hacc.
  pose proof (review_only_moves st sel (feedback (adminPage w)) (user (facade w))) as Hmoves.
  unfold Admin.handleReviewSubmission. exec. rewrite Hsel.
  change (SubmissionRow.status
            <$> job_submissions
                  (db (world_after (Admin.review st sel (feedback (adminPage w))
                                                 (user (facade w))) w))
                  !! Submission.id sel = Some (status_of st)).
  unfold Admin.review in *. exec.
  rewrite run_send. norm. rewrite H0. exec. norm.
  destruct st; exec; norm; repeat run_step;
    try (unfold Admin.query_earnings, rows_at, single; norm;
         destruct (profiles (db w) !! Submission.user_id sel); cbn [fmap list_fmap];
         exec; norm; repeat run_step);
    rewrite ?Hdb; norm; rewrite lookup_alter_eq, Hr; reflexivity.
Qed.

(** *** The handlers that do not review *)

Lemma same_submissions_refl w : same_submissions w w.
Proof. reflexivity. Qed.

Lemma same_submissions_trans a b c :
  same_submissions a b -> same_submissions b c -> same_submissions a c.
Proof. unfold same_submissions. congruence. Qed.

Lemma same_submissions_after_send (r : Request) (b : bool) (w : World) :
  (forall k u, r <> UpdateSubmission k u) -> same_submissions w (after_send r b w).
Proof.
  intros Hr. unfold same_submissions, after_send.
  destruct b; cbn; [apply writes_no_submission, Hr | reflexivity].
Qed.

Lemma same_submissions_after_send_all (r1 r2 : Request) (d : N) (w : World) :
  (forall k u, r1 <> UpdateSubmission k u) -> (forall k u, r2 <> UpdateSubmission k u) ->
  same_submissions w (after_send_all r1 r2 d w).
Proof.
  intros H1 H2. unfold same_submissions, after_send_all. cbn.
  destruct (fault (reply_at 0 w)), (fault (reply_at 1 w));
    rewrite ?(writes_no_submission r2), ?(writes_no_submission r1) by assumption;
    reflexivity.
Qed.

Lemma keeps_auth_call (R : World -> World -> Prop) (r : AuthRequest) :
  (forall w, R w (after_auth r w)) -> keeps R (AuthProvider.auth_call r).
Proof.
  intros H w. unfold world_after.
  change (AuthProvider.auth_call r w)
    with (match answer (auth_reply_at 0 w) with
          | Granted s => (Ret (s, None), after_auth r w)
          | Refused e => (Ret (None, Some e), after_auth r w)
          | Broken e => (@Throw (option Session * option Js.Error) e, after_auth r w)
          end).
  destruct (answer (auth_reply_at 0 w)); apply H.
Qed.

Lemma keeps_auth_call_sharing (R : World -> World -> Prop) (r : AuthRequest) :
  (forall w, R w (after_auth_sharing r w)) -> keeps R (AuthProvider.auth_call_sharing r).
Proof.
  intros H w. specialize (H w). unfold world_after, AuthProvider.auth_call_sharing.
  unfold after_auth_sharing in H.
  change (AuthProvider.auth_call r w)
    with (match answer (auth_reply_at 0 w) with
          | Granted s => (Ret (s, None), after_auth r w)
          | Refused e => (Ret (None, Some e), after_auth r w)
          | Broken e => (@Throw (option Session * option Js.Error) e, after_auth r w)
          end).
  destruct (answer (auth_reply_at 0 w)); exact H.
Qed.

Ltac same_submissions_leaf :=
  first [ apply keeps_modify; intros ?; reflexivity
        | apply keeps_send; intros ? ?; apply same_submissions_after_send;
          intros ? ?; discriminate
        | apply keeps_send_all; intros ? ?; apply same_submissions_after_send_all;
          intros ? ?; discriminate
        | apply keeps_auth_call; intros ?; reflexivity
        | apply keeps_auth_call_sharing; intros ?; reflexivity ].

(** Of the handlers listed, those that are not a review leave the table
    of submissions as it is. *)
Lemma others_keep_submissions (h : Handler) :
  is_review h = false -> keeps same_submissions (run_handler h).
Proof.
  destruct h; cbn [is_review]; intros E; try discriminate E; cbn [run_handler];
    unfold Auth.handleSubmit, Checkout.handlePayNow, CheckoutPay.handleManualVerify,
      AdminJobs.handleDeleteJob, AdminJobs.handleToggleJobStatus,
      Admin.fetchData, Admin.openReviewDialog,
      AuthMount.initializeAuth, AuthMount.detached,
      AuthProvider.onAuthStateChange, AuthProvider.signIn, AuthProvider.signUp,
      AuthProvider.signOut, AuthProvider.refreshProfile, AuthProvider.fetchUserData;
    keeps_tac same_submissions_refl same_submissions_trans same_submissions_leaf.
Qed.

(** C3 as stated fails: the console offers "Update Review" on a reviewed
    submission, and rejecting the approved submission [s-3] of the sample
    tables moves it from approved to rejected. *)
Lemma approved_can_be_rejected : ~ never_reverses (Admin.handleReviewSubmission Reject).
Proof.
  intros H.
  pose (w := Sample.reviewing "s-3" []).
  assert (E : SubmissionRow.status
                <$> job_submissions (db (world_after (Admin.handleReviewSubmission Reject) w))
                      !! "s-3" = Some rejected) by (vm_compute; reflexivity).
  destruct (job_submissions (db (world_after (Admin.handleReviewSubmission Reject) w)) !! "s-3")
    as [r'|] eqn:E'; [|discriminate].
  specialize (H w "s-3" (Sample.row "s-3" "u-worker" approved 10) r' eq_refl).
  cbn in H, E. rewrite H in E; [discriminate | discriminate | exact E'].
Qed.

(** C3, amended: a review writes the status of the submission under review
    and of no other; it sets it to the decision taken (approved or
    rejected, never pending) whatever the status was before, so a reviewed
    submission can be reviewed again.  No other handler of the embedded
    program writes a status: from every world, and whatever the backend
    answers, each of them leaves the table of submissions as it is; nor
    does any request of the program other than the review's update. *)
Theorem review_sets_decision (st : Decision) (w : World) :
  let w' := world_after (Admin.handleReviewSubmission st) w in
  (forall (j : string) (r : SubmissionRow.t),
      job_submissions (db w) !! j = Some r ->
      exists r', job_submissions (db w') !! j = Some r' /\
        (SubmissionRow.status r' = SubmissionRow.status r \/
         (Some j = Submission.id <$> selectedSubmission (adminPage w) /\
          SubmissionRow.status r' = status_of st))) /\
  (forall (sel : Submission.t) (r : SubmissionRow.t),
      selectedSubmission (adminPage w) = Some sel ->
      job_submissions (db w) !! Submission.id sel = Some r ->
      accepts 1 w ->
      SubmissionRow.status <$> job_submissions (db w') !! Submission.id sel
      = Some (status_of st)) /\
  status_of st <> pending /\
  (forall (h : Handler) (w0 : World),
      is_review h = false ->
      job_submissions (db (world_after (run_handler h) w0)) = job_submissions (db w0)) /\
  (forall (q : Request) (d : DB),
      (forall k u, q <> UpdateSubmission k u) ->
      job_submissions (apply_request q d) = job_submissions d).
Proof.
  cbn zeta. repeat split.
  - unfold Admin.handleReviewSubmission. exec.
    destruct (selectedSubmission (adminPage w)) as [sel|] eqn:Hsel.
    + apply (review_only_moves st sel (feedback (adminPage w)) (user (facade w)) w).
    + apply status_moves_refl.
  - intros sel r. apply review_sets.
  - destruct st; discriminate.
  - intros h w0 Hh. apply (others_keep_submissions h Hh w0).
  - intros q d. apply writes_no_submission.
Qed.

(** On the sample tables: the approved submission [s-3], reviewed again and
    rejected, ends rejected. *)
Lemma review_sets_decision_example :
  SubmissionRow.status
    <$> job_submissions
          (db (world_after (Admin.handleReviewSubmission Reject) (Sample.reviewing "s-3" [])))
          !! "s-3"
  = Some rejected.
Proof.
  apply (proj1 (proj2 (review_sets_decision Reject (Sample.reviewing "s-3" [])))
           (Admin.joined Sample.tables (Sample.row "s-3" "u-worker" approved 10))
           (Sample.row "s-3" "u-worker" approved 10));
    reflexivity.
Defined.

(** *** The sign-up form *)

Lemma dot_star_exists (cls : N -> bool) (s : Js.ustring) :
  Js.dot_star cls s = true -> existsb cls s = true.
Proof.
  induction s as [|c s IH]; cbn; [discriminate|].
  destruct (cls c); cbn; [reflexivity|].
  intros H. apply andb_prop in H as [_ H]. auto.
Qed.

(** What the code accepts meets the rule as the specification words it. *)
Lemma accepted_password_meets_complexity (s : Js.ustring) :
  (6 <=? Js.ulength s) = true -> Auth.password_regex s = true ->
  Auth.meets_complexity s = true.
Proof.
  unfold Auth.password_regex, Auth.meets_complexity. intros Hlen H.
  apply andb_prop in H as [H Hd]. apply andb_prop in H as [Hl Hu].
  rewrite (dot_star_exists _ _ Hl), (dot_star_exists _ _ Hu), (dot_star_exists _ _ Hd), Hlen.
  reflexivity.
Qed.

(** C4: a sign-up whose password fails the complexity rule (an uppercase
    letter, a lowercase letter, a digit, six characters) is rejected by
    [handleSubmit] with an error on the [password] field, and the handler
    returns without having called the backend: nothing was sent, [signUp]
    did not run. *)
Theorem weak_password_is_rejected (zod_email : Js.ustring -> bool) (w : World) :
  isSignUp (authPage w) = true ->
  Auth.meets_complexity (password (formData (authPage w))) = false ->
  let w' := world_after (Auth.handleSubmit zod_email) w in
  result_of (Auth.handleSubmit zod_email) w = Ret tt /\
  log w' = log w /\
  auth_plan w' = auth_plan w /\
  plan w' = plan w /\
  facade w' = facade w /\
  (errors (authPage w') !! "password" = Some "Password must be at least 6 characters" \/
   errors (authPage w') !! "password"
   = Some "Password must contain at least one uppercase letter, one lowercase letter, and one number") /\
  isSubmitting (authPage w') = false /\
  verificationSent (authPage w') = false.
Proof.
  intros Hup Hweak.
  assert (Hp : (6 <=? Js.ulength (password (formData (authPage w))))
               && Auth.password_regex (password (formData (authPage w))) = false).
  { destruct (6 <=? Js.ulength (password (formData (authPage w)))) eqn:E1;
      destruct (Auth.password_regex (password (formData (authPage w)))) eqn:E2;
      try reflexivity.
    rewrite (accepted_password_meets_complexity _ E1 E2) in Hweak. discriminate. }
  cbn zeta. unfold Auth.handleSubmit. exec. norm. rewrite Hup.
  unfold Auth.signUpSchema, Auth.check.
  destruct (6 <=? Js.ulength (password (formData (authPage w))));
    destruct (Auth.password_regex (password (formData (authPage w))));
    try discriminate Hp;
    destruct (2 <=? Js.ulength (fullName (formData (authPage w))));
    destruct (zod_email (email (formData (authPage w))));
    destruct (acceptTerms (formData (authPage w)));
    destruct (Js.ustring_eqb (password (formData (authPage w)))
                             (confirmPassword (formData (authPage w))));
    cbn [app]; exec; norm;
    repeat split; try reflexivity;
    first [left; vm_compute; reflexivity | right; vm_compute; reflexivity].
Qed.

Lemma weak_password_is_rejected_example :
  let w := Sample.signing_up [97; 98; 99]%N in
  let w' := world_after (Auth.handleSubmit (fun _ => true)) w in
  result_of (Auth.handleSubmit (fun _ => true)) w = Ret tt /\
  log w' = log w /\
  auth_plan w' = auth_plan w /\
  plan w' = plan w /\
  facade w' = facade w /\
  (errors (authPage w') !! "password" = Some "Password must be at least 6 characters" \/
   errors (authPage w') !! "password"
   = Some "Password must contain at least one uppercase letter, one lowercase letter, and one number") /\
  isSubmitting (authPage w') = false /\
  verificationSent (authPage w') = false.
Proof.
  apply (weak_password_is_rejected (fun _ => true) (Sample.signing_up [97; 98; 99]%N));
    reflexivity.
Defined.

(** *** What a run adds to the log *)

Lemma new_events_app (w w' : World) (es : list Event) :
  log w' = (es ++ log w)%list -> new_events w w' = rev es.
Proof.
  intros E. unfold new_events. rewrite E, length_app.
  replace (length es + length (log w) - length (log w))%nat with (length es) by lia.
  rewrite firstn_app, Nat.sub_diag, firstn_all. cbn. rewrite app_nil_r. reflexivity.
Qed.

Lemma emits_only_refl P w : emits_only P w w.
Proof. exists []. split; reflexivity. Qed.

Lemma emits_only_trans P a b c : emits_only P a b -> emits_only P b c -> emits_only P a c.
Proof.
  intros (e1 & E1 & F1) (e2 & E2 & F2). exists (e2 ++ e1)%list. split.
  - rewrite E2, E1, app_assoc. reflexivity.
  - rewrite forallb_app, F1, F2. reflexivity.
Qed.

Lemma emits_only_same_log P w w' : log w' = log w -> emits_only P w w'.
Proof. intros E. exists []. split; [exact E | reflexivity]. Qed.

Lemma emits_only_one P e w w' : log w' = e :: log w -> P e = true -> emits_only P w w'.
Proof. intros E H. exists [e]. split; [exact E | cbn; rewrite H; reflexivity]. Qed.

Lemma emits_only_two P e1 e2 w w' :
  log w' = e2 :: e1 :: log w -> P e1 = true -> P e2 = true -> emits_only P w w'.
Proof. intros E H1 H2. exists [e2; e1]. split; [exact E | cbn; rewrite H1, H2; reflexivity]. Qed.

Lemma emits_only_after_send P r b w : P (Sent r) = true -> emits_only P w (after_send r b w).
Proof. intros H. apply (emits_only_one P (Sent r)); [destruct b; reflexivity | exact H]. Qed.

Lemma emits_only_after_send_all P r1 r2 d w :
  P (Sent r1) = true -> P (Sent r2) = true -> emits_only P w (after_send_all r1 r2 d w).
Proof. intros H1 H2. apply (emits_only_two P (Sent r1) (Sent r2)); [reflexivity | assumption..]. Qed.

Ltac emits_only_leaf :=
  first
    [ apply keeps_modify; intros ?;
      first [ apply emits_only_same_log; reflexivity
            | eapply emits_only_one; [reflexivity | reflexivity] ]
    | apply keeps_send; intros ? ?; apply emits_only_after_send; reflexivity
    | apply keeps_send_all; intros ? ?; apply emits_only_after_send_all; reflexivity ].

Ltac emits_only_tac P :=
  keeps_tac (emits_only_refl P) (emits_only_trans P) emits_only_leaf.

(** *** The authentication provider *)

Lemma run_send_all {A B} (r1 : Request) (res1 : DB -> Response A)
    (r2 : Request) (res2 : DB -> Response B) (timer : option N) (w : World) :
  let p1 := reply_at 0 w in
  let p2 := reply_at 1 w in
  let a1 := answer_to r1 res1 (fault p1) (db w) in
  let a2 := answer_to r2 res2 (fault p2) a1.2 in
  send_all r1 res1 r2 res2 timer w =
  if match timer with
     | Some limit => (limit <=? (all_settles p1 p2).1)%N
     | None => false
     end
  then (Ret None, after_send_all r1 r2 (default 0%N timer) w)
  else match (all_settles p1 p2).2 with
       | Some e => (Throw e, after_send_all r1 r2 (all_settles p1 p2).1 w)
       | None => (Ret (Some (a1.1, a2.1)), after_send_all r1 r2 (all_settles p1 p2).1 w)
       end.
Proof.
  cbn zeta. unfold send_all, next_reply, after_send_all.
  change (reply_at 0 (set_plan (tail (plan w)) w)) with
    (nth 0 (tail (plan w)) (mkReply 0 Fine)).
  replace (nth 0 (tail (plan w)) (mkReply 0 Fine)) with (reply_at 1 w)
    by (unfold reply_at; destruct (plan w); reflexivity).
  cbn [plan set_plan db emit].
  destruct (all_settles (reply_at 0 w) (reply_at 1 w)) as [t rej]. cbn [fst snd].
  destruct (fault (reply_at 0 w)), (fault (reply_at 1 w)); cbn;
    destruct timer as [limit|]; try destruct (limit <=? t)%N; destruct rej; reflexivity.
Qed.

Lemma fetchUserData_never_throws u k : never_throws (AuthProvider.fetchUserData u k).
Proof. unfold AuthProvider.fetchUserData. never_throws_tac. Qed.

Lemma fetchUserData_background u k :
  keeps (emits_only background) (AuthProvider.fetchUserData u k).
Proof. unfold AuthProvider.fetchUserData. emits_only_tac background. Qed.

Lemma refreshProfile_never_throws : never_throws AuthProvider.refreshProfile.
Proof.
  unfold AuthProvider.refreshProfile.
  apply never_throws_bind; [apply never_throws_get_world | intros w0].
  destruct (user (facade w0)); [|apply never_throws_ret].
  apply never_throws_bind; [apply never_throws_modify | intros _].
  apply fetchUserData_never_throws.
Qed.

Lemma refreshProfile_background : keeps (emits_only background) AuthProvider.refreshProfile.
Proof.
  unfold AuthProvider.refreshProfile.
  keeps_tac (emits_only_refl background) (emits_only_trans background)
    ltac:(first [apply fetchUserData_background | emits_only_leaf]).
Qed.

(** Read off the events a run added, once the final world is explicit
    (up to the segments that lemmas about sub-handlers describe). *)
Ltac strip_log l base :=
  lazymatch l with
  | base => constr:(@nil Event)
  | ?e :: ?l' => let r := strip_log l' base in constr:(e :: r)
  | (?a ++ ?l')%list => let r := strip_log l' base in constr:((a ++ r)%list)
  end.

Ltac expand_log l :=
  lazymatch l with
  | ?e :: ?l' => let r := expand_log l' in constr:(e :: r)
  | (?a ++ ?l')%list => let r := expand_log l' in constr:((a ++ r)%list)
  | log ?x =>
      lazymatch goal with
      | H : log x = ?rhs |- _ => expand_log rhs
      | _ => constr:(log x)
      end
  end.

Ltac read_events :=
  repeat match goal with
  | |- context [new_events ?w ?w'] =>
      let l := eval cbn [log clock zone origin db plan auth_plan facade authPage checkoutPage
                         adminPage set_clock set_db set_plan set_auth_plan emit advance
                         with_facade with_authPage with_checkoutPage with_adminPage
                         after_send after_send_all] in (log w') in
      let l := expand_log l in
      let es := strip_log l constr:(log w) in
      rewrite (new_events_app w w' es)
        by (norm; repeat match goal with Hl : log _ = _ |- _ => rewrite Hl end;
            cbn [app]; rewrite <- ?app_assoc; cbn [app]; reflexivity);
      cbn [rev]; rewrite ?rev_app_distr; cbn [rev app]; rewrite <- ?app_assoc; cbn [app]
  end.

Lemma fetch_frame_refl w : fetch_frame w w.
Proof. unfold fetch_frame. auto 10. Qed.

Lemma fetch_frame_trans a b c : fetch_frame a b -> fetch_frame b c -> fetch_frame a c.
Proof.
  unfold fetch_frame. intros (?&?&?&?&?&?&?) (?&?&?&?&?&?&?). repeat split; congruence.
Qed.

Lemma fetchUserData_frame u k : keeps fetch_frame (AuthProvider.fetchUserData u k).
Proof.
  unfold AuthProvider.fetchUserData.
  keeps_tac fetch_frame_refl fetch_frame_trans
    ltac:(first
      [ apply keeps_modify; intros ?; repeat split; reflexivity
      | apply keeps_send_all; intros w d; unfold fetch_frame, after_send_all; cbn;
        destruct (fault (reply_at 0 w)), (fault (reply_at 1 w)); repeat split; reflexivity ]).
Qed.

Ltac fetch_cases :=
  unfold AuthProvider.fetchUserData; exec;
  match goal with
  | H : AuthProvider.cache_hit _ _ _ = _ |- _ => rewrite H
  end;
  exec;
  try (rewrite run_send_all; cbn zeta; norm;
       destruct (all_settles _ _) as [t [e|]]; cbn [fst snd] in *;
       destruct (N.leb_spec 5000 t); exec; norm;
       repeat match goal with
              | |- context [match ?x with Some _ => _ | None => _ end] =>
                  destruct x; exec; norm
              end).

(** Served from the cache: nothing is sent, the cached values are
    committed. *)
Lemma fetchUserData_hit u k w c :
  AuthProvider.cache_hit (cachedUserData (facade w)) u k = Some c ->
  let w' := world_after (AuthProvider.fetchUserData u k) w in
  new_events w w' = [] /\
  profile (facade w') = cached_profile c /\
  isAdmin (facade w') = cached_isAdmin c.
Proof. intros H. cbn zeta. repeat split; fetch_cases; read_events; reflexivity. Qed.

(** Not served from the cache: the timer is set and both requests leave
    before anything is awaited. *)
Lemma fetchUserData_miss_events u k w :
  AuthProvider.cache_hit (cachedUserData (facade w)) u k = None ->
  let w' := world_after (AuthProvider.fetchUserData u k) w in
  firstn 3 (new_events w w')
  = [TimerSet 5000 "fetch timeout"; Sent (SelectProfile k); Sent (SelectAdminRole k)] /\
  sent (new_events w w') = [SelectProfile k; SelectAdminRole k].
Proof. intros H. cbn zeta. split; fetch_cases; read_events; reflexivity. Qed.

(** It waits for whichever comes first, the timer or the pair of answers. *)
Lemma fetchUserData_miss_clock u k w :
  AuthProvider.cache_hit (cachedUserData (facade w)) u k = None ->
  clock (world_after (AuthProvider.fetchUserData u k) w)
  = clock w + Z.of_N (N.min 5000 (all_settles (reply_at 0 w) (reply_at 1 w)).1).
Proof. intros H. fetch_cases; unfold default; cbn [from_option id]; lia. Qed.

(** The timer wins: a warning, and nothing committed. *)
Lemma fetchUserData_timeout u k w :
  AuthProvider.cache_hit (cachedUserData (facade w)) u k = None ->
  (5000 <= (all_settles (reply_at 0 w) (reply_at 1 w)).1)%N ->
  let w' := world_after (AuthProvider.fetchUserData u k) w in
  facade w' = facade w /\
  new_events w w'
  = [TimerSet 5000 "fetch timeout"; Sent (SelectProfile k); Sent (SelectAdminRole k);
     Console "warn" "User data fetch timed out" None].
Proof.
  intros H Hslow. cbn zeta. split; fetch_cases; try lia.
  all: first [ destruct (facade w); reflexivity | read_events; reflexivity ].
Qed.

(** A profile fetch, summed up for its callers. *)
Lemma fetchUserData_run u k w :
  exists w' es,
    AuthProvider.fetchUserData u k w = (Ret tt, w') /\
    log w' = (es ++ log w)%list /\
    forallb background es = true /\
    fetch_frame w w' /\
    (AuthProvider.cache_hit (cachedUserData (facade w)) u k = None ->
     sent (rev es) = [SelectProfile k; SelectAdminRole k]).
Proof.
  destruct (returns_run _ _ (fetchUserData_never_throws u k w)) as [[] Hrun].
  destruct (fetchUserData_background u k w) as (es & Hlog & Hes).
  exists (world_after (AuthProvider.fetchUserData u k) w), es.
  repeat split; try assumption; try apply fetchUserData_frame.
  intros Hmiss. destruct (fetchUserData_miss_events u k w Hmiss) as [_ Hsent].
  rewrite (new_events_app _ _ es Hlog) in Hsent. exact Hsent.
Qed.

(** C7 as stated fails when the cache holds the data of the user the fetch
    is for: [fetchUserData] commits what is cached and sends nothing. *)
Lemma cached_user_is_not_fetched : ~ always_fetches.
Proof.
  intros H.
  specialize (H (Some Sample.customer) "u-worker" (Sample.cached Sample.customer)).
  vm_compute in H. discriminate H.
Qed.

(** C7, amended: unless the cache holds the data of the same user (then
    nothing is sent and the cached profile and admin flag are committed),
    [fetchUserData] sets a 5000 ms timer and sends the profile and the
    admin-role request together; it waits for whichever comes first of the
    timer and the pair of answers, so never more than 5000 ms; when the
    timer wins it logs a warning and commits nothing.  In every case it
    returns without an error, raises no toast, and leaves the session, the
    user, the loading flag, the pages and the tables as they were. *)
Theorem fetchUserData_races (u : option User) (k : string) (w : World) :
  let m := AuthProvider.fetchUserData u k in
  let w' := world_after m w in
  let settles := all_settles (reply_at 0 w) (reply_at 1 w) in
  result_of m w = Ret tt /\
  session (facade w') = session (facade w) /\
  user (facade w') = user (facade w) /\
  isLoading (facade w') = isLoading (facade w) /\
  authPage w' = authPage w /\
  db w' = db w /\
  emits_only background w w' /\
  (forall c,
      AuthProvider.cache_hit (cachedUserData (facade w)) u k = Some c ->
      new_events w w' = [] /\
      profile (facade w') = cached_profile c /\
      isAdmin (facade w') = cached_isAdmin c) /\
  (AuthProvider.cache_hit (cachedUserData (facade w)) u k = None ->
      firstn 3 (new_events w w')
      = [TimerSet 5000 "fetch timeout"; Sent (SelectProfile k); Sent (SelectAdminRole k)] /\
      sent (new_events w w') = [SelectProfile k; SelectAdminRole k] /\
      clock w' = clock w + Z.of_N (N.min 5000 settles.1) /\
      ((5000 <= settles.1)%N ->
       facade w' = facade w /\
       new_events w w'
       = [TimerSet 5000 "fetch timeout"; Sent (SelectProfile k); Sent (SelectAdminRole k);
          Console "warn" "User data fetch timed out" None])).
Proof.
  cbn zeta.
  destruct (fetchUserData_frame u k w) as (Hs & Hu & Hl & Ha & _ & _ & Hd).
  split; [destruct (fetchUserData_never_throws u k w) as [[] H]; exact H|].
  do 5 (split; [assumption|]).
  split; [apply fetchUserData_background|].
  split; [intros c; apply fetchUserData_hit|].
  intros Hmiss. destruct (fetchUserData_miss_events u k w Hmiss) as [H3 Hsent].
  do 2 (split; [assumption|]).
  split; [apply fetchUserData_miss_clock, Hmiss | apply fetchUserData_timeout, Hmiss].
Qed.

(** A slow backend on the sample tables: the profile answer takes seven
    seconds, the timer wins, nothing is committed. *)
Lemma fetchUserData_races_example :
  let w := Sample.world Sample.jan31 [mkReply 7000 Fine; mkReply 100 Fine]
                        (Sample.signed_in Sample.customer) in
  let w' := world_after (AuthProvider.fetchUserData None "u-worker") w in
  facade w' = facade w /\
  new_events w w'
  = [TimerSet 5000 "fetch timeout"; Sent (SelectProfile "u-worker");
     Sent (SelectAdminRole "u-worker"); Console "warn" "User data fetch timed out" None].
Proof.
  apply (proj2 (proj2 (proj2 (proj2 (proj2 (proj2 (proj2 (proj2
           (fetchUserData_races None "u-worker"
              (Sample.world Sample.jan31 [mkReply 7000 Fine; mkReply 100 Fine]
                            (Sample.signed_in Sample.customer))))))))))
           eq_refl);
    vm_compute; discriminate.
Defined.

(** *** Signing in *)

Lemma run_auth_call (r : AuthRequest) (w : World) :
  AuthProvider.auth_call r w =
  match answer (auth_reply_at 0 w) with
  | Granted s => (Ret (s, None), after_auth r w)
  | Refused e => (Ret (None, Some e), after_auth r w)
  | Broken e => (Throw e, after_auth r w)
  end.
Proof. reflexivity. Qed.

Lemma run_auth_call_sharing (r : AuthRequest) (w : World) :
  AuthProvider.auth_call_sharing r w =
  match answer (auth_reply_at 0 w) with
  | Granted s => (Ret (s, None), after_auth_sharing r w)
  | Refused e => (Ret (None, Some e), after_auth_sharing r w)
  | Broken e => (Throw e, after_auth_sharing r w)
  end.
Proof.
  unfold AuthProvider.auth_call_sharing, after_auth_sharing. rewrite run_auth_call.
  destruct (answer (auth_reply_at 0 w)); reflexivity.
Qed.

Lemma signIn_never_throws email pw : never_throws (AuthProvider.signIn email pw).
Proof. unfold AuthProvider.signIn. never_throws_tac. Qed.

(** What a fetch has sent, read off its log. *)
Lemma fetchUserData_sends u k w w' es :
  AuthProvider.fetchUserData u k w = (Ret tt, w') ->
  log w' = (es ++ log w)%list ->
  sent (rev es) = fetch_requests (cachedUserData (facade w)) u k.
Proof.
  intros Hrun Hlog. unfold fetch_requests.
  destruct (AuthProvider.cache_hit (cachedUserData (facade w)) u k) as [c|] eqn:E.
  - destruct (fetchUserData_hit u k w c E) as (Hev & _).
    unfold world_after in Hev. rewrite Hrun in Hev. cbn [snd] in Hev.
    rewrite (new_events_app _ _ es Hlog) in Hev. rewrite Hev. reflexivity.
  - destruct (fetchUserData_miss_events u k w E) as [_ Hs].
    unfold world_after in Hs. rewrite Hrun in Hs. cbn [snd] in Hs.
    rewrite (new_events_app _ _ es Hlog) in Hs. exact Hs.
Qed.

Ltac exists_world es :=
  match goal with
  | |- exists w1 _, (_, ?x) = (_, w1) /\ _ => exists x, es
  end.

Ltac sign_in_step :=
  unfold AuthProvider.signIn; exec; rewrite run_auth_call_sharing; norm;
  match goal with
  | H : answer _ = _ |- _ => rewrite H
  end;
  exec; norm.

Lemma signIn_refused email pw w e :
  answer (auth_reply_at 0 w) = Refused e ->
  result_of (AuthProvider.signIn email pw) w
  = Ret (Some (if Js.includes (Js.message e) "Email not confirmed" then verify_first else e)).
Proof.
  intros H. sign_in_step.
  destruct (Js.includes (Js.message e) "Email not confirmed"); reflexivity.
Qed.

Lemma signIn_broken email pw w e :
  answer (auth_reply_at 0 w) = Broken e ->
  result_of (AuthProvider.signIn email pw) w = Ret (Some e).
Proof. intros H. sign_in_step. reflexivity. Qed.

Lemma sent_app (a b : list Event) : sent (a ++ b) = (sent a ++ sent b)%list.
Proof. apply omap_app. Qed.

Lemma loading_commits_app (a b : list Event) :
  loading_commits (a ++ b) = (loading_commits a ++ loading_commits b)%list.
Proof. apply omap_app. Qed.

Lemma background_no_commit (es : list Event) :
  forallb background es = true -> loading_commits es = [].
Proof.
  unfold loading_commits. induction es as [|e es IH]; cbn; [reflexivity|].
  intros H. apply andb_prop in H as [He Hes]. rewrite (IH Hes).
  destruct e; cbn in *; try reflexivity; discriminate.
Qed.

Lemma forallb_rev {A} (P : A -> bool) (l : list A) : forallb P (rev l) = forallb P l.
Proof.
  induction l as [|x l IH]; cbn; [reflexivity|].
  rewrite forallb_app, IH. cbn. rewrite andb_true_r, andb_comm. reflexivity.
Qed.

(** A granted sign-in, step by step: what is committed, what is sent, and
    the commits of [isLoading]. *)
Lemma signIn_granted email pw w s :
  answer (auth_reply_at 0 w) = Granted (Some s) ->
  let w' := world_after (AuthProvider.signIn email pw) w in
  result_of (AuthProvider.signIn email pw) w = Ret None /\
  session (facade w') = Some s /\
  user (facade w') = Some (session_user s) /\
  isLoading (facade w') = false /\
  sent (new_events w w')
  = fetch_requests (cached_meanwhile (auth_reply_at 0 w)) (user (facade w))
                   (uid (session_user s)) /\
  loading_commits (new_events w w') = [true; false] /\
  (forall c,
      AuthProvider.cache_hit (cached_meanwhile (auth_reply_at 0 w)) (user (facade w))
                             (uid (session_user s)) = Some c ->
      profile (facade w') = cached_profile c /\ isAdmin (facade w') = cached_isAdmin c).
Proof.
  intros H. cbn zeta.
  assert (Hrun : exists w1 es,
             AuthProvider.signIn email pw w = (Ret None, w1) /\
             session (facade w1) = Some s /\
             user (facade w1) = Some (session_user s) /\
             isLoading (facade w1) = false /\
             log w1 = (SetIsLoading false :: es
                       ++ [AuthSent (SignInWithPassword email pw); SetIsLoading true]
                       ++ log w)%list /\
             forallb background es = true /\
             sent (rev es)
             = fetch_requests (cached_meanwhile (auth_reply_at 0 w)) (user (facade w))
                              (uid (session_user s)) /\
             (forall c,
                 AuthProvider.cache_hit (cached_meanwhile (auth_reply_at 0 w))
                                        (user (facade w)) (uid (session_user s)) = Some c ->
                 profile (facade w1) = cached_profile c /\
                 isAdmin (facade w1) = cached_isAdmin c)).
  { sign_in_step.
    match goal with
    | |- context [AuthProvider.fetchUserData ?u ?k ?x] =>
        destruct (fetchUserData_run u k x) as (w2 & es & Hrun & Hlog & Hbg & Hframe & _);
        pose proof (fetchUserData_sends u k x w2 es Hrun Hlog) as Hsent;
        pose proof (fun c E => proj2 (fetchUserData_hit u k x c E)) as Hhit;
        unfold world_after in Hhit; rewrite Hrun in Hhit; cbn [snd] in Hhit;
        rewrite Hrun
    end.
    destruct Hframe as (Hs & Hu & _).
    unfold after_auth_sharing, after_auth, AuthProvider.sharing in *. exec. norm.
    exists_world es.
    split; [reflexivity|]. norm. rewrite Hs, Hu, Hlog.
    repeat split; try reflexivity; try assumption.
    - rewrite Hsent. unfold fetch_requests.
      destruct (cached_meanwhile (nth 0 (auth_plan w) _)); reflexivity.
    - apply Hhit. destruct (cached_meanwhile (nth 0 (auth_plan w) _)); assumption.
    - apply Hhit. destruct (cached_meanwhile (nth 0 (auth_plan w) _)); assumption. }
  destruct Hrun as (w1 & es & Hrun & Hs & Hu & Hl & Hlog & Hbg & Hsent & Hhit).
  unfold result_of, world_after. rewrite Hrun. cbn [fst snd].
  assert (Hlog' : log w1
                  = ((SetIsLoading false
                      :: es ++ [AuthSent (SignInWithPassword email pw); SetIsLoading true])
                     ++ log w)%list)
    by (rewrite Hlog; cbn [app]; rewrite <- app_assoc; reflexivity).
  rewrite (new_events_app w w1 _ Hlog').
  cbn [rev]. rewrite !rev_app_distr. cbn [rev app].
  repeat split; try assumption.
  - change (sent ([SetIsLoading true; AuthSent (SignInWithPassword email pw)]
                  ++ rev es ++ [SetIsLoading false])
            = fetch_requests (cached_meanwhile (auth_reply_at 0 w)) (user (facade w))
                             (uid (session_user s))).
    rewrite !sent_app, Hsent. cbn [sent omap app]. apply app_nil_r.
  - change (loading_commits ([SetIsLoading true; AuthSent (SignInWithPassword email pw)]
                             ++ rev es ++ [SetIsLoading false])
            = [true; false]).
    rewrite !loading_commits_app, (background_no_commit (rev es)).
    + reflexivity.
    + rewrite forallb_rev. exact Hbg.
  - apply (Hhit c). assumption.
  - apply (Hhit c). assumption.
Qed.

(** C8 as stated fails for "Invalid login": [signIn] hands such an error
    back as the auth service worded it. *)
Lemma invalid_login_is_not_mapped : ~ signIn_maps "Invalid login".
Proof.
  intros [text H].
  pose proof (H [] [] (Sample.refusing "Invalid login credentials")
                (Js.mkError "Invalid login credentials") eq_refl eq_refl) as H1.
  pose proof (H [] [] (Sample.refusing "Invalid login: account locked")
                (Js.mkError "Invalid login: account locked") eq_refl eq_refl) as H2.
  rewrite (signIn_refused [] [] (Sample.refusing "Invalid login credentials")
                          (Js.mkError "Invalid login credentials") eq_refl) in H1.
  rewrite (signIn_refused [] [] (Sample.refusing "Invalid login: account locked")
                          (Js.mkError "Invalid login: account locked") eq_refl) in H2.
  vm_compute in H1, H2. congruence.
Qed.

(** What the sign-in form shows for an error the auth service answered. *)
Lemma handleSubmit_refused (zod_email : Js.ustring -> bool) (w : World) (e : Js.Error) :
  isSignUp (authPage w) = false ->
  Auth.signInSchema zod_email (email (formData (authPage w)))
                    (password (formData (authPage w))) = [] ->
  answer (auth_reply_at 0 w) = Refused e ->
  apiError (authPage (world_after (Auth.handleSubmit zod_email) w))
  = if Js.includes (Js.message e) "Email not confirmed"
    then Js.message verify_first
    else if Js.includes (Js.message e) "Invalid login"
         then "Invalid email or password. Please try again."
         else Js.or_str (Js.message e) "Failed to sign in. Please try again.".
Proof.
  intros Hin Hvalid Hrefused.
  unfold Auth.handleSubmit. exec. norm. rewrite Hin, Hvalid.
  match goal with
  | |- context [AuthProvider.signIn ?a ?b ?x] =>
      pose proof (signIn_refused a b x e Hrefused) as Hr;
      unfold result_of in Hr;
      destruct (AuthProvider.signIn a b x) as [r w1]
  end.
  cbn [fst] in Hr. subst r.
  destruct (Js.includes (Js.message e) "Email not confirmed") eqn:Hconfirm.
  - cbn [Js.message verify_first]. reflexivity.
  - rewrite Hconfirm. destruct (Js.includes (Js.message e) "Invalid login"); reflexivity.
Qed.

(** C8, amended: [signIn] never throws: what the auth service refuses and
    what goes wrong otherwise comes back as the [error] of its result.  It
    maps "Email not confirmed" to a message of its own and hands every
    other error back unchanged; "Invalid login" is mapped by the form that
    called it, which shows "Invalid email or password".  On success it
    commits the session and the user and calls [fetchUserData] for that
    user: the profile and the admin-role request are sent, unless a fetch
    that completed while [signIn] waited for the auth service has filled
    the cache for the user the closure holds, in which case nothing is
    sent and the cached profile and admin flag are committed. *)
Theorem signIn_reports (mail pw : Js.ustring) (w : World) :
  let m := AuthProvider.signIn mail pw in
  let w' := world_after m w in
  returns m w /\
  (forall e, answer (auth_reply_at 0 w) = Refused e ->
             Js.includes (Js.message e) "Email not confirmed" = true ->
             result_of m w
             = Ret (Some (Js.mkError "Please verify your email first. Check your inbox."))) /\
  (forall e, answer (auth_reply_at 0 w) = Refused e ->
             Js.includes (Js.message e) "Email not confirmed" = false ->
             result_of m w = Ret (Some e)) /\
  (forall e, answer (auth_reply_at 0 w) = Broken e -> result_of m w = Ret (Some e)) /\
  (forall zod_email e,
      isSignUp (authPage w) = false ->
      Auth.signInSchema zod_email (email (formData (authPage w)))
                        (password (formData (authPage w))) = [] ->
      answer (auth_reply_at 0 w) = Refused e ->
      let shown := apiError (authPage (world_after (Auth.handleSubmit zod_email) w)) in
      (Js.includes (Js.message e) "Email not confirmed" = true ->
       shown = "Please verify your email first. Check your inbox.") /\
      (Js.includes (Js.message e) "Email not confirmed" = false ->
       Js.includes (Js.message e) "Invalid login" = true ->
       shown = "Invalid email or password. Please try again.")) /\
  (forall s, answer (auth_reply_at 0 w) = Granted (Some s) ->
             result_of m w = Ret None /\
             session (facade w') = Some s /\
             user (facade w') = Some (session_user s) /\
             let k := uid (session_user s) in
             let served :=
               AuthProvider.cache_hit (cached_meanwhile (auth_reply_at 0 w))
                                      (user (facade w)) k in
             sent (new_events w w')
             = (if served is Some _ then [] else [SelectProfile k; SelectAdminRole k]) /\
             (forall c, served = Some c ->
                        profile (facade w') = cached_profile c /\
                        isAdmin (facade w') = cached_isAdmin c) /\
             (cached_meanwhile (auth_reply_at 0 w) = None ->
              sent (new_events w w') = [SelectProfile k; SelectAdminRole k])).
Proof.
  cbn zeta. split; [apply signIn_never_throws|].
  split; [intros e He Hc; rewrite (signIn_refused _ _ _ _ He), Hc; reflexivity|].
  split; [intros e He Hc; rewrite (signIn_refused _ _ _ _ He), Hc; reflexivity|].
  split; [intros e; apply signIn_broken|].
  split.
  - intros zod_email e Hin Hvalid He.
    rewrite (handleSubmit_refused zod_email w e Hin Hvalid He).
    split; [intros ->; reflexivity | intros -> ->; reflexivity].
  - intros s Hs.
    destruct (signIn_granted mail pw w s Hs) as (H1 & H2 & H3 & _ & H5 & _ & H7).
    unfold fetch_requests in H5.
    do 3 (split; [assumption|]). split; [exact H5|]. split; [exact H7|].
    intros Hnone. rewrite H5, Hnone. reflexivity.
Qed.

(** On the sample tables: the auth service refuses with "Invalid login
    credentials"; [signIn] hands that back, the form shows its own text. *)
Lemma signIn_reports_example :
  result_of (AuthProvider.signIn [] []) (Sample.refusing "Invalid login credentials")
  = Ret (Some (Js.mkError "Invalid login credentials")).
Proof.
  apply (proj1 (proj2 (proj2 (signIn_reports [] [] (Sample.refusing "Invalid login credentials"))))
           (Js.mkError "Invalid login credentials"));
    reflexivity.
Defined.

(** *** The loading flag *)

Lemma falling_edges_false (l : list bool) :
  Forall (fun b => b = false) l -> falling_edges (false :: l) = O.
Proof.
  induction 1 as [|b l Hb _ IH]; [reflexivity|]. subst b. exact IH.
Qed.

(** Commits of [false] by others, after the [true] of the sign-in, do not
    change the count. *)
Lemma falling_edges_interleaved (b0 : bool) (l1 l2 : list bool) :
  Forall (fun b => b = false) l1 -> Forall (fun b => b = false) l2 ->
  falling_edges (b0 :: true :: l1 ++ false :: l2) = 1%nat.
Proof.
  intros H1 H2.
  assert (E : falling_edges (true :: l1 ++ false :: l2) = 1%nat).
  { assert (Hl : Forall (fun b => b = false) (l1 ++ false :: l2)%list)
      by (apply Forall_app; split; [assumption | constructor; [reflexivity | assumption]]).
    destruct (l1 ++ false :: l2)%list as [|b l] eqn:El; [destruct l1; discriminate|].
    inversion Hl as [|? ? Hb Hrest]; subst.
    change (S (falling_edges (false :: l)) = 1%nat).
    rewrite (falling_edges_false l Hrest). reflexivity. }
  destruct b0; exact E.
Qed.

(** The debounced listener commits [isLoading] once, to [false]. *)
Lemma listener_commits event newSession w :
  loading_commits
    (new_events w (world_after (AuthProvider.onAuthStateChange event newSession) w))
  = [false].
Proof.
  unfold AuthProvider.onAuthStateChange. exec.
  destruct newSession as [s|]; cbn [fmap option_fmap option_map bool_decide negb when].
  - rewrite bool_decide_eq_false_2 by discriminate. cbn [negb]. exec.
    match goal with
    | |- context [AuthProvider.fetchUserData ?u ?k ?x] =>
        destruct (fetchUserData_run u k x) as (w2 & es & -> & Hlog & Hbg & _ & _)
    end.
    exec.
    match goal with
    | |- context [new_events ?a ?b] =>
        rewrite (new_events_app a b (SetIsLoading false :: es ++ [Console "log"
                   ("Auth state change: " +:+ event) None]))
          by (norm; rewrite Hlog; norm; cbn [app]; rewrite <- app_assoc; reflexivity)
    end.
    cbn [rev]. rewrite !rev_app_distr. cbn [rev app].
    change (loading_commits ([Console "log" ("Auth state change: " +:+ event) None]
                             ++ rev es ++ [SetIsLoading false]) = [false]).
    rewrite !loading_commits_app, (background_no_commit (rev es))
      by (rewrite forallb_rev; exact Hbg).
    reflexivity.
  - rewrite bool_decide_eq_true_2 by reflexivity. cbn [negb]. exec. read_events. reflexivity.
Qed.

(** C9: during a successful sign-in the loading flag goes from true to
    false exactly once: the call commits [true], then, whatever becomes of
    the profile fetch (answered in time, failed, rejected or timed out),
    [false], and nothing else; the listener, which commits only [false],
    cannot add a second fall. *)
Theorem signIn_releases_loading_once (email pw : Js.ustring) (w : World)
    (s : option Session) :
  answer (auth_reply_at 0 w) = Granted s ->
  let w' := world_after (AuthProvider.signIn email pw) w in
  loading_commits (new_events w w') = [true; false] /\
  falling_edges (isLoading (facade w) :: loading_commits (new_events w w')) = 1%nat /\
  isLoading (facade w') = false /\
  (forall event newSession w0,
      loading_commits
        (new_events w0 (world_after (AuthProvider.onAuthStateChange event newSession) w0))
      = [false]) /\
  (forall others_before others_after : list bool,
      Forall (fun b => b = false) others_before ->
      Forall (fun b => b = false) others_after ->
      falling_edges (isLoading (facade w) :: true :: others_before ++ false :: others_after)
      = 1%nat).
Proof.
  intros Hs. cbn zeta.
  assert (Hc : loading_commits
                 (new_events w (world_after (AuthProvider.signIn email pw) w)) = [true; false]
               /\ isLoading (facade (world_after (AuthProvider.signIn email pw) w)) = false).
  { destruct s as [s|].
    - destruct (signIn_granted email pw w s Hs) as (_ & _ & _ & Hl & _ & Hc & _). auto.
    - split; sign_in_step; unfold after_auth_sharing, after_auth, AuthProvider.sharing;
        norm; read_events; reflexivity. }
  destruct Hc as [Hc Hl]. rewrite Hc.
  split; [reflexivity|]. split; [destruct (isLoading (facade w)); reflexivity|].
  split; [assumption|]. split; [intros; apply listener_commits|].
  intros l1 l2. apply falling_edges_interleaved.
Qed.

Lemma signIn_releases_loading_once_example :
  let w := Sample.granting [mkReply 7000 Fine; mkReply 100 Fine] in
  let w' := world_after (AuthProvider.signIn [] []) w in
  loading_commits (new_events w w') = [true; false] /\
  falling_edges (isLoading (facade w) :: loading_commits (new_events w w')) = 1%nat /\
  isLoading (facade w') = false.
Proof.
  destruct (signIn_releases_loading_once [] []
              (Sample.granting [mkReply 7000 Fine; mkReply 100 Fine])
              (Some (mkSession "token" Sample.customer)) eq_refl)
    as (H1 & H2 & H3 & _).
  exact (conj H1 (conj H2 H3)).
Defined.

(** *** The checkout *)

Lemma refreshProfile_frame : keeps fetch_frame AuthProvider.refreshProfile.
Proof.
  unfold AuthProvider.refreshProfile.
  keeps_tac fetch_frame_refl fetch_frame_trans
    ltac:(first [ apply fetchUserData_frame
                | apply keeps_modify; intros ?; repeat split; reflexivity ]).
Qed.

Lemma refreshProfile_run (w : World) :
  exists w' es,
    AuthProvider.refreshProfile w = (Ret tt, w') /\
    log w' = (es ++ log w)%list /\
    forallb background es = true /\
    checkoutPage w' = checkoutPage w /\
    db w' = db w.
Proof.
  destruct (returns_run _ _ (refreshProfile_never_throws w)) as [[] Hrun].
  destruct (refreshProfile_background w) as (es & Hlog & Hes).
  destruct (refreshProfile_frame w) as (_ & _ & _ & _ & Hc & _ & Hd).
  exists (world_after AuthProvider.refreshProfile w), es. auto.
Qed.

Lemma background_selects (es : list Event) :
  forallb background es = true -> forallb is_select (sent es) = true.
Proof.
  unfold sent. induction es as [|e es IH]; cbn; [reflexivity|].
  intros H. apply andb_prop in H as [He Hes].
  destruct e; cbn in *; auto.
  rewrite (IH Hes), andb_true_r. destruct (is_select r); [reflexivity | discriminate].
Qed.

Lemma sent_cons_request r l : sent (Sent r :: l) = r :: sent l.
Proof. reflexivity. Qed.
Lemma sent_cons_console a b c l : sent (Console a b c :: l) = sent l.
Proof. reflexivity. Qed.
Lemma sent_cons_toast a b c l : sent (Toast a b c :: l) = sent l.
Proof. reflexivity. Qed.
Lemma sent_cons_timer a b l : sent (TimerSet a b :: l) = sent l.
Proof. reflexivity. Qed.

Lemma sent_nil : sent [] = [].
Proof. reflexivity. Qed.

Create Rewrite HintDb events.
#[local] Hint Rewrite sent_cons_request sent_cons_console sent_cons_toast sent_cons_timer
  sent_app sent_nil : events.

Ltac read_sent := autorewrite with events.

Ltac find_event :=
  solve [ repeat first [ apply in_eq | apply in_cons | (apply in_or_app; right) ] ].

Lemma selects_no_insert (rs : list Request) :
  forallb is_select rs = true ->
  List.filter is_insert rs = [] /\ List.filter is_membership_update rs = [].
Proof.
  induction rs as [|r rs IH]; cbn; [auto|].
  intros H. apply andb_prop in H as [Hr Hrs]. destruct (IH Hrs) as [E1 E2].
  destruct r; cbn in *; try discriminate; auto.
Qed.

(** A checkout confirmation, for the user [u] and the plan [p] of the
    render, be it one of the three plans or an inherited member. *)
Lemma handlePayNow_run (w : World) (u : User) (p : Checkout.PlanValue) :
  user (facade w) = Some u ->
  Checkout.currentPlan w = Some p ->
  let w' := world_after Checkout.handlePayNow w in
  let events := new_events w w' in
  result_of Checkout.handlePayNow w = Ret tt /\
  (exists rest,
      sent events
      = InsertTransaction (pending_transaction u p (clock w))
        :: UpdateMembership (uid u)
             (pending_membership (zone w) p (clock w + Z.of_N (delay (reply_at 0 w))))
        :: rest /\
      forallb is_select rest = true) /\
  (forall e, fault (reply_at 0 w) = Fails e ->
             In (Console "warn" "Transaction record not created:" (Some e)) events) /\
  (forall e, fault (reply_at 0 w) = Rejects e ->
             In (Console "warn" "Database operation failed:" (Some e)) events) /\
  (forall e, fault (reply_at 1 w) = Fails e \/ fault (reply_at 1 w) = Rejects e ->
             In (Console "warn" "Profile update failed:" (Some e)) events) /\
  In payment_instructions events /\
  In (TimerSet 10000 "navigate /dashboard") events /\
  checkoutPage w'
  = mkCheckoutPage (plan_param (checkoutPage w)) false true None /\
  (accepts 2 w ->
   transactions (db w')
   = (transactions (db w) ++ [pending_transaction u p (clock w)])%list /\
   profiles (db w')
   = alter (apply_membership
              (pending_membership (zone w) p (clock w + Z.of_N (delay (reply_at 0 w)))))
           (uid u) (profiles (db w))).
Proof.
  intros Hu Hp. cbn zeta.
  assert (Hacc : accepts 2 w -> fault (reply_at 0 w) = Fine /\ fault (reply_at 1 w) = Fine).
  { intros H. split; [apply (accepts_reply 2 0) | apply (accepts_reply 2 1)]; (assumption || lia). }
  unfold Checkout.handlePayNow. exec. rewrite Hu, Hp. exec.
  rewrite run_send. norm.
  destruct (fault (nth 0 (plan w) _)) eqn:F0; exec; norm;
    rewrite run_send; norm;
    destruct (fault (nth 1 (plan w) _)) eqn:F1; exec; norm;
    try match goal with
        | |- context [AuthProvider.refreshProfile ?x] =>
            destruct (refreshProfile_run x) as (w2 & es & -> & Hlog & Hbg & Hc & Hd)
        end;
    exec; norm; read_events; unfold pending_transaction, pending_membership;
    (split; [reflexivity|]);
    (split; [eexists; split; [read_sent; reflexivity|];
             first [ reflexivity
                   | rewrite app_nil_r; apply background_selects;
                     rewrite forallb_rev; exact Hbg ]|]);
    (split; [intros err [= <-] || (intros err; discriminate); find_event|]);
    (split; [intros err [= <-] || (intros err; discriminate); find_event|]);
    (split; [intros err [[= <-]|[= <-]] || (intros err [|]; discriminate); find_event|]);
    (split; [find_event|]);
    (split; [find_event|]);
    (split; [rewrite ?Hc; reflexivity|]);
    intros Ha; destruct (Hacc Ha) as [A0 A1]; try discriminate A0; try discriminate A1;
    rewrite ?Hd; split; reflexivity.
Qed.

(** *** The calendar *)

Lemma DaysInYear_cases (y : Z) : JsDate.DaysInYear y = 365 \/ JsDate.DaysInYear y = 366.
Proof. unfold JsDate.DaysInYear, JsDate.DayFromYear. Z.div_mod_to_equations. lia. Qed.

Lemma DayFromYear_mono (y1 y2 : Z) :
  y1 < y2 -> JsDate.DayFromYear y1 < JsDate.DayFromYear y2.
Proof. unfold JsDate.DayFromYear. intros H. Z.div_mod_to_equations. lia. Qed.

(** [YearFromDay] finds the year: the estimate is off by at most one. *)
Lemma YearFromDay_spec (D : Z) :
  JsDate.DayFromYear (JsDate.YearFromDay D) <= D
  < JsDate.DayFromYear (JsDate.YearFromDay D + 1).
Proof.
  unfold JsDate.YearFromDay.
  set (y := 1970 + D * 400 / 146097).
  assert (H : JsDate.DayFromYear (y - 1) <= D < JsDate.DayFromYear (y + 2))
    by (unfold JsDate.DayFromYear, y; Z.div_mod_to_equations; lia).
  destruct (Z.leb_spec (JsDate.DayFromYear (y + 1)) D).
  - replace (y + 1 + 1) with (y + 2) by lia. lia.
  - destruct (Z.leb_spec (JsDate.DayFromYear y) D).
    + lia.
    + replace (y - 1 + 1) with y by lia. lia.
Qed.

Lemma YearFromDay_unique (D y : Z) :
  JsDate.DayFromYear y <= D < JsDate.DayFromYear (y + 1) -> JsDate.YearFromDay D = y.
Proof.
  intros [H1 H2]. destruct (YearFromDay_spec D) as [S1 S2].
  remember (JsDate.YearFromDay D) as Y eqn:EY. clear EY.
  destruct (Z.lt_trichotomy Y y) as [L|[E|G]]; [|exact E|]; exfalso.
  - assert (JsDate.DayFromYear (Y + 1) <= JsDate.DayFromYear y).
    { destruct (Z.eq_dec (Y + 1) y) as [<-|]; [apply Z.le_refl|].
      apply Z.lt_le_incl, DayFromYear_mono. lia. }
    lia.
  - assert (JsDate.DayFromYear (y + 1) <= JsDate.DayFromYear Y).
    { destruct (Z.eq_dec (y + 1) Y) as [<-|]; [apply Z.le_refl|].
      apply Z.lt_le_incl, DayFromYear_mono. lia. }
    lia.
Qed.

Lemma monthOfYearDay_range (leap : bool) (d : Z) : 0 <= JsDate.monthOfYearDay leap d <= 11.
Proof.
  unfold JsDate.monthOfYearDay.
  repeat match goal with |- context [if ?b then _ else _] => destruct b end; lia.
Qed.

Lemma MonthFromTime_range (t : Z) : 0 <= JsDate.MonthFromTime t <= 11.
Proof. apply monthOfYearDay_range. Qed.

Lemma month_cases (m : Z) :
  0 <= m <= 11 ->
  m = 0 \/ m = 1 \/ m = 2 \/ m = 3 \/ m = 4 \/ m = 5 \/ m = 6 \/ m = 7 \/ m = 8 \/ m = 9
  \/ m = 10 \/ m = 11.
Proof. lia. Qed.

Ltac each_month m H :=
  destruct (month_cases m H) as [->|[->|[->|[->|[->|[->|[->|[->|[->|[->|[->| ->]]]]]]]]]]].

(** Evaluate the month arithmetic once the month is a numeral. *)
Ltac month_arith :=
  repeat match goal with
         | |- context [(?a + 1) / 12] =>
             let v := eval vm_compute in ((a + 1) / 12) in change ((a + 1) / 12) with v
         | |- context [(?a + 1) mod 12] =>
             let v := eval vm_compute in ((a + 1) mod 12) in change ((a + 1) mod 12) with v
         | |- context [JsDate.monthStart ?l (?a + 1)] =>
             let v := eval vm_compute in (a + 1) in
             change (JsDate.monthStart l (a + 1)) with (JsDate.monthStart l v)
         end.

(** The day of a time value, taken apart and put together again. *)
Lemma Day_decomposed (t : Z) :
  JsDate.Day t
  = JsDate.DayFromYear (JsDate.YearFromTime t)
    + JsDate.monthStart (JsDate.InLeapYear (JsDate.YearFromTime t)) (JsDate.MonthFromTime t)
    + JsDate.DateFromTime t - 1.
Proof. unfold JsDate.DateFromTime, JsDate.DayWithinYear. lia. Qed.

(** Moving the month on by one adds the length of the current month, in
    days, to the time value. *)
Lemma setMonth_adds_current_month (lt : Z) :
  JsDate.setMonth_local lt (JsDate.MonthFromTime lt + 1)
  = lt + JsDate.DaysInMonth (JsDate.InLeapYear (JsDate.YearFromTime lt))
                            (JsDate.MonthFromTime lt) * JsDate.msPerDay.
Proof.
  unfold JsDate.setMonth_local, JsDate.MakeDate, JsDate.MakeDay, JsDate.DaysInMonth.
  pose proof (Day_decomposed lt) as Hd.
  pose proof (MonthFromTime_range lt) as Hm.
  assert (Hlt : lt = JsDate.Day lt * JsDate.msPerDay + JsDate.TimeWithinDay lt).
  { unfold JsDate.Day, JsDate.TimeWithinDay, JsDate.msPerDay.
    pose proof (Z.div_mod lt 86400000 ltac:(lia)). lia. }
  set (y := JsDate.YearFromTime lt) in *.
  set (d := JsDate.DateFromTime lt) in *.
  set (tw := JsDate.TimeWithinDay lt) in *.
  assert (Hnew :
    JsDate.DayFromYear (y + (JsDate.MonthFromTime lt + 1) / 12)
    + JsDate.monthStart (JsDate.InLeapYear (y + (JsDate.MonthFromTime lt + 1) / 12))
                        ((JsDate.MonthFromTime lt + 1) mod 12)
    + d - 1
    = JsDate.Day lt
      + (JsDate.monthStart (JsDate.InLeapYear y) (JsDate.MonthFromTime lt + 1)
         - JsDate.monthStart (JsDate.InLeapYear y) (JsDate.MonthFromTime lt))).
  { rewrite Hd. clear Hd Hlt.
    each_month (JsDate.MonthFromTime lt) Hm; month_arith; rewrite ?Z.add_0_r;
      try (destruct (JsDate.InLeapYear y); cbn [JsDate.monthStart]; lia).
    unfold JsDate.InLeapYear.
    pose proof (DaysInYear_cases y) as [E|E]; rewrite E;
      [change (365 =? 366) with false | change (366 =? 366) with true];
      cbn [JsDate.monthStart]; unfold JsDate.DaysInYear in E; lia. }
  rewrite Hnew. lia.
Qed.

Lemma monthOfYearDay_start (leap : bool) (k : Z) :
  0 <= k -> JsDate.monthStart leap (JsDate.monthOfYearDay leap k) <= k.
Proof.
  intros Hk. unfold JsDate.monthOfYearDay.
  repeat match goal with
         | |- context [if ?a <? ?b then _ else _] => destruct (Z.ltb_spec a b)
         end;
    destruct leap; cbn [JsDate.monthStart] in *; lia.
Qed.

Lemma monthOfYearDay_unique (leap : bool) (m k : Z) :
  0 <= m <= 11 ->
  JsDate.monthStart leap m <= k < JsDate.monthStart leap (m + 1) ->
  JsDate.monthOfYearDay leap k = m.
Proof.
  intros Hm. unfold JsDate.monthOfYearDay.
  each_month m Hm; month_arith; intros Hk; destruct leap; cbn [JsDate.monthStart] in *;
    repeat match goal with
           | |- context [if ?a <? ?b then _ else _] => destruct (Z.ltb_spec a b); try lia
           end;
    reflexivity.
Qed.

Lemma monthStart_in_year (leap : bool) (m : Z) :
  0 <= m <= 11 ->
  0 <= JsDate.monthStart leap m /\
  JsDate.monthStart leap (m + 1) <= 365 + (if leap then 1 else 0).
Proof.
  intros Hm. each_month m Hm; month_arith; destruct leap; cbn [JsDate.monthStart]; lia.
Qed.

Lemma InLeapYear_days (y : Z) :
  JsDate.DaysInYear y = 365 + (if JsDate.InLeapYear y then 1 else 0).
Proof.
  unfold JsDate.InLeapYear. destruct (DaysInYear_cases y) as [E|E]; rewrite E; reflexivity.
Qed.

Lemma DateFromTime_positive (t : Z) : 1 <= JsDate.DateFromTime t.
Proof.
  unfold JsDate.DateFromTime, JsDate.MonthFromTime.
  pose proof (monthOfYearDay_start (JsDate.InLeapYear (JsDate.YearFromTime t))
                                   (JsDate.DayWithinYear t)) as H.
  assert (0 <= JsDate.DayWithinYear t).
  { unfold JsDate.DayWithinYear, JsDate.YearFromTime.
    pose proof (YearFromDay_spec (JsDate.Day t)). lia. }
  lia.
Qed.

Lemma Day_MakeDate (day time : Z) :
  0 <= time < JsDate.msPerDay ->
  JsDate.Day (JsDate.MakeDate day time) = day /\
  JsDate.TimeWithinDay (JsDate.MakeDate day time) = time.
Proof.
  unfold JsDate.Day, JsDate.TimeWithinDay, JsDate.MakeDate, JsDate.msPerDay. intros H.
  split.
  - rewrite Z.div_add_l by lia. rewrite Z.div_small by lia. lia.
  - rewrite Z.add_comm, Z.mod_add by lia. apply Z.mod_small. lia.
Qed.

(** The date a day number stands for, when the day of the month exists. *)
Lemma MakeDay_fields (y m d time : Z) :
  0 <= m <= 11 ->
  1 <= d <= JsDate.DaysInMonth (JsDate.InLeapYear y) m ->
  0 <= time < JsDate.msPerDay ->
  let t := JsDate.MakeDate
             (JsDate.DayFromYear y + JsDate.monthStart (JsDate.InLeapYear y) m + d - 1) time in
  JsDate.YearFromTime t = y /\
  JsDate.MonthFromTime t = m /\
  JsDate.DateFromTime t = d /\
  JsDate.TimeWithinDay t = time.
Proof.
  intros Hm Hd Ht. cbn zeta.
  destruct (Day_MakeDate
              (JsDate.DayFromYear y + JsDate.monthStart (JsDate.InLeapYear y) m + d - 1)
              time Ht) as [HD HT].
  set (t := JsDate.MakeDate _ time) in *.
  unfold JsDate.DaysInMonth in Hd.
  destruct (monthStart_in_year (JsDate.InLeapYear y) m Hm) as [Hs0 Hs1].
  pose proof (InLeapYear_days y) as Hy. unfold JsDate.DaysInYear in Hy.
  assert (HY : JsDate.YearFromTime t = y).
  { unfold JsDate.YearFromTime. rewrite HD. apply YearFromDay_unique. lia. }
  assert (HW : JsDate.DayWithinYear t = JsDate.monthStart (JsDate.InLeapYear y) m + d - 1).
  { unfold JsDate.DayWithinYear. rewrite HY, HD. lia. }
  assert (HM : JsDate.MonthFromTime t = m).
  { unfold JsDate.MonthFromTime. rewrite HY, HW. apply monthOfYearDay_unique; [assumption | lia]. }
  repeat split; try assumption.
  unfold JsDate.DateFromTime. rewrite HM, HY, HW. lia.
Qed.

(** One calendar month ahead: when the day of the month exists in the next
    month, [setMonth] lands on it, at the same time of day. *)
Lemma setMonth_same_day (lt : Z) :
  let y := JsDate.YearFromTime lt in
  let m := JsDate.MonthFromTime lt in
  let d := JsDate.DateFromTime lt in
  let y' := y + (m + 1) / 12 in
  let m' := (m + 1) mod 12 in
  d <= JsDate.DaysInMonth (JsDate.InLeapYear y') m' ->
  let lt' := JsDate.setMonth_local lt (m + 1) in
  JsDate.YearFromTime lt' = y' /\
  JsDate.MonthFromTime lt' = m' /\
  JsDate.DateFromTime lt' = d /\
  JsDate.TimeWithinDay lt' = JsDate.TimeWithinDay lt.
Proof.
  cbn zeta. intros Hd.
  unfold JsDate.setMonth_local, JsDate.MakeDay.
  apply MakeDay_fields.
  - pose proof (Z.mod_pos_bound (JsDate.MonthFromTime lt + 1) 12 ltac:(lia)). lia.
  - pose proof (DateFromTime_positive lt). lia.
  - unfold JsDate.TimeWithinDay, JsDate.msPerDay. apply Z.mod_pos_bound. lia.
Qed.

(** C5, at the end of a long month: at noon (UTC) on 31 January 2026
    [handlePayNow] sends, for the Pro plan, the one insert and the one
    update, and the expiry in the update is 3 March 2026.
    [setMonth(getMonth() + 1)] asks for the 31st of February, which runs
    over into March; one calendar month after January is February. *)
Theorem handlePayNow_on_january_31 :
  let w := Sample.checking_out Sample.jan31 "pro" [] in
  let w' := world_after Checkout.handlePayNow w in
  let expires := JsDate.setMonth (zone w) (clock w) (JsDate.getMonth (zone w) (clock w) + 1) in
  JsDate.toISOString (clock w) = "2026-01-31T12:00:00.000Z" /\
  sent (new_events w w')
  = [InsertTransaction
       {| Transaction.user_id := "u-worker";
          Transaction.type := "subscription";
          Transaction.amount := Js.of_Z (-25);
          Transaction.status := "pending";
          Transaction.description := "Pro Membership - USDT Payment Pending";
          Transaction.reference_id := "usdt_1769860800000_u-worker" |};
     UpdateMembership "u-worker"
       {| mu_membership_tier := Some tier_pro;
          mu_membership_expires_at := "2026-03-03T12:00:00.000Z";
          mu_daily_tasks_used := 0;
          mu_membership_status := "pending_payment" |};
     SelectProfile "u-worker"; SelectAdminRole "u-worker"] /\
  JsDate.getMonth (zone w) (clock w) = 0 /\
  JsDate.getMonth (zone w) expires = 2 /\
  expires - clock w = 31 * JsDate.msPerDay.
Proof.
  cbn zeta. repeat split; vm_compute; reflexivity.
Qed.

(** C5 as stated does not hold of every instant: for the 31st of January
    there is no expiry on the same day of the next month that would print
    as what [handlePayNow] sends. *)
Lemma january_31_expires_in_march : ~ expires_a_month_ahead.
Proof.
  intros H.
  destruct (H (Sample.checking_out Sample.jan31 "pro" []) Sample.customer
              (Checkout.mkPlan "Pro" 25 tier_pro) eq_refl eq_refl)
    as (t' & row & rest & Hsent & Hy & Hm & Hd & _).
  assert (E : sent (new_events (Sample.checking_out Sample.jan31 "pro" [])
                      (world_after Checkout.handlePayNow
                                   (Sample.checking_out Sample.jan31 "pro" [])))
              = [InsertTransaction
                   (pending_transaction Sample.customer Scenario.pro Sample.jan31);
                 UpdateMembership "u-worker"
                   (mkMembershipUpdate (Some tier_pro) "2026-03-03T12:00:00.000Z" 0
                                       "pending_payment");
                 SelectProfile "u-worker"; SelectAdminRole "u-worker"])
    by (vm_compute; reflexivity).
  rewrite E in Hsent. injection Hsent as _ Hiso _.
  change (clock (Sample.checking_out Sample.jan31 "pro" [])
          + Z.of_N (delay (reply_at 0 (Sample.checking_out Sample.jan31 "pro" []))))
    with (Sample.jan31 + 0) in Hy, Hm, Hd.
  unfold JsDate.LocalTime in Hy, Hm, Hd.
  change (JsDate.LocalTZA_utc (zone (Sample.checking_out Sample.jan31 "pro" [])) t') with 0
    in Hy, Hm, Hd.
  change (JsDate.LocalTZA_utc (zone (Sample.checking_out Sample.jan31 "pro" []))
                              (Sample.jan31 + 0)) with 0 in Hy, Hm, Hd.
  rewrite Z.add_0_r in Hy, Hm, Hd.
  replace (JsDate.YearFromTime (Sample.jan31 + 0 + 0)
           + (JsDate.MonthFromTime (Sample.jan31 + 0 + 0) + 1) / 12)
    with 2026 in Hy by (vm_compute; reflexivity).
  replace ((JsDate.MonthFromTime (Sample.jan31 + 0 + 0) + 1) mod 12)
    with 1 in Hm by (vm_compute; reflexivity).
  replace (JsDate.DateFromTime (Sample.jan31 + 0 + 0))
    with 31 in Hd by (vm_compute; reflexivity).
  unfold JsDate.toISOString in Hiso. rewrite Hy, Hm, Hd in Hiso.
  change (JsDate.year_string 2026) with "2026" in Hiso.
  change (JsDate.pad 2 (1 + 1)) with "02" in Hiso.
  cbn [String.append] in Hiso. discriminate Hiso.
Qed.

(** What [handlePayNow] records: for a signed-in user and one of the three
    plans, it sends exactly one insert into [transactions], with the
    negated price as amount, status "pending" and the reference
    [usdt_<Date.now()>_<user id>], and exactly one update of the user's
    profile, with the tier of the plan, no daily tasks used, status
    "pending_payment" and an expiry; everything else it sends is a select.
    The backend accepting both, one row is added and the profile updated.
    The expiry is the instant of the update moved on by [setMonth(getMonth()
    + 1)]: in local time, the length of the current month later, which is
    the same day and time of the next month whenever that month has such a
    day. *)
Theorem handlePayNow_records_intent (w : World) (u : User) (p : Checkout.PlanDetails) :
  user (facade w) = Some u ->
  Checkout.currentPlan w = Some (Checkout.Declared p) ->
  let w' := world_after Checkout.handlePayNow w in
  let now := clock w in
  let later := clock w + Z.of_N (delay (reply_at 0 w)) in
  let expires := JsDate.setMonth (zone w) later (JsDate.getMonth (zone w) later + 1) in
  let row :=
    {| Transaction.user_id := uid u;
       Transaction.type := "subscription";
       Transaction.amount := Js.neg (Some (Js.of_Z (Checkout.price p)));
       Transaction.status := "pending";
       Transaction.description := Checkout.name p +:+ " Membership - USDT Payment Pending";
       Transaction.reference_id := "usdt_" +:+ Js.num_to_string now +:+ "_" +:+ uid u |} in
  let update :=
    {| mu_membership_tier := Some (Checkout.tier p);
       mu_membership_expires_at := JsDate.toISOString expires;
       mu_daily_tasks_used := 0;
       mu_membership_status := "pending_payment" |} in
  let local := JsDate.LocalTime (zone w) later in
  let local' := JsDate.setMonth_local local (JsDate.MonthFromTime local + 1) in
  (exists rest,
      sent (new_events w w')
      = InsertTransaction row :: UpdateMembership (uid u) update :: rest /\
      forallb is_select rest = true) /\
  (accepts 2 w ->
   transactions (db w') = (transactions (db w) ++ [row])%list /\
   profiles (db w') = alter (apply_membership update) (uid u) (profiles (db w))) /\
  expires = JsDate.UTC (zone w) local' /\
  local' = local
           + JsDate.DaysInMonth (JsDate.InLeapYear (JsDate.YearFromTime local))
                                (JsDate.MonthFromTime local) * JsDate.msPerDay /\
  (JsDate.DateFromTime local
   <= JsDate.DaysInMonth
        (JsDate.InLeapYear (JsDate.YearFromTime local + (JsDate.MonthFromTime local + 1) / 12))
        ((JsDate.MonthFromTime local + 1) mod 12) ->
   JsDate.YearFromTime local'
   = JsDate.YearFromTime local + (JsDate.MonthFromTime local + 1) / 12 /\
   JsDate.MonthFromTime local' = (JsDate.MonthFromTime local + 1) mod 12 /\
   JsDate.DateFromTime local' = JsDate.DateFromTime local /\
   JsDate.TimeWithinDay local' = JsDate.TimeWithinDay local).
Proof.
  intros Hu Hp.
  destruct (handlePayNow_run w u (Checkout.Declared p) Hu Hp)
    as (_ & Hsent & _ & _ & _ & _ & _ & _ & Hdb).
  unfold pending_transaction, pending_membership in Hsent, Hdb.
  cbn [Checkout.name_of Checkout.price_of Checkout.tier_of Js.template default from_option id]
    in Hsent, Hdb.
  split; [exact Hsent|]. split; [exact Hdb|]. split; [reflexivity|].
  split; [apply setMonth_adds_current_month | apply setMonth_same_day].
Qed.

(** On the 15th of January the Pro plan expires on the 15th of February. *)
Lemma handlePayNow_records_intent_example :
  exists rest,
    sent (new_events (Sample.checking_out Sample.jan15 "pro" [])
                     (world_after Checkout.handlePayNow
                                  (Sample.checking_out Sample.jan15 "pro" [])))
    = InsertTransaction
        {| Transaction.user_id := "u-worker";
           Transaction.type := "subscription";
           Transaction.amount := Js.of_Z (-25);
           Transaction.status := "pending";
           Transaction.description := "Pro Membership - USDT Payment Pending";
           Transaction.reference_id := "usdt_1768478400000_u-worker" |}
      :: UpdateMembership "u-worker"
           {| mu_membership_tier := Some tier_pro;
              mu_membership_expires_at := "2026-02-15T12:00:00.000Z";
              mu_daily_tasks_used := 0;
              mu_membership_status := "pending_payment" |}
      :: rest /\
    forallb is_select rest = true.
Proof.
  destruct (handlePayNow_records_intent
              (Sample.checking_out Sample.jan15 "pro" []) Sample.customer
              (Checkout.mkPlan "Pro" 25 tier_pro) eq_refl eq_refl) as [(rest & H1 & H2) _].
  exists rest. split; [|exact H2].
  rewrite H1. vm_compute. reflexivity.
Defined.

(** A request that a list of selects does not hold is not in it. *)
Lemma selects_filtered (P : Request -> bool) (rest : list Request) :
  (forall r, is_select r = true -> P r = false) ->
  forallb is_select rest = true -> List.filter P rest = [].
Proof.
  intros HP. induction rest as [|r rest IH]; cbn; [reflexivity|].
  intros H. apply andb_prop in H as [Hr Hrest]. rewrite (HP r Hr). exact (IH Hrest).
Qed.

(** C6: a checkout confirmation, for any plan value that lets it through,
    sends exactly one transaction insert and then exactly one update of a
    profile, whatever the backend answers to either; everything else it
    sends is a select.  A failure of either is logged as a warning and goes
    no further: the handler returns normally, the payment instructions are
    shown (the toast, and the page switched to the instructions) and no
    error is set. *)
Theorem handlePayNow_best_effort (w : World) (u : User) (p : Checkout.PlanValue) :
  user (facade w) = Some u ->
  Checkout.currentPlan w = Some p ->
  let w' := world_after Checkout.handlePayNow w in
  let events := new_events w w' in
  let insert := InsertTransaction (pending_transaction u p (clock w)) in
  let update :=
    UpdateMembership (uid u)
      (pending_membership (zone w) p (clock w + Z.of_N (delay (reply_at 0 w)))) in
  result_of Checkout.handlePayNow w = Ret tt /\
  List.filter (fun r => negb (is_select r)) (sent events) = [insert; update] /\
  List.filter is_insert (sent events) = [insert] /\
  List.filter writes_profiles (sent events) = [update] /\
  (forall e, fault (reply_at 0 w) = Fails e ->
             In (Console "warn" "Transaction record not created:" (Some e)) events) /\
  (forall e, fault (reply_at 0 w) = Rejects e ->
             In (Console "warn" "Database operation failed:" (Some e)) events) /\
  (forall e, fault (reply_at 1 w) = Fails e \/ fault (reply_at 1 w) = Rejects e ->
             In (Console "warn" "Profile update failed:" (Some e)) events) /\
  In payment_instructions events /\
  paymentInitiated (checkoutPage w') = true /\
  checkout_error (checkoutPage w') = None /\
  isProcessing (checkoutPage w') = false.
Proof.
  intros Hu Hp. cbn zeta.
  destruct (handlePayNow_run w u p Hu Hp)
    as (Hret & (rest & Hsent & Hrest) & Hf0 & Hr0 & Hf1 & Htoast & _ & Hpage & _).
  rewrite Hsent, Hpage. cbn [List.filter is_insert writes_profiles is_select negb].
  rewrite !selects_filtered by (assumption || (intros [] Hr; (reflexivity || discriminate Hr))).
  repeat split; auto.
Qed.

(** Both calls fail, one with an error answer and one with a rejected
    promise: the instructions are shown all the same. *)
Lemma handlePayNow_best_effort_example :
  let w := Sample.checking_out Sample.jan15 "vip"
             [mkReply 300 (Fails (Js.mkError "row level security"));
              mkReply 200 (Rejects (Js.mkError "Failed to fetch"))] in
  let w' := world_after Checkout.handlePayNow w in
  let events := new_events w w' in
  let vip := Checkout.Declared (Checkout.mkPlan "VIP" 49 tier_vip) in
  let insert := InsertTransaction (pending_transaction Sample.customer vip (clock w)) in
  let update :=
    UpdateMembership "u-worker" (pending_membership (zone w) vip (clock w + 300)) in
  result_of Checkout.handlePayNow w = Ret tt /\
  List.filter (fun r => negb (is_select r)) (sent events) = [insert; update] /\
  List.filter is_insert (sent events) = [insert] /\
  List.filter writes_profiles (sent events) = [update] /\
  In payment_instructions events /\
  paymentInitiated (checkoutPage w') = true /\
  checkout_error (checkoutPage w') = None.
Proof.
  destruct (handlePayNow_best_effort
              (Sample.checking_out Sample.jan15 "vip"
                 [mkReply 300 (Fails (Js.mkError "row level security"));
                  mkReply 200 (Rejects (Js.mkError "Failed to fetch"))])
              Sample.customer (Checkout.Declared (Checkout.mkPlan "VIP" 49 tier_vip))
              eq_refl eq_refl)
    as (H1 & H2 & H3 & H4 & _ & _ & _ & H5 & H6 & H7 & _).
  repeat split; assumption.
Defined.

(** A plan parameter that names an inherited member passes the check of
    line 27 as well: for [?plan=toString] the insert carries [NaN] as
    amount and the name of the function in its description, and the update
    carries no tier. *)
Lemma handlePayNow_with_inherited_plan :
  let w := Sample.checking_out Sample.jan15 "toString" [] in
  Checkout.currentPlan w = Some (Checkout.Inherited "toString") /\
  sent (new_events w (world_after Checkout.handlePayNow w))
  = [InsertTransaction
       {| Transaction.user_id := "u-worker";
          Transaction.type := "subscription";
          Transaction.amount := Js.nan;
          Transaction.status := "pending";
          Transaction.description := "toString Membership - USDT Payment Pending";
          Transaction.reference_id := "usdt_1768478400000_u-worker" |};
     UpdateMembership "u-worker"
       {| mu_membership_tier := None;
          mu_membership_expires_at := "2026-02-15T12:00:00.000Z";
          mu_daily_tasks_used := 0;
          mu_membership_status := "pending_payment" |};
     SelectProfile "u-worker"; SelectAdminRole "u-worker"].
Proof. cbn zeta. split; vm_compute; reflexivity. Qed.

(** * Further properties *)

(** ** The console: reviews and lists *)

Lemma accepts_fault (n : nat) (w : World) :
  accepts n w <-> forall i, (i < n)%nat -> fault (reply_at i w) = Fine.
Proof.
  split; [intros H i Hi; exact (accepts_reply n i w H Hi)|].
  unfold accepts, reply_at. generalize (plan w). intros l. revert l.
  induction n as [|n IH]; intros l H; [reflexivity|].
  destruct l as [|r l]; [reflexivity|]. cbn.
  pose proof (H O ltac:(lia)) as H0. cbn in H0. rewrite H0. cbn.
  apply IH. intros i Hi. apply (H (S i)). lia.
Qed.

Lemma nth_drop {A} (k i : nat) (l : list A) (d : A) : nth i (drop k l) d = nth (k + i) l d.
Proof.
  revert l. induction k as [|k IH]; intros l; [reflexivity|].
  destruct l as [|x l]; cbn; [destruct i; reflexivity | apply IH].
Qed.

Lemma accepts_later (n k : nat) (w w' : World) :
  accepts (k + n) w -> plan w' = drop k (plan w) -> accepts n w'.
Proof.
  rewrite !accepts_fault. intros H Hp i Hi. specialize (H (k + i)%nat ltac:(lia)).
  unfold reply_at in *. rewrite Hp, nth_drop. exact H.
Qed.

Lemma listing_frame_refl w : listing_frame w w.
Proof. unfold listing_frame. auto 10. Qed.

Lemma listing_frame_trans a b c : listing_frame a b -> listing_frame b c -> listing_frame a c.
Proof.
  unfold listing_frame. intros (?&?&?&?&?&?&?&?&?) (?&?&?&?&?&?&?&?&?).
  repeat split; congruence.
Qed.

Lemma fetchData_frame : keeps listing_frame Admin.fetchData.
Proof.
  unfold Admin.fetchData.
  keeps_tac listing_frame_refl listing_frame_trans
    ltac:(first
      [ apply keeps_modify; intros ?; repeat split; reflexivity
      | apply keeps_send; intros ? []; unfold listing_frame, after_send; cbn;
        repeat split; reflexivity
      | apply keeps_send_all; intros w d; unfold listing_frame, after_send_all; cbn;
        destruct (fault (reply_at 0 w)), (fault (reply_at 1 w)); repeat split; reflexivity ]).
Qed.

Lemma fetchData_reads : keeps (emits_only reads) Admin.fetchData.
Proof. unfold Admin.fetchData. emits_only_tac reads. Qed.

Lemma fetchData_effects (w : World) :
  exists w' es,
    Admin.fetchData w = (Ret tt, w') /\
    listing_frame w w' /\
    log w' = (es ++ log w)%list /\
    forallb reads es = true.
Proof.
  destruct (returns_run _ _ (fetchData_never_throws w)) as [[] Hrun].
  destruct (fetchData_reads w) as (es & Hlog & Hes).
  exists (world_after Admin.fetchData w), es.
  repeat split; try assumption; apply fetchData_frame.
Qed.

Ltac list_step :=
  match goal with
  | |- context [Admin.fetchData ?x] =>
      let w' := fresh "w" in
      let es := fresh "es" in
      let Hf := fresh "Hframe" in
      let Hl := fresh "Hlog" in
      let Hr := fresh "Hreads" in
      destruct (fetchData_effects x) as (w' & es & -> & Hf & Hl & Hr)
  end.

(** X1: an approval whose submission update is accepted reports success even
    when the worker gets no credit: if the worker has no profile row, or if
    the update of the profile's earnings comes back with an error, the
    submission is marked approved, the "Submission approved" toast is
    shown and the dialog is closed, and every profile is as it was. *)
Theorem approval_without_credit (w : World) (sel : Submission.t) :
  selectedSubmission (adminPage w) = Some sel ->
  accepts 2 w ->
  profiles (db w) !! Submission.user_id sel = None \/
  (exists e, fault (reply_at 2 w) = Fails e) ->
  let w' := world_after (Admin.handleReviewSubmission Approve) w in
  result_of (Admin.handleReviewSubmission Approve) w = Ret tt /\
  profiles (db w') = profiles (db w) /\
  job_submissions (db w')
  = alter (apply_review (review_update Approve w)) (Submission.id sel)
          (job_submissions (db w)) /\
  In (Toast "Success" "Submission approved" None) (new_events w w') /\
  reviewDialogOpen (adminPage w') = false /\
  selectedSubmission (adminPage w') = None.
Proof.
  intros Hsel Hacc Hno. cbn zeta.
  pose proof (accepts_reply 2 0 w Hacc ltac:(lia)) as H0.
  pose proof (accepts_reply 2 1 w Hacc ltac:(lia)) as H1. clear Hacc.
  unfold Admin.handleReviewSubmission. exec. rewrite Hsel. unfold Admin.review. exec.
  rewrite run_send. norm. rewrite H0. exec. norm.
  rewrite run_send. norm. rewrite H1. exec. norm.
  unfold Admin.query_earnings, rows_at. norm.
  destruct (profiles (db w) !! Submission.user_id sel) as [prof|] eqn:Hprof.
  - destruct Hno as [Hno|[e He]]; [discriminate|].
    cbn [fmap list_fmap single]. exec. norm.
    rewrite run_send. norm. unfold reply_at in He. rewrite He. exec. norm.
    list_step. exec. norm.
    destruct Hframe as (Hdb & _). norm. rewrite Hdb. norm.
    read_events. unfold review_update.
    repeat split; try reflexivity. find_event.
  - cbn [fmap list_fmap single]. exec. norm.
    list_step. exec. norm.
    destruct Hframe as (Hdb & _). norm. rewrite Hdb. norm.
    read_events. unfold review_update.
    repeat split; try reflexivity. find_event.
Qed.

Lemma approval_without_credit_example :
  let w := Sample.reviewing "s-1" [mkReply 120 Fine; mkReply 80 Fine;
                                   mkReply 50 (Fails (Js.mkError "permission denied"))] in
  let w' := world_after (Admin.handleReviewSubmission Approve) w in
  result_of (Admin.handleReviewSubmission Approve) w = Ret tt /\
  profiles (db w') = profiles (db w) /\
  job_submissions (db w')
  = alter (apply_review (review_update Approve w)) "s-1" (job_submissions (db w)) /\
  In (Toast "Success" "Submission approved" None) (new_events w w') /\
  reviewDialogOpen (adminPage w') = false /\
  selectedSubmission (adminPage w') = None.
Proof.
  apply (approval_without_credit
           (Sample.reviewing "s-1" [mkReply 120 Fine; mkReply 80 Fine;
                                    mkReply 50 (Fails (Js.mkError "permission denied"))])
           Scenario.s1);
    [reflexivity | reflexivity | right; eexists; reflexivity].
Defined.

Lemma fetchData_accepted (w : World) :
  accepts 3 w ->
  let w' := world_after Admin.fetchData w in
  plan w' = drop 3 (plan w) /\
  admin_jobs (adminPage w') = listed_jobs (db w) /\
  categories (adminPage w') = listed_categories (db w) /\
  allSubmissions (adminPage w') = listed_submissions (db w) /\
  admin_isLoading (adminPage w') = false /\
  new_events w w'
  = [Sent SelectJobs; Sent SelectCategories;
     Sent (match dataSource (adminPage w) with
           | from_view => SelectSubmissionsView
           | from_table => SelectSubmissionsTable
           end)].
Proof.
  intros Hacc. cbn zeta. rewrite accepts_fault in Hacc.
  pose proof (Hacc 0%nat ltac:(lia)) as H0. pose proof (Hacc 1%nat ltac:(lia)) as H1.
  pose proof (Hacc 2%nat ltac:(lia)) as H2. clear Hacc.
  unfold listed_jobs, listed_categories, listed_submissions.
  unfold Admin.fetchData, Admin.query_jobs, Admin.query_categories, Admin.query_submissions.
  exec. rewrite run_send_all. cbn zeta. norm.
  unfold all_settles. norm. rewrite H0, H1. cbn [fst snd answer_to]. exec. norm.
  destruct (dataSource (adminPage w)); rewrite run_send; norm; rewrite H2;
    exec; norm; read_events; cbn [default from_option id];
    repeat split; try reflexivity.
  all: destruct (plan w) as [|? [|? [|? ?]]]; reflexivity.
Qed.

Lemma fetchData_accepted_run (w : World) :
  accepts 3 w ->
  exists w',
    Admin.fetchData w = (Ret tt, w') /\
    listing_frame w w' /\
    plan w' = drop 3 (plan w).
Proof.
  intros Hacc.
  destruct (fetchData_effects w) as (w' & es & Hrun & Hframe & _).
  exists w'. split; [assumption|]. split; [assumption|].
  pose proof (fetchData_accepted w Hacc) as (Hplan & _).
  unfold world_after in Hplan. rewrite Hrun in Hplan. exact Hplan.
Qed.

(** An approval that the backend accepts throughout, refresh included:
    six calls are answered. *)
Lemma approve_accepted (w : World) (sel : Submission.t) (prof : Profile.t) :
  selectedSubmission (adminPage w) = Some sel ->
  profiles (db w) !! Submission.user_id sel = Some prof ->
  accepts 6 w ->
  let w' := world_after (Admin.handleReviewSubmission Approve) w in
  plan w' = drop 6 (plan w) /\
  facade w' = facade w.
Proof.
  intros Hsel Hprof Hacc. cbn zeta.
  rewrite accepts_fault in Hacc.
  pose proof (Hacc 0%nat ltac:(lia)) as H0. pose proof (Hacc 1%nat ltac:(lia)) as H1.
  pose proof (Hacc 2%nat ltac:(lia)) as H2.
  unfold Admin.handleReviewSubmission. exec. rewrite Hsel. unfold Admin.review. exec.
  rewrite run_send. norm. rewrite H0. exec. norm.
  rewrite run_send. norm. rewrite H1. exec. norm.
  unfold Admin.query_earnings, rows_at. norm. rewrite Hprof.
  cbn [fmap list_fmap single]. exec. norm.
  rewrite run_send. norm. rewrite H2. exec. norm.
  match goal with
  | |- context [Admin.fetchData ?x] =>
      assert (Hx : accepts 3 x)
        by (apply accepts_fault; intros i Hi; norm; apply (Hacc (S (S (S i)))); lia);
      destruct (fetchData_accepted_run x Hx) as (w' & -> & Hframe & Hplan)
  end.
  exec. norm. destruct Hframe as (_ & Hfacade & _). norm.
  rewrite Hplan, Hfacade. split; [|reflexivity].
  destruct (plan w) as [|? [|? [|? ?]]]; reflexivity.
Qed.

Lemma openReviewDialog_run (sub : Submission.t) (w : World) :
  let w' := world_after (Admin.openReviewDialog sub) w in
  db w' = db w /\ plan w' = plan w /\ facade w' = facade w /\
  selectedSubmission (adminPage w') = Some sub /\
  feedback (adminPage w') = default "" (Submission.admin_feedback sub) /\
  reviewDialogOpen (adminPage w') = true.
Proof.
  cbn zeta. unfold Admin.openReviewDialog. exec. norm. repeat split.
  unfold Js.or_str. destruct (Js.truthy_str _) eqn:E; [reflexivity|].
  destruct (default "" (Submission.admin_feedback sub)); [reflexivity | discriminate].
Qed.

(** X2: approving a submission, opening the review dialog on it again and
    approving once more credits the worker twice: the second approval adds
    the payment amount to what the first has left, so the profile ends with
    the payment amount added twice to approved and total earnings and with
    two more completed tasks (each sum being [(x || 0) + p] in binary64).
    Nothing in the handler looks at the status the submission already
    has. *)
Theorem approving_twice_credits_twice
    (w : World) (sel sub : Submission.t) (prof : Profile.t) :
  selectedSubmission (adminPage w) = Some sel ->
  profiles (db w) !! Submission.user_id sel = Some prof ->
  Submission.user_id sub = Submission.user_id sel ->
  Submission.payment_amount sub = Submission.payment_amount sel ->
  accepts 9 w ->
  let approve := Admin.handleReviewSubmission Approve in
  let w1 := world_after approve w in
  let w2 := world_after (Admin.openReviewDialog sub) w1 in
  let w3 := world_after approve w2 in
  let p := Submission.payment_amount sel in
  let twice x p := credited (Some (credited x p)) p in
  exists prof1 prof3,
    profiles (db w1) !! Submission.user_id sel = Some prof1 /\
    Profile.approved_earnings prof1 = Some (credited (Profile.approved_earnings prof) p) /\
    profiles (db w3) !! Submission.user_id sel = Some prof3 /\
    Profile.approved_earnings prof3 = Some (twice (Profile.approved_earnings prof) p) /\
    Profile.total_earnings prof3 = Some (twice (Profile.total_earnings prof) p) /\
    Profile.tasks_completed prof3
    = Some (twice (Profile.tasks_completed prof) (Js.of_Z 1)).
Proof.
  intros Hsel Hprof Hwho Hpay Hacc. cbn zeta.
  assert (Hacc6 : accepts 6 w).
  { apply accepts_fault. intros i Hi. apply (accepts_reply 9 i w Hacc). lia. }
  assert (Hacc3 : accepts 3 w).
  { apply accepts_fault. intros i Hi. apply (accepts_reply 9 i w Hacc). lia. }
  pose proof (approve_credits w sel prof Hsel Hprof Hacc3) as H1.
  destruct (approve_accepted w sel prof Hsel Hprof Hacc6) as (Hplan1 & _).
  set (w1 := world_after (Admin.handleReviewSubmission Approve) w) in *.
  destruct (openReviewDialog_run sub w1) as (Hdb2 & Hplan2 & _ & Hsel2 & _).
  set (w2 := world_after (Admin.openReviewDialog sub) w1) in *.
  assert (Hacc2 : accepts 3 w2).
  { apply (accepts_later 3 6 w w2 Hacc). rewrite Hplan2. exact Hplan1. }
  pose proof H1 as H1'.
  rewrite <- Hdb2, <- Hwho in H1.
  pose proof (approve_credits w2 sub _ Hsel2 H1 Hacc2) as H3.
  rewrite Hwho in H3.
  eexists. eexists. split; [exact H1'|]. split; [reflexivity|]. split; [exact H3|].
  cbn [apply_earnings Profile.approved_earnings Profile.total_earnings Profile.tasks_completed
       eu_approved_earnings eu_total_earnings eu_tasks_completed].
  unfold credited. rewrite Hpay. repeat split; reflexivity.
Qed.

(** On the sample tables: 10 paid twice on 50 / 100 / 3 gives 70 / 120 /
    5. *)
Lemma approving_twice_credits_twice_example :
  let approve := Admin.handleReviewSubmission Approve in
  let w1 := world_after approve (Sample.reviewing "s-1" []) in
  let w2 := world_after (Admin.openReviewDialog Scenario.s1) w1 in
  let w3 := world_after approve w2 in
  exists prof1 prof3,
    profiles (db w1) !! "u-worker" = Some prof1 /\
    Profile.approved_earnings prof1 = Some (Js.of_Z 60) /\
    profiles (db w3) !! "u-worker" = Some prof3 /\
    Profile.approved_earnings prof3 = Some (Js.of_Z 70) /\
    Profile.total_earnings prof3 = Some (Js.of_Z 120) /\
    Profile.tasks_completed prof3 = Some (Js.of_Z 5).
Proof.
  apply (approving_twice_credits_twice
           (Sample.reviewing "s-1" []) Scenario.s1 Scenario.s1 Sample.worker);
    reflexivity.
Defined.

Lemma reject_keeps_profiles (w : World) :
  profiles (db (world_after (Admin.handleReviewSubmission Reject) w)) = profiles (db w).
Proof.
  unfold Admin.handleReviewSubmission. exec.
  destruct (selectedSubmission (adminPage w)) as [sel|]; [|reflexivity].
  apply (review_only_reviews sel (feedback (adminPage w)) (user (facade w)) w).
Qed.

Lemma review_keeps_rows (st : Decision) (w : World) (k : string) (r : SubmissionRow.t) :
  job_submissions (db w) !! k = Some r ->
  exists r', job_submissions (db (world_after (Admin.handleReviewSubmission st) w)) !! k
             = Some r'.
Proof.
  intros Hr. unfold Admin.handleReviewSubmission. exec.
  destruct (selectedSubmission (adminPage w)) as [sel|]; [|exists r; exact Hr].
  destruct (review_only_moves st sel (feedback (adminPage w)) (user (facade w)) w k r Hr)
    as (r' & Hr' & _).
  exists r'. exact Hr'.
Qed.

(** X3: rejecting a submission that was approved before leaves the credit of
    the approval in place: the submission ends rejected, and the worker's
    profile still holds what the approval wrote, the payment amount added
    once to approved and total earnings and one more completed task (each
    sum being [(x || 0) + p] in binary64). *)
Theorem rejecting_after_approval_keeps_credit
    (w : World) (sel sub : Submission.t) (prof : Profile.t) (r : SubmissionRow.t) :
  selectedSubmission (adminPage w) = Some sel ->
  job_submissions (db w) !! Submission.id sel = Some r ->
  profiles (db w) !! Submission.user_id sel = Some prof ->
  Submission.id sub = Submission.id sel ->
  accepts 7 w ->
  let w1 := world_after (Admin.handleReviewSubmission Approve) w in
  let w2 := world_after (Admin.openReviewDialog sub) w1 in
  let w3 := world_after (Admin.handleReviewSubmission Reject) w2 in
  let p := Submission.payment_amount sel in
  SubmissionRow.status <$> job_submissions (db w3) !! Submission.id sel = Some rejected /\
  profiles (db w3) = profiles (db w1) /\
  exists prof',
    profiles (db w3) !! Submission.user_id sel = Some prof' /\
    Profile.approved_earnings prof' = Some (credited (Profile.approved_earnings prof) p) /\
    Profile.total_earnings prof' = Some (credited (Profile.total_earnings prof) p) /\
    Profile.tasks_completed prof'
    = Some (credited (Profile.tasks_completed prof) (Js.of_Z 1)).
Proof.
  intros Hsel Hrow Hprof Hid Hacc. cbn zeta.
  assert (Hacc6 : accepts 6 w).
  { apply accepts_fault. intros i Hi. apply (accepts_reply 7 i w Hacc). lia. }
  assert (Hacc3 : accepts 3 w).
  { apply accepts_fault. intros i Hi. apply (accepts_reply 7 i w Hacc). lia. }
  pose proof (approve_credits w sel prof Hsel Hprof Hacc3) as H1.
  destruct (approve_accepted w sel prof Hsel Hprof Hacc6) as (Hplan1 & _).
  destruct (review_keeps_rows Approve w _ r Hrow) as (r1 & Hr1).
  set (w1 := world_after (Admin.handleReviewSubmission Approve) w) in *.
  destruct (openReviewDialog_run sub w1) as (Hdb2 & Hplan2 & _ & Hsel2 & _).
  set (w2 := world_after (Admin.openReviewDialog sub) w1) in *.
  assert (Hacc2 : accepts 1 w2).
  { apply (accepts_later 1 6 w w2 Hacc). rewrite Hplan2. exact Hplan1. }
  rewrite <- Hdb2 in H1, Hr1. rewrite <- Hid in Hr1.
  split; [|split].
  - rewrite <- Hid. exact (review_sets Reject w2 sub r1 Hsel2 Hr1 Hacc2).
  - rewrite reject_keeps_profiles, Hdb2. reflexivity.
  - rewrite reject_keeps_profiles. eexists. split; [exact H1|].
    repeat split; reflexivity.
Qed.

(** On the sample tables: 10 paid on 50 / 100 / 3 and then rejected leaves
    60 / 110 / 4. *)
Lemma rejecting_after_approval_keeps_credit_example :
  let w1 := world_after (Admin.handleReviewSubmission Approve) (Sample.reviewing "s-1" []) in
  let w2 := world_after (Admin.openReviewDialog Scenario.s1) w1 in
  let w3 := world_after (Admin.handleReviewSubmission Reject) w2 in
  SubmissionRow.status <$> job_submissions (db w3) !! "s-1" = Some rejected /\
  profiles (db w3) = profiles (db w1) /\
  exists prof',
    profiles (db w3) !! "u-worker" = Some prof' /\
    Profile.approved_earnings prof' = Some (Js.of_Z 60) /\
    Profile.total_earnings prof' = Some (Js.of_Z 110) /\
    Profile.tasks_completed prof' = Some (Js.of_Z 4).
Proof.
  apply (rejecting_after_approval_keeps_credit
           (Sample.reviewing "s-1" []) Scenario.s1 Scenario.s1 Sample.worker
           (Sample.row "s-1" "u-worker" pending 10));
    reflexivity.
Defined.

(** X4: when none of its three requests rejects, [fetchData] returns without
    a toast or a console message, whatever errors the answers carry: a list
    whose answer carries an error keeps the value it had, a list whose answer
    carries data is replaced, and the loading flag of the page ends
    false. *)
Theorem fetchData_ignores_error_answers (w : World) :
  rejects (reply_at 0 w) = false ->
  rejects (reply_at 1 w) = false ->
  rejects (reply_at 2 w) = false ->
  let w' := world_after Admin.fetchData w in
  result_of Admin.fetchData w = Ret tt /\
  new_events w w'
  = [Sent SelectJobs; Sent SelectCategories;
     Sent (submissions_request (dataSource (adminPage w)))] /\
  admin_jobs (adminPage w')
  = (if fault (reply_at 0 w) is Fine then listed_jobs (db w) else admin_jobs (adminPage w)) /\
  categories (adminPage w')
  = (if fault (reply_at 1 w) is Fine then listed_categories (db w)
     else categories (adminPage w)) /\
  allSubmissions (adminPage w')
  = (if fault (reply_at 2 w) is Fine then listed_submissions (db w)
     else allSubmissions (adminPage w)) /\
  admin_isLoading (adminPage w') = false.
Proof.
  unfold rejects. intros R0 R1 R2. cbn zeta.
  unfold listed_jobs, listed_categories, listed_submissions.
  unfold Admin.fetchData, Admin.query_jobs, Admin.query_categories, Admin.query_submissions.
  exec. rewrite run_send_all. cbn zeta. norm. unfold all_settles. norm.
  destruct (fault (nth 0 (plan w) _)) eqn:F0; try discriminate R0;
    destruct (fault (nth 1 (plan w) _)) eqn:F1; try discriminate R1;
    cbn [fst snd answer_to]; exec; norm;
    destruct (dataSource (adminPage w)); rewrite run_send; norm;
    destruct (fault (nth 2 (plan w) _)) eqn:F2; try discriminate R2;
    exec; norm; read_events; cbn [default from_option id];
    repeat split; reflexivity.
Qed.

Lemma fetchData_ignores_error_answers_example :
  let w := Sample.world Sample.jan31
             [mkReply 10 Fine; mkReply 10 (Fails (Js.mkError "permission denied"));
              mkReply 10 Fine]
             (Sample.signed_in Sample.admin) in
  let w' := world_after Admin.fetchData w in
  result_of Admin.fetchData w = Ret tt /\
  new_events w w' = [Sent SelectJobs; Sent SelectCategories; Sent SelectSubmissionsView] /\
  admin_jobs (adminPage w') = listed_jobs (db w) /\
  categories (adminPage w') = categories (adminPage w) /\
  allSubmissions (adminPage w') = listed_submissions (db w) /\
  admin_isLoading (adminPage w') = false.
Proof.
  apply (fetchData_ignores_error_answers
           (Sample.world Sample.jan31
              [mkReply 10 Fine; mkReply 10 (Fails (Js.mkError "permission denied"));
               mkReply 10 Fine]
              (Sample.signed_in Sample.admin)));
    reflexivity.
Defined.

(** X5: when the request for the jobs or the one for the categories rejects,
    [fetchData] sends no request for the submissions, shows the one toast
    "Failed to load data", leaves the three lists as they were, and still
    returns with the loading flag of the page false. *)
Theorem fetchData_rejected_listing (w : World) :
  rejects (reply_at 0 w) || rejects (reply_at 1 w) = true ->
  let w' := world_after Admin.fetchData w in
  result_of Admin.fetchData w = Ret tt /\
  sent (new_events w w') = [SelectJobs; SelectCategories] /\
  List.filter is_toast (new_events w w')
  = [Toast "Error" "Failed to load data" (Some "destructive")] /\
  admin_jobs (adminPage w') = admin_jobs (adminPage w) /\
  categories (adminPage w') = categories (adminPage w) /\
  allSubmissions (adminPage w') = allSubmissions (adminPage w) /\
  admin_isLoading (adminPage w') = false.
Proof.
  unfold rejects. intros R. cbn zeta.
  unfold Admin.fetchData. exec. rewrite run_send_all. cbn zeta. norm. unfold all_settles. norm.
  destruct (fault (nth 0 (plan w) _)) eqn:F0;
    destruct (fault (nth 1 (plan w) _)) eqn:F1; try discriminate R;
    cbn [fst snd answer_to];
    try match goal with
        | |- context [(?a <? ?b)%N] => destruct (a <? b)%N
        end;
    cbn [fst snd]; exec; norm; read_events; repeat split; reflexivity.
Qed.

Lemma fetchData_rejected_listing_example :
  let w := Sample.world Sample.jan31 [mkReply 10 (Rejects (Js.mkError "Failed to fetch"))]
                        (Sample.signed_in Sample.admin) in
  let w' := world_after Admin.fetchData w in
  result_of Admin.fetchData w = Ret tt /\
  sent (new_events w w') = [SelectJobs; SelectCategories] /\
  List.filter is_toast (new_events w w')
  = [Toast "Error" "Failed to load data" (Some "destructive")] /\
  admin_jobs (adminPage w') = admin_jobs (adminPage w) /\
  categories (adminPage w') = categories (adminPage w) /\
  allSubmissions (adminPage w') = allSubmissions (adminPage w) /\
  admin_isLoading (adminPage w') = false.
Proof.
  apply (fetchData_rejected_listing
           (Sample.world Sample.jan31 [mkReply 10 (Rejects (Js.mkError "Failed to fetch"))]
                         (Sample.signed_in Sample.admin)));
    reflexivity.
Defined.

(** X6: when the jobs and the categories arrive and the request for the
    submissions rejects, [fetchData] has already replaced the jobs and the
    categories: they are the fresh lists, the submissions are the old ones,
    and the toast "Failed to load data" is shown. *)
Theorem fetchData_rejected_submissions (w : World) (e : Js.Error) :
  accepts 2 w ->
  fault (reply_at 2 w) = Rejects e ->
  let w' := world_after Admin.fetchData w in
  result_of Admin.fetchData w = Ret tt /\
  List.filter is_toast (new_events w w')
  = [Toast "Error" "Failed to load data" (Some "destructive")] /\
  admin_jobs (adminPage w') = listed_jobs (db w) /\
  categories (adminPage w') = listed_categories (db w) /\
  allSubmissions (adminPage w') = allSubmissions (adminPage w) /\
  admin_isLoading (adminPage w') = false.
Proof.
  intros Hacc R2. cbn zeta.
  pose proof (accepts_reply 2 0 w Hacc ltac:(lia)) as F0.
  pose proof (accepts_reply 2 1 w Hacc ltac:(lia)) as F1. clear Hacc.
  unfold listed_jobs, listed_categories.
  unfold Admin.fetchData, Admin.query_jobs, Admin.query_categories.
  exec. rewrite run_send_all. cbn zeta. norm. unfold all_settles. norm.
  rewrite F0, F1. cbn [fst snd answer_to]. exec. norm.
  destruct (dataSource (adminPage w)); rewrite run_send; norm;
    unfold reply_at in R2; rewrite R2; exec; norm; read_events;
    cbn [default from_option id]; repeat split; reflexivity.
Qed.

Lemma fetchData_rejected_submissions_example :
  let w := Sample.world Sample.jan31
             [mkReply 10 Fine; mkReply 10 Fine;
              mkReply 10 (Rejects (Js.mkError "Failed to fetch"))]
             (Sample.signed_in Sample.admin) in
  let w' := world_after Admin.fetchData w in
  result_of Admin.fetchData w = Ret tt /\
  List.filter is_toast (new_events w w')
  = [Toast "Error" "Failed to load data" (Some "destructive")] /\
  admin_jobs (adminPage w') = listed_jobs (db w) /\
  categories (adminPage w') = listed_categories (db w) /\
  allSubmissions (adminPage w') = allSubmissions (adminPage w) /\
  admin_isLoading (adminPage w') = false.
Proof.
  apply (fetchData_rejected_submissions
           (Sample.world Sample.jan31
              [mkReply 10 Fine; mkReply 10 Fine;
               mkReply 10 (Rejects (Js.mkError "Failed to fetch"))]
              (Sample.signed_in Sample.admin))
           (Js.mkError "Failed to fetch"));
    reflexivity.
Defined.

Ltac auth_step :=
  first [rewrite run_auth_call | rewrite run_auth_call_sharing]; norm;
  match goal with
  | H : answer _ = _ |- _ => rewrite H
  | |- context [match answer ?r with _ => _ end] => destruct (answer r) as [[?|]|?|?] eqn:?
  end;
  exec; norm.


(** X8: [signUp] sends one sign-up call, with [origin + "/auth/callback"] as
    redirect address, and returns the error of the answer, thrown or
    not, or [null].  It signs nobody in: session, user, profile, admin flag,
    cache and tables are as before, and [isLoading] goes true, then false. *)
Theorem signUp_establishes_no_session (email pw name : Js.ustring) (w : World) :
  let m := AuthProvider.signUp email pw name in
  let w' := world_after m w in
  result_of m w
  = Ret (match answer (auth_reply_at 0 w) with
         | Granted _ => None
         | Refused e | Broken e => Some e
         end) /\
  List.filter is_write (new_events w w')
  = [AuthSent (SignUpWith email pw name (origin w +:+ "/auth/callback"))] /\
  loading_commits (new_events w w') = [true; false] /\
  session (facade w') = session (facade w) /\
  user (facade w') = user (facade w) /\
  profile (facade w') = profile (facade w) /\
  isAdmin (facade w') = isAdmin (facade w) /\
  cachedUserData (facade w') = cachedUserData (facade w) /\
  isLoading (facade w') = false /\
  db w' = db w.
Proof.
  cbn zeta. unfold AuthProvider.signUp. exec. auth_step.
  all: unfold after_auth; norm; read_events; repeat split; reflexivity.
Qed.

(** X9: a fetch that is not served from the cache and is answered in time
    (neither request rejecting) commits the admin flag it finds, [false]
    when the role request carries an error.  The profile and the cache are
    written only when a profile row arrives: without one (no row, or an
    error on the profile request) the old profile and the old cache stay,
    next to the new admin flag. *)
Theorem fetchUserData_commits (u : option User) (k : string) (w : World) :
  AuthProvider.cache_hit (cachedUserData (facade w)) u k = None ->
  rejects (reply_at 0 w) = false ->
  rejects (reply_at 1 w) = false ->
  (N.max (delay (reply_at 0 w)) (delay (reply_at 1 w)) < 5000)%N ->
  let w' := world_after (AuthProvider.fetchUserData u k) w in
  let admin := if fault (reply_at 1 w) is Fine then has_admin_role k (db w) else false in
  isAdmin (facade w') = admin /\
  match (if fault (reply_at 0 w) is Fine then profiles (db w) !! k else None) with
  | Some p =>
      profile (facade w') = Some p /\
      cachedUserData (facade w') = Some (mkCached (Some p) admin)
  | None =>
      profile (facade w') = profile (facade w) /\
      cachedUserData (facade w') = cachedUserData (facade w)
  end.
Proof.
  unfold rejects, has_admin_role. intros Hmiss R0 R1 Hfast. cbn zeta.
  unfold AuthProvider.fetchUserData. exec. rewrite Hmiss. exec.
  rewrite run_send_all. cbn zeta. norm. unfold all_settles in *. norm.
  destruct (fault (nth 0 (plan w) _)) eqn:F0; try discriminate R0;
    destruct (fault (nth 1 (plan w) _)) eqn:F1; try discriminate R1;
    cbn [fst snd answer_to] in *;
    (destruct (N.leb_spec 5000 (N.max (delay (nth 0 (plan w) (mkReply 0 Fine)))
                                     (delay (nth 1 (plan w) (mkReply 0 Fine))))); [lia|]);
    exec; norm.
  all: unfold AuthProvider.query_profile, rows_at; norm.
  all: try (destruct (profiles (db w) !! k) as [p|] eqn:Hp; cbn [single data error]; exec; norm).
  all: repeat split; reflexivity.
Qed.

Lemma fetchUserData_commits_example :
  let w := Sample.world Sample.jan31
             [mkReply 40 Fine; mkReply 60 (Fails (Js.mkError "permission denied"))]
             Sample.signed_out in
  let w' := world_after (AuthProvider.fetchUserData None "u-worker") w in
  isAdmin (facade w') = false /\
  profile (facade w') = Some Sample.worker /\
  cachedUserData (facade w') = Some (mkCached (Some Sample.worker) false).
Proof.
  apply (fetchUserData_commits None "u-worker"
           (Sample.world Sample.jan31
              [mkReply 40 Fine; mkReply 60 (Fails (Js.mkError "permission denied"))]
              Sample.signed_out));
    reflexivity.
Defined.

Lemma sent_cons_loading b l : sent (SetIsLoading b :: l) = sent l.
Proof. reflexivity. Qed.

Lemma sent_cons_auth r l : sent (AuthSent r :: l) = sent l.
Proof. reflexivity. Qed.

#[local] Hint Rewrite sent_cons_loading sent_cons_auth : events.

Ltac fetch_step :=
  match goal with
  | |- context [AuthProvider.fetchUserData ?u ?k ?x] =>
      let w' := fresh "w" in
      let es := fresh "es" in
      let Hl := fresh "Hlog" in
      let Hb := fresh "Hbg" in
      let Hf := fresh "Hframe" in
      let Hs := fresh "Hsent" in
      destruct (fetchUserData_run u k x) as (w' & es & -> & Hl & Hb & Hf & Hs)
  end.

(** X10: [initializeAuth] never throws.  It ends with [isLoading] false, except
    when [getSession] answers with an error: then the identity is cleared
    and [isLoading] is left true, until the next auth state change, which
    always ends with [isLoading] false.  With a session it commits the
    session and its user. *)
Theorem initializeAuth_releases_loading (w : World) :
  let w' := world_after AuthMount.initializeAuth w in
  result_of AuthMount.initializeAuth w = Ret tt /\
  (forall e, answer (auth_reply_at 0 w) = Refused e ->
     isLoading (facade w') = true /\
     session (facade w') = None /\ user (facade w') = None /\
     profile (facade w') = None /\ isAdmin (facade w') = false) /\
  ((forall e, answer (auth_reply_at 0 w) <> Refused e) -> isLoading (facade w') = false) /\
  (forall s, answer (auth_reply_at 0 w) = Granted (Some s) ->
     session (facade w') = Some s /\ user (facade w') = Some (session_user s)) /\
  (forall event newSession,
     isLoading (facade (world_after (AuthProvider.onAuthStateChange event newSession) w'))
     = false).
Proof.
  cbn zeta.
  assert (Hlistener : forall event newSession x,
             isLoading (facade (world_after (AuthProvider.onAuthStateChange event newSession) x))
             = false).
  { intros event newSession x. unfold AuthProvider.onAuthStateChange. exec.
    destruct newSession as [s|]; cbn [fmap option_fmap option_map bool_decide negb when].
    - rewrite bool_decide_eq_false_2 by discriminate. cbn [negb]. exec.
      fetch_step. exec. norm. reflexivity.
    - rewrite bool_decide_eq_true_2 by reflexivity. cbn [negb]. exec. norm. reflexivity. }
  split; [|split; [|split; [|split; [|intros; apply Hlistener]]]].
  all: unfold AuthMount.initializeAuth, AuthMount.detached; exec; auth_step;
    try fetch_step; exec; norm.
  all: try reflexivity.
  all: try (intros; try discriminate; try congruence; repeat split; reflexivity).
  all: intros s0 E; injection E as <-; unfold after_auth in *; norm;
    destruct Hframe as (Hs & Hu & _); rewrite Hs, Hu; split; reflexivity.
Qed.

Lemma never_hit_without_user (c : option CachedUserData) (k : string) :
  AuthProvider.cache_hit c None k = None.
Proof. destruct c; reflexivity. Qed.

(** X11: of the calls of [fetchUserData] that the provider makes itself,
    three are never served from the cache: [refreshProfile], the auth state
    listener and [initializeAuth] send the profile request and the
    admin-role request whatever the cache holds.  [signIn] clears the cache
    before it waits for the auth service, so what the cache held before
    the call is never used; it is served from the cache exactly when a
    fetch that completed while it waited has filled it and the user of its
    closure is the one who signs in, and then it sends nothing. *)
Theorem only_signIn_is_served_from_cache (w : World) :
  (forall u, user (facade w) = Some u ->
     sent (new_events w (world_after AuthProvider.refreshProfile w))
     = user_data_requests (uid u)) /\
  (forall event s,
     sent (new_events w (world_after (AuthProvider.onAuthStateChange event (Some s)) w))
     = user_data_requests (uid (session_user s))) /\
  (forall s, answer (auth_reply_at 0 w) = Granted (Some s) ->
     sent (new_events w (world_after AuthMount.initializeAuth w))
     = user_data_requests (uid (session_user s))) /\
  (forall email pw s, answer (auth_reply_at 0 w) = Granted (Some s) ->
     let requests := sent (new_events w (world_after (AuthProvider.signIn email pw) w)) in
     (cached_meanwhile (auth_reply_at 0 w) = None \/
      uid <$> user (facade w) <> Some (uid (session_user s)) ->
      requests = user_data_requests (uid (session_user s))) /\
     (forall c u, cached_meanwhile (auth_reply_at 0 w) = Some c ->
                  user (facade w) = Some u -> uid u = uid (session_user s) ->
                  requests = [])).
Proof.
  unfold user_data_requests.
  split; [|split; [|split; [|intros email pw s Hs; cbn zeta; split]]].
  - intros u Hu. unfold AuthProvider.refreshProfile. exec. rewrite Hu. exec.
    fetch_step. exec. norm. read_events. read_sent.
    rewrite ?app_nil_r. apply Hsent. reflexivity.
  - intros event s. unfold AuthProvider.onAuthStateChange. exec.
    cbn [fmap option_fmap option_map bool_decide negb when].
    rewrite bool_decide_eq_false_2 by discriminate. cbn [negb when]. exec.
    fetch_step. exec. norm. read_events. read_sent.
    rewrite ?app_nil_r. apply Hsent. reflexivity.
  - intros s Hs. unfold AuthMount.initializeAuth, AuthMount.detached. exec. auth_step.
    fetch_step. exec. norm. unfold after_auth in *. norm. read_events. read_sent.
    rewrite ?app_nil_r. apply Hsent. apply never_hit_without_user.
  - intros H. destruct (signIn_granted email pw w s Hs) as (_ & _ & _ & _ & Hsent & _).
    rewrite Hsent. unfold fetch_requests, AuthProvider.cache_hit.
    destruct H as [-> | Hu]; [reflexivity|].
    destruct (cached_meanwhile (auth_reply_at 0 w)); [|reflexivity].
    destruct (user (facade w)) as [u|]; [|reflexivity].
    destruct (String.eqb_spec (uid u) (uid (session_user s))) as [E|]; [|reflexivity].
    contradiction Hu. cbn. rewrite E. reflexivity.
  - intros c u Hc Hu E.
    destruct (signIn_granted email pw w s Hs) as (_ & _ & _ & _ & Hsent & _).
    rewrite Hsent. unfold fetch_requests, AuthProvider.cache_hit.
    rewrite Hc, Hu, E, String.eqb_refl. reflexivity.
Qed.

Lemma fetchUserData_shows_row (u : option User) (k : string) (w : World) (p : Profile.t) :
  AuthProvider.cache_hit (cachedUserData (facade w)) u k = None ->
  accepts 2 w ->
  (N.max (delay (reply_at 0 w)) (delay (reply_at 1 w)) < 5000)%N ->
  profiles (db w) !! k = Some p ->
  forall w', AuthProvider.fetchUserData u k w = (Ret tt, w') ->
  profile (facade w') = Some p /\
  isAdmin (facade w') = has_admin_role k (db w) /\
  cachedUserData (facade w') = Some (mkCached (Some p) (has_admin_role k (db w))).
Proof.
  intros Hmiss Hacc Hfast Hp w' Hrun.
  pose proof (accepts_reply 2 0 w Hacc ltac:(lia)) as F0.
  pose proof (accepts_reply 2 1 w Hacc ltac:(lia)) as F1.
  revert Hrun. unfold has_admin_role, AuthProvider.fetchUserData. exec. rewrite Hmiss. exec.
  rewrite run_send_all. cbn zeta. norm. unfold all_settles in *. norm.
  rewrite F0, F1. cbn [fst snd answer_to] in *.
  destruct (N.leb_spec 5000 (N.max (delay (nth 0 (plan w) (mkReply 0 Fine)))
                                   (delay (nth 1 (plan w) (mkReply 0 Fine))))); [lia|].
  exec. norm. unfold AuthProvider.query_profile, rows_at. norm. rewrite Hp.
  cbn [single data error]. exec. norm.
  intros Hrun. injection Hrun as <-. norm. repeat split; reflexivity.
Qed.

(** X12: pressing "Pay Now" gives the membership before any payment is
    verified: with a backend that accepts the calls, the user's profile row,
    and the profile the provider shows after the refresh, carry the tier of
    the chosen plan, the status "pending_payment" and a task counter reset
    to 0.  (For a plan value that is an inherited member the tier is the
    one the profile had.) *)
Theorem payment_shows_pending_membership
    (w : World) (u : User) (p : Checkout.PlanValue) (prof : Profile.t) :
  user (facade w) = Some u ->
  Checkout.currentPlan w = Some p ->
  profiles (db w) !! uid u = Some prof ->
  accepts 4 w ->
  (N.max (delay (reply_at 2 w)) (delay (reply_at 3 w)) < 5000)%N ->
  let w' := world_after Checkout.handlePayNow w in
  let granted :=
    apply_membership
      (pending_membership (zone w) p (clock w + Z.of_N (delay (reply_at 0 w)))) prof in
  profiles (db w') !! uid u = Some granted /\
  profile (facade w') = Some granted /\
  (forall d, p = Checkout.Declared d -> Profile.membership_tier granted = Checkout.tier d) /\
  Profile.membership_tier granted
  = default (Profile.membership_tier prof) (Checkout.tier_of p) /\
  Profile.membership_status granted = Some "pending_payment" /\
  Profile.daily_tasks_used granted = 0.
Proof.
  intros Hu Hp Hprof Hacc Hfast. cbn zeta.
  rewrite accepts_fault in Hacc.
  pose proof (Hacc 0%nat ltac:(lia)) as F0. pose proof (Hacc 1%nat ltac:(lia)) as F1.
  unfold Checkout.handlePayNow. exec. rewrite Hu, Hp. exec.
  rewrite run_send. norm. rewrite F0. exec. norm.
  rewrite run_send. norm. rewrite F1. exec. norm.
  unfold AuthProvider.refreshProfile. exec. norm. rewrite Hu. exec.
  match goal with
  | |- context [AuthProvider.fetchUserData ?a ?k ?x] =>
      destruct (fetchUserData_run a k x) as (w2 & es & Hrun & Hlog & Hbg & Hframe & _);
      assert (Hx : accepts 2 x)
        by (apply accepts_fault; intros i Hi; norm; apply (Hacc (S (S i))); lia);
      assert (Hm : AuthProvider.cache_hit (cachedUserData (facade x)) a k = None)
        by reflexivity;
      assert (Hfx : (N.max (delay (reply_at 0 x)) (delay (reply_at 1 x)) < 5000)%N)
        by (norm; exact Hfast);
      assert (Hpx : profiles (db x) !! k
                    = Some (apply_membership
                              (pending_membership (zone w) p
                                 (clock w + Z.of_N (delay (reply_at 0 w)))) prof))
        by (norm; rewrite lookup_alter_eq, Hprof; reflexivity);
      destruct (fetchUserData_shows_row a k x _ Hm Hx Hfx Hpx w2 Hrun) as (Hshown & _);
      rewrite Hrun
  end.
  exec. norm. destruct Hframe as (_ & _ & _ & _ & _ & _ & Hdb). norm.
  rewrite Hdb, Hshown. norm. rewrite lookup_alter_eq, Hprof.
  repeat split; try reflexivity. intros d ->. reflexivity.
Qed.

Lemma payment_shows_pending_membership_example :
  let w := Sample.checking_out Sample.jan15 "pro" [] in
  let w' := world_after Checkout.handlePayNow w in
  let granted :=
    apply_membership (pending_membership (zone w) Scenario.pro (clock w + 0)) Sample.worker in
  profiles (db w') !! "u-worker" = Some granted /\
  profile (facade w') = Some granted /\
  (forall d, Scenario.pro = Checkout.Declared d ->
             Profile.membership_tier granted = Checkout.tier d) /\
  Profile.membership_tier granted = tier_pro /\
  Profile.membership_status granted = Some "pending_payment" /\
  Profile.daily_tasks_used granted = 0.
Proof.
  apply (payment_shows_pending_membership
           (Sample.checking_out Sample.jan15 "pro" []) Sample.customer Scenario.pro
           Sample.worker);
    reflexivity.
Defined.

Lemma existsb_eqb (k : string) (l : list string) :
  existsb (String.eqb k) l = true <-> In k l.
Proof.
  rewrite existsb_exists. split.
  - intros (x & Hx & E). apply String.eqb_eq in E. subst x. exact Hx.
  - intros H. exists k. split; [exact H | apply String.eqb_refl].
Qed.

(** When there is no plan value: no parameter, an empty one, or one that
    is not a property of [planDetails], own or inherited. *)
Lemma no_plan_value (w : World) :
  Checkout.currentPlan w = None <->
  match plan_param (checkoutPage w) with
  | None => True
  | Some k =>
      k = "" \/
      (k <> "regular" /\ k <> "pro" /\ k <> "vip" /\ ~ In k Checkout.inherited_keys)
  end.
Proof.
  unfold Checkout.currentPlan, Checkout.lookup_plan, Checkout.planDetails.
  destruct (plan_param (checkoutPage w)) as [k|]; [|tauto].
  destruct k as [|c k']; cbn [Js.truthy_str]; [tauto|].
  set (k := String c k').
  destruct (String.eqb_spec k "regular"); [split; [discriminate | intros [|]; [discriminate | tauto]]|].
  destruct (String.eqb_spec k "pro"); [split; [discriminate | intros [|]; [discriminate | tauto]]|].
  destruct (String.eqb_spec k "vip"); [split; [discriminate | intros [|]; [discriminate | tauto]]|].
  destruct (existsb (String.eqb k) Checkout.inherited_keys) eqn:E.
  - apply existsb_eqb in E. split; [discriminate | intros [|]; [discriminate | tauto]].
  - split; [|reflexivity]. intros _. right. repeat split; try assumption.
    intros Hin. apply existsb_eqb in Hin. congruence.
Qed.

(** X13: without a signed-in user or without a plan value (no [plan]
    parameter, an empty one, or one that is not a property of
    [planDetails], own or inherited), [handlePayNow] only writes four lines
    to the console and returns: no request is sent, no toast is shown, and
    the tables, the page and the provider are as before. *)
Theorem handlePayNow_needs_user_and_plan (w : World) :
  user (facade w) = None \/
  match plan_param (checkoutPage w) with
  | None => True
  | Some k =>
      k = "" \/
      (k <> "regular" /\ k <> "pro" /\ k <> "vip" /\ ~ In k Checkout.inherited_keys)
  end ->
  let w' := world_after Checkout.handlePayNow w in
  result_of Checkout.handlePayNow w = Ret tt /\
  new_events w w'
  = [Console "log" "Pay Now clicked" None; Console "log" "User:" None;
     Console "log" "Current Plan:" None;
     Console "error" "Missing user or current plan" None] /\
  db w' = db w /\
  plan w' = plan w /\
  checkoutPage w' = checkoutPage w /\
  facade w' = facade w.
Proof.
  intros H. rewrite <- no_plan_value in H.
  cbn zeta. unfold Checkout.handlePayNow. exec.
  destruct H as [H|H]; rewrite H; [|destruct (user (facade w))];
    exec; norm; read_events; repeat split; reflexivity.
Qed.

(** A signed-in user with [?plan=gold], which [planDetails] neither
    declares nor inherits. *)
Lemma handlePayNow_needs_user_and_plan_example :
  let w := Sample.checking_out Sample.jan15 "gold" [] in
  let w' := world_after Checkout.handlePayNow w in
  result_of Checkout.handlePayNow w = Ret tt /\
  new_events w w'
  = [Console "log" "Pay Now clicked" None; Console "log" "User:" None;
     Console "log" "Current Plan:" None;
     Console "error" "Missing user or current plan" None] /\
  db w' = db w /\
  plan w' = plan w /\
  checkoutPage w' = checkoutPage w /\
  facade w' = facade w.
Proof.
  apply (handlePayNow_needs_user_and_plan (Sample.checking_out Sample.jan15 "gold" [])).
  right. right. repeat split; try discriminate.
  cbn. intuition discriminate.
Defined.

(** *** Paying again *)

Lemma same_customer_refl w : same_customer w w.
Proof. unfold same_customer. repeat split; try reflexivity. exists O. reflexivity. Qed.

Lemma same_customer_trans a b c : same_customer a b -> same_customer b c -> same_customer a c.
Proof.
  unfold same_customer. intros (U1 & P1 & k1 & K1) (U2 & P2 & k2 & K2).
  repeat split; try congruence.
  exists (k1 + k2)%nat. rewrite K2, K1, drop_drop. reflexivity.
Qed.

Lemma same_customer_after_send r b w : same_customer w (after_send r b w).
Proof.
  unfold same_customer, after_send. destruct b; cbn; repeat split; exists 1%nat;
    destruct (plan w); reflexivity.
Qed.

Lemma same_customer_after_send_all r1 r2 d w : same_customer w (after_send_all r1 r2 d w).
Proof.
  unfold same_customer, after_send_all. cbn. repeat split. exists 2%nat.
  destruct (plan w) as [|? [|? ?]]; reflexivity.
Qed.

Ltac same_customer_tac :=
  keeps_tac same_customer_refl same_customer_trans
    ltac:(first
      [ apply keeps_modify; intros ?; unfold same_customer; cbn;
        repeat split; exists O; reflexivity
      | apply keeps_send; intros ? ?; apply same_customer_after_send
      | apply keeps_send_all; intros ? ?; apply same_customer_after_send_all ]).

Lemma handlePayNow_same_customer : keeps same_customer Checkout.handlePayNow.
Proof.
  unfold Checkout.handlePayNow, AuthProvider.refreshProfile, AuthProvider.fetchUserData.
  same_customer_tac.
Qed.

Lemma handleManualVerify_same_customer : keeps same_customer CheckoutPay.handleManualVerify.
Proof. unfold CheckoutPay.handleManualVerify. same_customer_tac. Qed.

Lemma accepting_later (w w' : World) : same_customer w w' -> accepting w -> accepting w'.
Proof.
  intros (_ & _ & k & Hk) H i. unfold reply_at. rewrite Hk, nth_drop. apply H.
Qed.

Lemma accepting_accepts (n : nat) (w : World) : accepting w -> accepts n w.
Proof. intros H. apply accepts_fault. intros i _. apply H. Qed.

(** With no answer planned, every call is accepted. *)
Lemma accepting_nil (w : World) : plan w = [] -> accepting w.
Proof.
  intros H i. unfold reply_at. rewrite H. destruct i; reflexivity.
Qed.
(** X14: "Pay Now", then the button that returns to the payment, then "Pay
    Now" again records the purchase twice: with a backend that accepts the
    calls, the transactions end with two pending rows for the user and the
    plan, which differ in the instant of their reference only. *)
Theorem paying_again_duplicates (w : World) (u : User) (p : Checkout.PlanValue) :
  user (facade w) = Some u ->
  Checkout.currentPlan w = Some p ->
  accepting w ->
  let w1 := world_after Checkout.handlePayNow w in
  let w2 := world_after CheckoutPay.handleManualVerify w1 in
  let w3 := world_after Checkout.handlePayNow w2 in
  paymentInitiated (checkoutPage w1) = true /\
  paymentInitiated (checkoutPage w2) = false /\
  transactions (db w3)
  = (transactions (db w)
     ++ [pending_transaction u p (clock w); pending_transaction u p (clock w1)])%list.
Proof.
  intros Hu Hp Hacc. cbn zeta.
  destruct (handlePayNow_run w u p Hu Hp) as (_ & _ & _ & _ & _ & _ & _ & Hpage & Hdb).
  destruct (Hdb (accepting_accepts 2 w Hacc)) as (Htx & _). clear Hdb.
  pose proof (handlePayNow_same_customer w) as Hc1.
  set (w1 := world_after Checkout.handlePayNow w) in *.
  pose proof (handleManualVerify_same_customer w1) as Hc2.
  assert (H2 : db (world_after CheckoutPay.handleManualVerify w1) = db w1 /\
               clock (world_after CheckoutPay.handleManualVerify w1) = clock w1 /\
               paymentInitiated (checkoutPage (world_after CheckoutPay.handleManualVerify w1))
               = false).
  { unfold CheckoutPay.handleManualVerify. exec. norm. repeat split. }
  set (w2 := world_after CheckoutPay.handleManualVerify w1) in *.
  destruct H2 as (Hdb2 & Hclock2 & Hinit2).
  pose proof (same_customer_trans _ _ _ Hc1 Hc2) as Hc.
  assert (Hu2 : user (facade w2) = Some u) by (rewrite (proj1 Hc); exact Hu).
  assert (Hp2 : Checkout.currentPlan w2 = Some p).
  { unfold Checkout.currentPlan in *. rewrite (proj1 (proj2 Hc)). exact Hp. }
  destruct (handlePayNow_run w2 u p Hu2 Hp2) as (_ & _ & _ & _ & _ & _ & _ & _ & Hdb3).
  destruct (Hdb3 (accepting_accepts 2 w2 (accepting_later w w2 Hc Hacc))) as (Htx3 & _).
  rewrite Htx3, Hdb2, Htx, Hclock2, Hpage, <- app_assoc. repeat split.
Qed.

Lemma paying_again_duplicates_example :
  let w := Sample.checking_out Sample.jan15 "pro" [] in
  let w1 := world_after Checkout.handlePayNow w in
  let w2 := world_after CheckoutPay.handleManualVerify w1 in
  let w3 := world_after Checkout.handlePayNow w2 in
  paymentInitiated (checkoutPage w1) = true /\
  paymentInitiated (checkoutPage w2) = false /\
  transactions (db w3)
  = (transactions (db w)
     ++ [pending_transaction Sample.customer Scenario.pro (clock w);
         pending_transaction Sample.customer Scenario.pro (clock w1)])%list.
Proof.
  apply (paying_again_duplicates
           (Sample.checking_out Sample.jan15 "pro" []) Sample.customer Scenario.pro);
    [reflexivity | reflexivity | apply accepting_nil; reflexivity].
Defined.

(** *** The form *)

Lemma handleSubmit_invalid (zod_email : Js.ustring -> bool) (w : World) :
  form_issues zod_email (authPage w) <> [] ->
  let w' := world_after (Auth.handleSubmit zod_email) w in
  result_of (Auth.handleSubmit zod_email) w = Ret tt /\
  log w' = log w /\
  auth_plan w' = auth_plan w /\
  plan w' = plan w /\
  facade w' = facade w /\
  db w' = db w /\
  authPage w'
  = mkAuthPage (isSignUp (authPage w)) (formData (authPage w))
               (Auth.fieldErrors (form_issues zod_email (authPage w))) false "" false.
Proof.
  unfold form_issues. intros Hne. cbn zeta. unfold Auth.handleSubmit. exec. norm.
  destruct (isSignUp (authPage w)) eqn:Hup.
  - destruct (Auth.signUpSchema zod_email (formData (authPage w))) as [|i l];
      [contradiction|].
    exec. norm. rewrite Hup. repeat split.
  - destruct (Auth.signInSchema zod_email _ _) as [|i l]; [contradiction|].
    exec. norm. rewrite Hup. repeat split.
Qed.

(** X15: a form with any validation issue, in sign-in or in sign-up mode, is
    not submitted: [handleSubmit] returns having called nothing and logged
    nothing, the provider is as before, the field errors are those of the
    issues, the fields keep their contents, and neither the submitting flag
    nor an API error is set. *)
Theorem invalid_form_is_not_submitted (zod_email : Js.ustring -> bool) (w : World) :
  form_issues zod_email (authPage w) <> [] ->
  let w' := world_after (Auth.handleSubmit zod_email) w in
  result_of (Auth.handleSubmit zod_email) w = Ret tt /\
  new_events w w' = [] /\
  auth_plan w' = auth_plan w /\
  facade w' = facade w /\
  errors (authPage w') = Auth.fieldErrors (form_issues zod_email (authPage w)) /\
  formData (authPage w') = formData (authPage w) /\
  isSubmitting (authPage w') = false /\
  apiError (authPage w') = "".
Proof.
  intros Hne. cbn zeta.
  destruct (handleSubmit_invalid zod_email w Hne) as (Hr & Hlog & Ha & _ & Hf & _ & Hp).
  rewrite Hp. repeat split; try assumption.
  apply (new_events_app w _ []). exact Hlog.
Qed.

Lemma invalid_form_is_not_submitted_example :
  let w := Scenario.form false [] [] [] in
  let w' := world_after (Auth.handleSubmit (fun _ => true)) w in
  result_of (Auth.handleSubmit (fun _ => true)) w = Ret tt /\
  new_events w w' = [] /\
  auth_plan w' = auth_plan w /\
  facade w' = facade w /\
  errors (authPage w') = Auth.fieldErrors (form_issues (fun _ => true) (authPage w)) /\
  formData (authPage w') = formData (authPage w) /\
  isSubmitting (authPage w') = false /\
  apiError (authPage w') = "".
Proof.
  apply (invalid_form_is_not_submitted (fun _ => true) (Scenario.form false [] [] [])).
  vm_compute. discriminate.
Defined.

Lemma fieldErrors_last (issues : list Auth.Issue) (path message : string) :
  Js.truthy_str path = true ->
  Auth.fieldErrors (issues ++ [(path, message)]) !! path = Some message.
Proof.
  intros Hp. unfold Auth.fieldErrors. rewrite foldl_app. cbn. rewrite Hp.
  apply lookup_insert_eq.
Qed.

(** X16: a sign-up whose confirmation differs from the password is rejected
    with "Passwords don't match" on the [confirmPassword] field, whatever
    other issues the form has, and without a call to the backend. *)
Theorem mismatched_confirmation_is_rejected (zod_email : Js.ustring -> bool) (w : World) :
  isSignUp (authPage w) = true ->
  password (formData (authPage w)) <> confirmPassword (formData (authPage w)) ->
  let w' := world_after (Auth.handleSubmit zod_email) w in
  result_of (Auth.handleSubmit zod_email) w = Ret tt /\
  errors (authPage w') !! "confirmPassword" = Some "Passwords don't match" /\
  new_events w w' = [] /\
  auth_plan w' = auth_plan w /\
  facade w' = facade w /\
  isSubmitting (authPage w') = false /\
  verificationSent (authPage w') = false.
Proof.
  intros Hup Hne. cbn zeta.
  assert (Hissues : exists l,
             form_issues zod_email (authPage w)
             = (l ++ [("confirmPassword", "Passwords don't match")])%list).
  { unfold form_issues. rewrite Hup. unfold Auth.signUpSchema.
    unfold Js.ustring_eqb. rewrite bool_decide_eq_false_2 by exact Hne.
    cbn [Auth.check]. rewrite !app_assoc. eexists. reflexivity. }
  destruct Hissues as [l Hl].
  assert (Hnil : form_issues zod_email (authPage w) <> [])
    by (rewrite Hl; destruct l; discriminate).
  destruct (handleSubmit_invalid zod_email w Hnil) as (Hr & Hlog & Ha & _ & Hf & _ & Hp).
  rewrite Hp. cbn [errors isSubmitting verificationSent]. rewrite Hl.
  repeat split; try assumption.
  - apply fieldErrors_last. reflexivity.
  - apply (new_events_app w _ []). exact Hlog.
Qed.

Lemma mismatched_confirmation_is_rejected_example :
  let w := Scenario.form true Scenario.good_password [65; 98; 99]%N [] in
  let w' := world_after (Auth.handleSubmit (fun _ => true)) w in
  result_of (Auth.handleSubmit (fun _ => true)) w = Ret tt /\
  errors (authPage w') !! "confirmPassword" = Some "Passwords don't match" /\
  new_events w w' = [] /\
  auth_plan w' = auth_plan w /\
  facade w' = facade w /\
  isSubmitting (authPage w') = false /\
  verificationSent (authPage w') = false.
Proof.
  apply (mismatched_confirmation_is_rejected
           (fun _ => true) (Scenario.form true Scenario.good_password [65; 98; 99]%N []));
    [reflexivity | vm_compute; discriminate].
Defined.

Lemma dot_star_no_break (cls : N -> bool) (s : Js.ustring) :
  existsb Js.line_terminator s = false -> Js.dot_star cls s = existsb cls s.
Proof.
  induction s as [|c s IH]; cbn; [reflexivity|].
  intros H. apply orb_false_elim in H as [Hc Hs]. rewrite Hc, (IH Hs). cbn.
  destruct (cls c); reflexivity.
Qed.

Lemma password_issues (zod_email : Js.ustring -> bool) (f : FormData) :
  issues_on "password" (Auth.signUpSchema zod_email f) = [] <->
  (6 <=? Js.ulength (password f)) && Auth.password_regex (password f) = true.
Proof.
  unfold issues_on, Auth.signUpSchema, Auth.check.
  destruct (2 <=? Js.ulength (fullName f)), (zod_email (email f)), (acceptTerms f),
    (Js.ustring_eqb (password f) (confirmPassword f)),
    (6 <=? Js.ulength (password f)), (Auth.password_regex (password f));
    cbn; split; (reflexivity || discriminate).
Qed.

Lemma strength_counts (p : Js.ustring) :
  let shown := AuthForm.getPasswordStrength p in
  0 <= AuthForm.strength shown <= 4 /\
  (AuthForm.text shown = "Strong" <-> AuthForm.strength shown = 4) /\
  (AuthForm.strength shown = 4 <-> Auth.meets_complexity p = true).
Proof.
  cbn zeta. unfold AuthForm.getPasswordStrength, Auth.meets_complexity.
  destruct p as [|c p]; [cbn; repeat split; intros; (lia || discriminate)|].
  destruct (6 <=? Js.ulength (c :: p)), (existsb Js.lower (c :: p)),
    (existsb Js.upper (c :: p)), (existsb Js.digit (c :: p));
    cbn; repeat split; intros; try lia; try discriminate; reflexivity.
Qed.

(** X17: the strength meter and the sign-up schema agree on passwords.  The
    strength is between 0 and 4; the label is "Strong" exactly at 4, which
    is exactly when the password has six characters, a lowercase letter, an
    uppercase letter and a digit; a password the schema accepts is shown as
    "Strong", and a "Strong" password without a line break is one the
    schema accepts. *)
Theorem strong_means_accepted (zod_email : Js.ustring -> bool) (f : FormData) :
  let shown := AuthForm.getPasswordStrength (password f) in
  let accepted := issues_on "password" (Auth.signUpSchema zod_email f) = [] in
  0 <= AuthForm.strength shown <= 4 /\
  (AuthForm.text shown = "Strong" <-> AuthForm.strength shown = 4) /\
  (AuthForm.strength shown = 4 <-> Auth.meets_complexity (password f) = true) /\
  (accepted -> AuthForm.text shown = "Strong") /\
  (existsb Js.line_terminator (password f) = false ->
   AuthForm.text shown = "Strong" -> accepted).
Proof.
  cbn zeta. destruct (strength_counts (password f)) as (Hrange & Htext & Hmeets).
  split; [exact Hrange|]. split; [exact Htext|]. split; [exact Hmeets|].
  rewrite password_issues, Htext, Hmeets. split.
  - intros H. apply andb_prop in H as [Hlen Hre].
    apply accepted_password_meets_complexity; assumption.
  - intros Hline. unfold Auth.meets_complexity, Auth.password_regex.
    rewrite !dot_star_no_break by exact Hline.
    destruct (existsb Js.upper (password f)), (existsb Js.lower (password f)),
      (existsb Js.digit (password f)), (6 <=? Js.ulength (password f));
      (reflexivity || discriminate).
Qed.

(** A run of [signUp], for the form that calls it. *)
Lemma signUp_run (em pw name : Js.ustring) (w : World) :
  exists w',
    AuthProvider.signUp em pw name w
    = (Ret (match answer (auth_reply_at 0 w) with
            | Granted _ => None
            | Refused e | Broken e => Some e
            end), w') /\
    authPage w' = authPage w /\
    List.filter is_write (new_events w w')
    = [AuthSent (SignUpWith em pw name (origin w +:+ "/auth/callback"))].
Proof.
  unfold AuthProvider.signUp. exec. auth_step.
  all: unfold after_auth; norm; eexists; split; [reflexivity|]; norm.
  all: split; [reflexivity | read_events; reflexivity].
Qed.

Lemma includes_prefix (hay needle : string) :
  String.prefix needle hay = true -> Js.includes hay needle = true.
Proof. intros H. destruct hay; cbn [Js.includes]; rewrite H; reflexivity. Qed.

(** Where a text occurs, so does what is left of it without its first
    character. *)
Lemma includes_tail (hay : string) (c : ascii) (needle : string) :
  Js.includes hay (String c needle) = true -> Js.includes hay needle = true.
Proof.
  induction hay as [|h hay IH]; cbn [Js.includes String.prefix].
  - discriminate.
  - intros H. apply orb_prop in H as [H|H].
    + destruct (ascii_dec c h); [|discriminate].
      apply orb_true_intro. right. apply includes_prefix. exact H.
    + apply orb_true_intro. right. apply IH. exact H.
Qed.

Lemma already_registered (m : string) :
  Js.includes m "already registered" = false ->
  Js.includes m "User already registered" = false.
Proof.
  intros H. destruct (Js.includes m "User already registered") eqn:E; [|reflexivity].
  do 5 apply includes_tail in E. congruence.
Qed.

(** X18: a valid sign-up form makes one sign-up call with the fields of the
    form.  If it succeeds the form is emptied and the verification notice
    shown; otherwise the fields stay, no notice is shown, and the API error
    is "This email is already registered. Please sign in instead." when the
    message contains "already registered", else the message itself, else
    "Failed to create account. Please try again.".  The submitting flag
    ends false. *)
Theorem signUp_form_outcomes (zod_email : Js.ustring -> bool) (w : World) :
  isSignUp (authPage w) = true ->
  Auth.signUpSchema zod_email (formData (authPage w)) = [] ->
  let f := formData (authPage w) in
  let w' := world_after (Auth.handleSubmit zod_email) w in
  result_of (Auth.handleSubmit zod_email) w = Ret tt /\
  List.filter is_write (new_events w w')
  = [AuthSent (SignUpWith (email f) (password f) (fullName f)
                          (origin w +:+ "/auth/callback"))] /\
  isSubmitting (authPage w') = false /\
  match answer (auth_reply_at 0 w) with
  | Granted _ =>
      verificationSent (authPage w') = true /\
      formData (authPage w') = Auth.emptyForm /\
      apiError (authPage w') = ""
  | Refused e | Broken e =>
      verificationSent (authPage w') = false /\
      formData (authPage w') = f /\
      apiError (authPage w')
      = if Js.includes (Js.message e) "already registered"
        then "This email is already registered. Please sign in instead."
        else Js.or_str (Js.message e) "Failed to create account. Please try again."
  end.
Proof.
  intros Hup Hvalid. cbn zeta.
  unfold Auth.handleSubmit. exec. norm. rewrite Hup, Hvalid.
  match goal with
  | |- context [AuthProvider.signUp ?a ?b ?c ?x] =>
      destruct (signUp_run a b c x) as (w1 & Hrun & Hpage & Hsent);
      rewrite Hrun
  end.
  norm. unfold new_events in *. norm.
  destruct (answer (nth 0 (auth_plan w) _)) as [s|e|e]; exec; norm;
    try (destruct (Js.includes (Js.message e) "already registered") eqn:Hreg;
         [|rewrite (already_registered _ Hreg)]);
    exec; norm; rewrite ?Hpage; norm.
  all: repeat split; try assumption; try reflexivity.
Qed.

Lemma signUp_form_outcomes_example :
  let w := Scenario.form true Scenario.good_password Scenario.good_password
             [mkAuthReply 150 (Refused (Js.mkError "User already registered")) None] in
  let f := formData (authPage w) in
  let w' := world_after (Auth.handleSubmit (fun _ => true)) w in
  result_of (Auth.handleSubmit (fun _ => true)) w = Ret tt /\
  List.filter is_write (new_events w w')
  = [AuthSent (SignUpWith (email f) (password f) (fullName f)
                          (origin w +:+ "/auth/callback"))] /\
  isSubmitting (authPage w') = false /\
  verificationSent (authPage w') = false /\
  formData (authPage w') = f /\
  apiError (authPage w') = "This email is already registered. Please sign in instead.".
Proof.
  apply (signUp_form_outcomes
           (fun _ => true)
           (Scenario.form true Scenario.good_password Scenario.good_password
              [mkAuthReply 150 (Refused (Js.mkError "User already registered")) None]));
    reflexivity.
Defined.

(** *** Jobs *)

Lemma reads_no_write (es : list Event) :
  forallb reads es = true -> List.filter is_write (rev es) = [].
Proof.
  intros H. rewrite <- forallb_rev in H. induction (rev es) as [|e l IH]; [reflexivity|].
  cbn in *. apply andb_prop in H as [He Hl]. unfold reads in He.
  destruct (is_write e); [discriminate | auto].
Qed.

Ltac read_writes :=
  read_events; cbn [List.filter is_write is_select negb];
  rewrite ?List.filter_app; cbn [List.filter is_write is_select negb];
  rewrite ?reads_no_write by assumption; cbn [app].

(** X19: [handleDeleteJob] never throws and does nothing at all when the user
    declines the confirmation.  When confirmed it sends the one delete: if
    accepted the job is gone from the table and "Job deleted successfully"
    is shown; if it fails the tables are as before and the one toast shows
    the message of the error. *)
Theorem handleDeleteJob_asks_first (confirmed : bool) (jobId : string) (w : World) :
  let m := AdminJobs.handleDeleteJob confirmed jobId in
  let w' := world_after m w in
  result_of m w = Ret tt /\
  (confirmed = false -> w' = w) /\
  (confirmed = true ->
   List.filter is_write (new_events w w') = [Sent (DeleteJob jobId)] /\
   match fault (reply_at 0 w) with
   | Fine =>
       db w' = with_jobs (delete jobId) (db w) /\
       In (Toast "Success" "Job deleted successfully" None) (new_events w w')
   | Fails e | Rejects e =>
       db w' = db w /\
       List.filter is_toast (new_events w w')
       = [Toast "Error" (Js.message e) (Some "destructive")]
   end).
Proof.
  cbn zeta. unfold AdminJobs.handleDeleteJob. destruct confirmed; cbn [negb].
  - exec. rewrite run_send. norm.
    destruct (fault (nth 0 (plan w) _)) eqn:F0; exec; norm; try list_step; exec; norm.
    all: split; [reflexivity|]; split; [discriminate|]; intros _.
    all: split; [read_writes; reflexivity|].
    + destruct Hframe as (Hdb & _). norm. split; [exact Hdb|]. read_events. find_event.
    + split; [reflexivity|]. read_events. reflexivity.
    + split; [reflexivity|]. read_events. reflexivity.
  - exec. split; [reflexivity|]. split; [reflexivity | discriminate].
Qed.

Lemma handleToggleJobStatus_flips (job : Job.t) (w : World) :
  let m := AdminJobs.handleToggleJobStatus job in
  let w' := world_after m w in
  result_of m w = Ret tt /\
  List.filter is_write (new_events w w')
  = [Sent (ToggleJob (Job.id job) (negb (Job.is_active job)))] /\
  match fault (reply_at 0 w) with
  | Fine =>
      db w' = with_jobs (alter (toggle_job (negb (Job.is_active job))) (Job.id job)) (db w)
  | Fails e | Rejects e =>
      db w' = db w /\
      List.filter is_toast (new_events w w')
      = [Toast "Error" (Js.message e) (Some "destructive")]
  end.
Proof.
  cbn zeta. unfold AdminJobs.handleToggleJobStatus. exec. rewrite run_send. norm.
  destruct (fault (nth 0 (plan w) _)) eqn:F0; exec; norm; try list_step; exec; norm.
  all: split; [reflexivity|]; split; [read_writes; reflexivity|].
  - destruct Hframe as (Hdb & _). norm. exact Hdb.
  - split; [reflexivity|]. read_events. reflexivity.
  - split; [reflexivity|]. read_events. reflexivity.
Qed.

Lemma later_plan_refl w : later_plan w w.
Proof. exists O. reflexivity. Qed.

Lemma later_plan_trans a b c : later_plan a b -> later_plan b c -> later_plan a c.
Proof.
  intros (k1 & K1) (k2 & K2). exists (k1 + k2)%nat. rewrite K2, K1, drop_drop. reflexivity.
Qed.

Ltac later_plan_tac :=
  keeps_tac later_plan_refl later_plan_trans
    ltac:(first
      [ apply keeps_modify; intros ?; exists O; reflexivity
      | apply keeps_send; intros w0 b; exists 1%nat; unfold after_send;
        destruct b; cbn; destruct (plan w0); reflexivity
      | apply keeps_send_all; intros w0 ?; exists 2%nat; unfold after_send_all; cbn;
        destruct (plan w0) as [|? [|? ?]]; reflexivity ]).

Lemma handleToggleJobStatus_later_plan job : keeps later_plan (AdminJobs.handleToggleJobStatus job).
Proof. unfold AdminJobs.handleToggleJobStatus, Admin.fetchData. later_plan_tac. Qed.

Lemma accepting_later_plan (w w' : World) : later_plan w w' -> accepting w -> accepting w'.
Proof. intros (k & Hk) H i. unfold reply_at. rewrite Hk, nth_drop. apply H. Qed.

Lemma alter_back {A} (f g : A -> A) (m : gmap string A) (i : string) :
  (forall x, m !! i = Some x -> f (g x) = x) -> alter f i (alter g i m) = m.
Proof.
  intros H. apply map_eq. intros k. destruct (decide (i = k)) as [->|Hne].
  - rewrite !lookup_alter_eq. destruct (m !! k) eqn:E; cbn; [|reflexivity].
    f_equal. apply H. reflexivity.
  - rewrite !lookup_alter_ne by assumption. reflexivity.
Qed.

(** X20: toggling a job makes it inactive if it was active and active if it
    was not, and toggling the job as it is then listed brings the tables
    back to what they were, with a backend that accepts the calls. *)
Theorem toggling_twice_restores (job : Job.t) (w : World) :
  jobs (db w) !! Job.id job = Some job ->
  accepting w ->
  let w1 := world_after (AdminJobs.handleToggleJobStatus job) w in
  let listed := toggle_job (negb (Job.is_active job)) job in
  let w2 := world_after (AdminJobs.handleToggleJobStatus listed) w1 in
  jobs (db w1) !! Job.id job = Some listed /\
  Job.is_active listed = negb (Job.is_active job) /\
  db w2 = db w.
Proof.
  intros Hjob Hacc. cbn zeta.
  destruct (handleToggleJobStatus_flips job w) as (_ & _ & H1).
  rewrite (Hacc O) in H1.
  pose proof (accepting_later_plan _ _ (handleToggleJobStatus_later_plan job w) Hacc) as Hacc1.
  set (w1 := world_after (AdminJobs.handleToggleJobStatus job) w) in *.
  destruct (handleToggleJobStatus_flips (toggle_job (negb (Job.is_active job)) job) w1)
    as (_ & _ & H2).
  rewrite (Hacc1 O) in H2. rewrite H2, H1.
  split; [|split; [reflexivity|]].
  - cbn. rewrite lookup_alter_eq, Hjob. reflexivity.
  - destruct (db w) as [pr ur js jb jc tx]. unfold with_jobs. cbn in *. f_equal.
    apply alter_back. intros x Hx.
    rewrite Hjob in Hx. injection Hx as <-. cbn. rewrite negb_involutive.
    destruct job; reflexivity.
Qed.

Lemma toggling_twice_restores_example :
  let w := Scenario.offering [] in
  let w1 := world_after (AdminJobs.handleToggleJobStatus Scenario.job) w in
  let listed := toggle_job false Scenario.job in
  let w2 := world_after (AdminJobs.handleToggleJobStatus listed) w1 in
  jobs (db w1) !! "j-1" = Some listed /\
  Job.is_active listed = false /\
  db w2 = db w.
Proof.
  apply (toggling_twice_restores Scenario.job (Scenario.offering []));
    [reflexivity | apply accepting_nil; reflexivity].
Defined.

(** *** The lists after a review *)

Lemma In_insert_by {A} (le : A -> A -> bool) (x y : A) (l : list A) :
  In y (Admin.insert_by le x l) <-> y = x \/ In y l.
Proof.
  induction l as [|z l IH]; cbn; [intuition congruence|].
  destruct (le x z); cbn; [intuition congruence|]. rewrite IH. intuition congruence.
Qed.

Lemma In_order_by {A} (le : A -> A -> bool) (y : A) (l : list A) :
  In y (Admin.order_by le l) <-> In y l.
Proof.
  unfold Admin.order_by. induction l as [|x l IH]; cbn; [reflexivity|].
  rewrite In_insert_by, IH. intuition congruence.
Qed.

(** Whatever is listed is a row of the table, joined. *)
Lemma listed_is_stored (d : DB) (s : Submission.t) :
  In s (listed_submissions d) ->
  exists k r, job_submissions d !! k = Some r /\ s = Admin.joined d r.
Proof.
  unfold listed_submissions, Admin.query_submissions. cbn [data default from_option id].
  intros H. apply list_elem_of_In, elem_of_take in H as (i & H & _).
  apply list_elem_of_lookup_2, list_elem_of_fmap in H as (r & -> & Hr).
  apply list_elem_of_In, In_order_by, list_elem_of_In in Hr.
  unfold Admin.all_rows in Hr. apply list_elem_of_fmap in Hr as ([k r'] & -> & Hk).
  apply elem_of_map_to_list in Hk. exists k, r'. split; [exact Hk | reflexivity].
Qed.

(** A refresh that the backend accepts: the tables stay, and the page lists
    the submissions as the row store delivers them. *)
Lemma fetchData_lists (w : World) :
  accepting w ->
  exists w',
    Admin.fetchData w = (Ret tt, w') /\
    db w' = db w /\
    allSubmissions (adminPage w') = listed_submissions (db w).
Proof.
  intros Hacc.
  destruct (fetchData_effects w) as (w' & es & Hrun & (Hdb & _) & _).
  exists w'. split; [exact Hrun|]. split; [exact Hdb|].
  pose proof (fetchData_accepted w (accepting_accepts 3 w Hacc)) as (_ & _ & _ & Hlist & _).
  unfold world_after in Hlist. rewrite Hrun in Hlist. exact Hlist.
Qed.

Lemma accepting_after_send (r : Request) (b : bool) (w : World) :
  accepting w -> accepting (after_send r b w).
Proof.
  intros H i. unfold reply_at, after_send. destruct b; cbn; rewrite nth_tail; apply H.
Qed.

Lemma review_accepted (st : Decision) (w : World) (sel : Submission.t) :
  selectedSubmission (adminPage w) = Some sel ->
  accepting w ->
  let w' := world_after (Admin.handleReviewSubmission st) w in
  job_submissions (db w')
  = alter (apply_review (review_update st w)) (Submission.id sel) (job_submissions (db w)) /\
  allSubmissions (adminPage w') = listed_submissions (db w').
Proof.
  intros Hsel Hacc. cbn zeta. unfold review_update.
  pose proof (Hacc 0%nat) as H0. pose proof (Hacc 1%nat) as H1. pose proof (Hacc 2%nat) as H2.
  unfold reply_at in H0, H1, H2.
  unfold Admin.handleReviewSubmission. exec. rewrite Hsel. unfold Admin.review. exec.
  remember (JsDate.toISOString (clock w)) as stamp eqn:Hstamp.
  rewrite run_send. norm. rewrite H0. exec. norm.
  assert (Hlater : forall x, plan x = drop 1 (plan w) \/ plan x = drop 2 (plan w)
                             \/ plan x = drop 3 (plan w) -> accepting x).
  { intros x Hx i. unfold reply_at.
    destruct Hx as [Hx|[Hx|Hx]]; rewrite Hx, nth_drop; apply Hacc. }
  destruct st.
  - rewrite run_send. norm. rewrite H1. exec. norm.
    unfold Admin.query_earnings, rows_at. norm.
    destruct (profiles (db w) !! Submission.user_id sel) as [prof|];
      cbn [fmap list_fmap single]; exec; norm.
    + rewrite run_send. norm. rewrite H2. exec. norm.
      match goal with
      | |- context [Admin.fetchData ?x] =>
          destruct (fetchData_lists x) as (w' & -> & Hdb & Hlist);
            [apply Hlater; right; right; cbn; destruct (plan w) as [|? [|? [|? ?]]]; reflexivity|]
      end.
      exec. norm. rewrite Hlist, Hdb. norm. split; [rewrite Hstamp|]; reflexivity.
    + match goal with
      | |- context [Admin.fetchData ?x] =>
          destruct (fetchData_lists x) as (w' & -> & Hdb & Hlist);
            [apply Hlater; right; left; cbn; destruct (plan w) as [|? [|? ?]]; reflexivity|]
      end.
      exec. norm. rewrite Hlist, Hdb. norm. split; [rewrite Hstamp|]; reflexivity.
  - match goal with
    | |- context [Admin.fetchData ?x] =>
        destruct (fetchData_lists x) as (w' & -> & Hdb & Hlist);
          [apply Hlater; left; cbn; destruct (plan w); reflexivity|]
    end.
    exec. norm. rewrite Hlist, Hdb. norm. split; [rewrite Hstamp|]; reflexivity.
Qed.

(** The sample tables store every submission under its id. *)
Lemma sample_tables_keyed : keyed_by_id Sample.tables.
Proof.
  intros k r H. cbn [Sample.tables job_submissions] in H.
  repeat (apply lookup_insert_Some in H as [[<- <-]|[_ H]]; [reflexivity|]).
  rewrite lookup_empty in H. discriminate.
Qed.

(** X21: after a review that the backend accepts, the submission reviewed is
    listed with the status decided, and is not among the pending
    submissions of the console (rows being stored under their ids). *)
Theorem reviewed_submission_leaves_pending
    (st : Decision) (w : World) (sel s : Submission.t) :
  keyed_by_id (db w) ->
  selectedSubmission (adminPage w) = Some sel ->
  accepting w ->
  let w' := world_after (Admin.handleReviewSubmission st) w in
  In s (allSubmissions (adminPage w')) ->
  Submission.id s = Submission.id sel ->
  Submission.status s = status_of st /\
  ~ In s (AdminJobs.pendingSubmissions (allSubmissions (adminPage w'))).
Proof.
  intros Hkeys Hsel Hacc. cbn zeta.
  destruct (review_accepted st w sel Hsel Hacc) as (Hrows & Hlist).
  rewrite Hlist. intros Hin Hid.
  destruct (listed_is_stored _ s Hin) as (k & r & Hr & ->).
  rewrite Hrows in Hr. cbn [Admin.joined Submission.id Submission.status] in *.
  assert (Hk : k = Submission.id sel).
  { destruct (decide (Submission.id sel = k)) as [E|Hne]; [congruence|].
    rewrite lookup_alter_ne in Hr by assumption. rewrite <- (Hkeys k r Hr). exact Hid. }
  subst k. rewrite lookup_alter_eq in Hr.
  destruct (job_submissions (db w) !! Submission.id sel) as [r0|]; [|discriminate].
  injection Hr as <-. cbn [apply_review SubmissionRow.status review_update ru_status].
  split; [reflexivity|].
  unfold AdminJobs.pendingSubmissions. rewrite filter_In.
  cbn [Admin.joined Submission.status apply_review SubmissionRow.status review_update ru_status].
  intros [_ H]. apply bool_decide_eq_true in H. destruct st; discriminate.
Qed.

Lemma reviewed_submission_leaves_pending_example :
  let w := Sample.reviewing "s-1" [] in
  let w' := world_after (Admin.handleReviewSubmission Reject) w in
  let s := Admin.joined (db w')
             (apply_review (review_update Reject w) (Sample.row "s-1" "u-worker" pending 10)) in
  Submission.status s = rejected /\
  ~ In s (AdminJobs.pendingSubmissions (allSubmissions (adminPage w'))).
Proof.
  apply (reviewed_submission_leaves_pending Reject (Sample.reviewing "s-1" []) Scenario.s1).
  - exact sample_tables_keyed.
  - reflexivity.
  - apply accepting_nil. reflexivity.
  - vm_compute. auto.
  - reflexivity.
Defined.

(** *** Signing in through the form *)

(** What [signIn] hands to the form, and that it leaves the form alone. *)
Lemma signIn_run (em pw : Js.ustring) (w : World) :
  exists w',
    AuthProvider.signIn em pw w
    = (Ret (match answer (auth_reply_at 0 w) with
            | Granted _ => None
            | Refused e =>
                Some (if Js.includes (Js.message e) "Email not confirmed"
                      then verify_first else e)
            | Broken e => Some e
            end), w') /\
    authPage w' = authPage w.
Proof.
  unfold AuthProvider.signIn. exec. auth_step; try fetch_step; exec; norm.
  all: try (destruct (Js.includes (Js.message _) "Email not confirmed"); exec; norm).
  all: eexists; split; [reflexivity|];
    unfold after_auth_sharing, after_auth, AuthProvider.sharing in *; norm; try reflexivity.
  destruct Hframe as (_ & _ & _ & Hpage & _). norm. exact Hpage.
Qed.

(** X22: a valid sign-in form returns with the fields kept and the submitting
    flag false.  On success no API error is set.  An error the auth service
    answers with reaches the form through [signIn]; one that is thrown
    reaches it as it is, and only then can the form show its own "Email not
    confirmed" text together with the verification notice.  The texts are
    chosen by "Email not confirmed" and "Invalid login", else the message,
    else "Failed to sign in. Please try again.". *)
Theorem signIn_form_outcomes (zod_email : Js.ustring -> bool) (w : World) :
  isSignUp (authPage w) = false ->
  Auth.signInSchema zod_email (email (formData (authPage w)))
                    (password (formData (authPage w))) = [] ->
  let w' := world_after (Auth.handleSubmit zod_email) w in
  result_of (Auth.handleSubmit zod_email) w = Ret tt /\
  isSubmitting (authPage w') = false /\
  formData (authPage w') = formData (authPage w) /\
  verificationSent (authPage w')
  = match answer (auth_reply_at 0 w) with
    | Broken e =>
        negb (Js.includes (Js.message e) "Invalid login")
        && Js.includes (Js.message e) "Email not confirmed"
    | _ => false
    end /\
  apiError (authPage w')
  = match answer (auth_reply_at 0 w) with
    | Granted _ => ""
    | Refused e =>
        if Js.includes (Js.message e) "Email not confirmed"
        then "Please verify your email first. Check your inbox."
        else if Js.includes (Js.message e) "Invalid login"
             then "Invalid email or password. Please try again."
             else Js.or_str (Js.message e) "Failed to sign in. Please try again."
    | Broken e =>
        if Js.includes (Js.message e) "Invalid login"
        then "Invalid email or password. Please try again."
        else if Js.includes (Js.message e) "Email not confirmed"
             then "Please verify your email address before logging in."
             else Js.or_str (Js.message e) "Failed to sign in. Please try again."
    end.
Proof.
  intros Hin Hvalid. cbn zeta.
  unfold Auth.handleSubmit. exec. norm. rewrite Hin, Hvalid.
  match goal with
  | |- context [AuthProvider.signIn ?a ?b ?x] =>
      destruct (signIn_run a b x) as (w1 & Hrun & Hpage); rewrite Hrun
  end.
  norm.
  destruct (answer (nth 0 (auth_plan w) _)) as [s|e|e]; exec; norm.
  - rewrite Hpage. repeat split.
  - destruct (Js.includes (Js.message e) "Email not confirmed") eqn:Hc.
    + change (Js.includes (Js.message verify_first) "Invalid login") with false.
      change (Js.includes (Js.message verify_first) "Email not confirmed") with false.
      exec. norm. rewrite Hpage. repeat split.
    + destruct (Js.includes (Js.message e) "Invalid login"); [|rewrite Hc];
        exec; norm; rewrite Hpage; repeat split.
  - destruct (Js.includes (Js.message e) "Invalid login");
      [|destruct (Js.includes (Js.message e) "Email not confirmed")];
      exec; norm; rewrite Hpage; repeat split.
Qed.

Lemma signIn_form_outcomes_example :
  let w := Scenario.form false Scenario.good_password []
             [mkAuthReply 150 (Broken (Js.mkError "Email not confirmed")) None] in
  let w' := world_after (Auth.handleSubmit (fun _ => true)) w in
  result_of (Auth.handleSubmit (fun _ => true)) w = Ret tt /\
  isSubmitting (authPage w') = false /\
  formData (authPage w') = formData (authPage w) /\
  verificationSent (authPage w') = true /\
  apiError (authPage w') = "Please verify your email address before logging in.".
Proof.
  apply (signIn_form_outcomes
           (fun _ => true)
           (Scenario.form false Scenario.good_password []
              [mkAuthReply 150 (Broken (Js.mkError "Email not confirmed")) None]));
    reflexivity.
Defined.

(** *** File names *)

Lemma squeeze_plain (b : bool) (s : Js.ustring) :
  forallb (fun c => negb (Cloudinary.invalid c)) s = true ->
  forallb Cloudinary.plain (Cloudinary.squeeze b s) = true.
Proof.
  revert b. induction s as [|c s IH]; intros b; cbn; [reflexivity|].
  intros H. apply andb_prop in H as [Hc Hs].
  destruct (Cloudinary.whitespace c) eqn:Hw.
  - destruct b; cbn; rewrite ?IH by assumption; reflexivity.
  - cbn. unfold Cloudinary.plain at 1. rewrite Hc, Hw, IH by assumption. reflexivity.
Qed.

Lemma squeeze_id (s : Js.ustring) :
  forallb Cloudinary.plain s = true -> Cloudinary.squeeze false s = s.
Proof.
  induction s as [|c s IH]; cbn; [reflexivity|].
  intros H. apply andb_prop in H as [Hc Hs]. unfold Cloudinary.plain in Hc.
  apply andb_prop in Hc as [_ Hw]. apply negb_true_iff in Hw. rewrite Hw, IH by assumption.
  reflexivity.
Qed.

Lemma replace_id (s : Js.ustring) :
  forallb Cloudinary.plain s = true ->
  (fun c => if Cloudinary.invalid c then Cloudinary.underscore else c) <$> s = s.
Proof.
  induction s as [|c s IH]; cbn; [reflexivity|].
  intros H. apply andb_prop in H as [Hc Hs]. unfold Cloudinary.plain in Hc.
  apply andb_prop in Hc as [Hi _]. apply negb_true_iff in Hi.
  change (list_fmap N N ?f s) with (f <$> s). rewrite Hi, IH by assumption. reflexivity.
Qed.

Lemma forallb_take {A} (P : A -> bool) (n : nat) (l : list A) :
  forallb P l = true -> forallb P (take n l) = true.
Proof.
  revert n. induction l as [|x l IH]; intros [|n]; cbn; try reflexivity.
  intros H. apply andb_prop in H as [Hx Hl]. rewrite Hx, IH by assumption. reflexivity.
Qed.

Lemma sanitize_plain (s : Js.ustring) :
  forallb Cloudinary.plain s = true -> (length s <= 255)%nat ->
  Cloudinary.sanitizeFilename s = s.
Proof.
  intros Hp Hl. unfold Cloudinary.sanitizeFilename.
  rewrite replace_id, squeeze_id by assumption. apply take_ge. exact Hl.
Qed.

(** X23: the result of [sanitizeFilename] has at most 255 code units and
    none of them is white space or one of the nine forbidden characters;
    sanitizing it again changes nothing; and a name that is already of that
    kind is returned as it is. *)
Theorem sanitizeFilename_is_clean (filename : Js.ustring) :
  let clean := Cloudinary.sanitizeFilename filename in
  (length clean <= 255)%nat /\
  forallb Cloudinary.plain clean = true /\
  Cloudinary.sanitizeFilename clean = clean /\
  (forallb Cloudinary.plain filename = true -> (length filename <= 255)%nat ->
   clean = filename).
Proof.
  cbn zeta.
  assert (Hlen : (length (Cloudinary.sanitizeFilename filename) <= 255)%nat).
  { unfold Cloudinary.sanitizeFilename. rewrite length_take. apply Nat.le_min_l. }
  assert (Hplain : forallb Cloudinary.plain (Cloudinary.sanitizeFilename filename) = true).
  { unfold Cloudinary.sanitizeFilename. apply forallb_take, squeeze_plain.
    clear Hlen. induction filename as [|c s IH]; cbn; [reflexivity|].
    change (list_fmap N N ?f s) with (f <$> s). rewrite IH, andb_true_r.
    destruct (Cloudinary.invalid c) eqn:E; [reflexivity | rewrite E; reflexivity]. }
  repeat split; try assumption.
  - apply sanitize_plain; assumption.
  - apply sanitize_plain.
Qed.

(** *** A refused review *)

(** X24: when the update of the submission fails (an error in the answer, or
    a rejected request), a review changes no table and sends nothing else:
    the one toast shows the message of the error, or "Failed to review
    submission", the dialog stays open on the submission with the feedback
    typed, and the reviewing flag ends false. *)
Theorem review_refused (st : Decision) (w : World) (sel : Submission.t) (e : Js.Error) :
  selectedSubmission (adminPage w) = Some sel ->
  fault (reply_at 0 w) = Fails e \/ fault (reply_at 0 w) = Rejects e ->
  let w' := world_after (Admin.handleReviewSubmission st) w in
  result_of (Admin.handleReviewSubmission st) w = Ret tt /\
  db w' = db w /\
  sent (new_events w w')
  = [UpdateSubmission (Submission.id sel)
       {| ru_status := status_of st;
          ru_admin_feedback := Js.or_null (feedback (adminPage w));
          ru_reviewed_at := JsDate.toISOString (clock w);
          ru_reviewed_by := uid <$> user (facade w) |}] /\
  List.filter is_toast (new_events w w')
  = [Toast "Error" (Js.or_str (Js.message e) "Failed to review submission")
           (Some "destructive")] /\
  selectedSubmission (adminPage w') = Some sel /\
  reviewDialogOpen (adminPage w') = reviewDialogOpen (adminPage w) /\
  feedback (adminPage w') = feedback (adminPage w) /\
  isReviewing (adminPage w') = false.
Proof.
  intros Hsel Hf. cbn zeta.
  unfold Admin.handleReviewSubmission. exec. rewrite Hsel. unfold Admin.review. exec.
  rewrite run_send. norm.
  destruct Hf as [Hf|Hf]; rewrite Hf; exec; norm; read_events;
    repeat split; try reflexivity; assumption.
Qed.

Lemma review_refused_example :
  let w := Sample.reviewing "s-1" [mkReply 120 (Fails (Js.mkError "permission denied"))] in
  let w' := world_after (Admin.handleReviewSubmission Approve) w in
  result_of (Admin.handleReviewSubmission Approve) w = Ret tt /\
  db w' = db w /\
  sent (new_events w w')
  = [UpdateSubmission "s-1"
       {| ru_status := approved;
          ru_admin_feedback := Js.or_null (feedback (adminPage w));
          ru_reviewed_at := JsDate.toISOString (clock w);
          ru_reviewed_by := uid <$> user (facade w) |}] /\
  List.filter is_toast (new_events w w')
  = [Toast "Error" "permission denied" (Some "destructive")] /\
  selectedSubmission (adminPage w') = Some Scenario.s1 /\
  reviewDialogOpen (adminPage w') = reviewDialogOpen (adminPage w) /\
  feedback (adminPage w') = feedback (adminPage w) /\
  isReviewing (adminPage w') = false.
Proof.
  apply (review_refused Approve
           (Sample.reviewing "s-1" [mkReply 120 (Fails (Js.mkError "permission denied"))])
           Scenario.s1 (Js.mkError "permission denied"));
    [reflexivity | left; reflexivity].
Defined.

(** *** The counts of the console *)

Lemma insert_by_perm {A} (le : A -> A -> bool) (x : A) (l : list A) :
  Admin.insert_by le x l ≡ₚ x :: l.
Proof.
  induction l as [|y l IH]; cbn; [reflexivity|].
  destruct (le x y); [reflexivity|]. rewrite IH. apply perm_swap.
Qed.

Lemma order_by_perm {A} (le : A -> A -> bool) (l : list A) : Admin.order_by le l ≡ₚ l.
Proof.
  unfold Admin.order_by. induction l as [|x l IH]; cbn; [reflexivity|].
  rewrite insert_by_perm, IH. reflexivity.
Qed.

Lemma count_perm {A} (P : A -> bool) (l l' : list A) :
  l ≡ₚ l' -> length (List.filter P l) = length (List.filter P l').
Proof.
  induction 1 as [|x l l' _ IH|x y l|l l' l'' _ IH1 _ IH2]; cbn.
  - reflexivity.
  - destruct (P x); cbn; rewrite IH; reflexivity.
  - destruct (P x), (P y); reflexivity.
  - rewrite IH1. exact IH2.
Qed.

Lemma count_fmap {A B} (f : A -> B) (P : B -> bool) (l : list A) :
  List.filter P (f <$> l) = f <$> List.filter (fun x => P (f x)) l.
Proof.
  induction l as [|x l IH]; cbn; [reflexivity|].
  change (list_fmap A B f l) with (f <$> l). rewrite IH. destruct (P (f x)); reflexivity.
Qed.

Lemma count_take {A} (P : A -> bool) (n : nat) (l : list A) :
  (length (List.filter P (take n l)) <= length (List.filter P l))%nat.
Proof.
  revert n. induction l as [|x l IH]; intros [|n]; cbn; try lia.
  specialize (IH n). destruct (P x); cbn; lia.
Qed.

(** X25: after a refresh that the backend accepts, the four cards of the
    console show the number of jobs, the number of active jobs, the number
    of pending submissions among those listed, and the number of listed
    submissions, which is at most 100.  The pending count never exceeds the
    number of pending rows of the table, and equals it when the table holds
    at most 100 submissions. *)
Theorem stats_count_the_listed_rows (w : World) :
  accepts 3 w ->
  let w' := world_after Admin.fetchData w in
  let shown := length (AdminJobs.pendingSubmissions (allSubmissions (adminPage w'))) in
  AdminJobs.stats (adminPage w')
  = [("Total Jobs", Z.of_nat (size (jobs (db w))));
     ("Active Jobs",
      Z.of_nat (length (List.filter Job.is_active (Admin.all_rows (jobs (db w))))));
     ("Pending Reviews", Z.of_nat shown);
     ("Total Submissions", Z.of_nat (100 `min` size (job_submissions (db w))))] /\
  (shown <= length (waiting (db w)))%nat /\
  ((size (job_submissions (db w)) <= 100)%nat -> shown = length (waiting (db w))).
Proof.
  intros Hacc. cbn zeta.
  destruct (fetchData_accepted w Hacc) as (_ & Hjobs & _ & Hsubs & _).
  unfold AdminJobs.stats. rewrite Hjobs, Hsubs.
  unfold listed_jobs, listed_submissions, Admin.query_jobs, Admin.query_submissions.
  cbn [data default from_option id].
  set (newest := Admin.order_by _ (Admin.all_rows (job_submissions (db w)))).
  set (jobs_newest := Admin.order_by _ (Admin.all_rows (jobs (db w)))).
  assert (Hn : newest ≡ₚ Admin.all_rows (job_submissions (db w))) by apply order_by_perm.
  assert (Hj : jobs_newest ≡ₚ Admin.all_rows (jobs (db w))) by apply order_by_perm.
  assert (Hsize : length newest = size (job_submissions (db w))).
  { rewrite Hn. unfold Admin.all_rows. rewrite length_fmap. apply length_map_to_list. }
  assert (Hwait : length (AdminJobs.pendingSubmissions (Admin.joined (db w) <$> newest))
                  = length (waiting (db w))).
  { unfold AdminJobs.pendingSubmissions, waiting. rewrite count_fmap, length_fmap.
    cbn [Admin.joined Submission.status]. apply count_perm, Hn. }
  split; [|split].
  - repeat f_equal.
    + rewrite length_fmap, Hj. unfold Admin.all_rows.
      rewrite length_fmap. apply length_map_to_list.
    + rewrite count_fmap, length_fmap. cbn [fst]. apply count_perm, Hj.
    + rewrite length_take, length_fmap, Hsize. reflexivity.
  - rewrite <- Hwait. apply count_take.
  - intros Hfew. rewrite take_ge by (rewrite length_fmap; lia). exact Hwait.
Qed.

Lemma stats_count_the_listed_rows_example :
  let w := Scenario.offering [] in
  let w' := world_after Admin.fetchData w in
  let shown := length (AdminJobs.pendingSubmissions (allSubmissions (adminPage w'))) in
  AdminJobs.stats (adminPage w')
  = [("Total Jobs", Z.of_nat (size (jobs (db w))));
     ("Active Jobs",
      Z.of_nat (length (List.filter Job.is_active (Admin.all_rows (jobs (db w))))));
     ("Pending Reviews", Z.of_nat shown);
     ("Total Submissions", Z.of_nat (100 `min` size (job_submissions (db w))))] /\
  (shown <= length (waiting (db w)))%nat /\
  ((size (job_submissions (db w)) <= 100)%nat -> shown = length (waiting (db w))).
Proof.
  apply (stats_count_the_listed_rows (Scenario.offering [])). reflexivity.
Defined.
